(** * ap_stat: the binning core of the dotplot

    A shallow embedding of [get_stack_keys], [get_stack_dict],
    [get_points] and [dotplot] of [ap_stat.py], and the properties of the
    binning pipeline proved over it.

    Number models.  The module is duck-typed: it computes with whatever
    numbers the dataset holds.  Two embeddings of the same code are given.

    - Exact arithmetic (the top level of this file).  A number is its
      exact rational value (type [Q]); two numbers compare equal, and
      collide as dictionary keys, exactly when their values are [Qeq].
      This is the program on [fractions.Fraction] data, whose [+ - * /]
      are exact.  The comparisons of the Binner and the loops of the
      Point Projector are the same on every kind of number, so what is
      proved here for an arbitrary key sequence does not depend on how
      the keys were computed.  The values of generated keys do: on [int]
      and [float] data Python's [/] is true division in binary64, and
      the exact values are then only what the rounded keys approximate.

    - Binary64 (module [Binary64]).  A number is a Python [int] or
      [float]; [int] arithmetic is exact, [float] arithmetic rounds to
      the nearest binary64 value (ties to even), [/] always gives a
      [float], and an [int] beyond the float range raises
      [OverflowError] when it has to become a [float].  This is the
      program on [int] and [float] data; it is executable and is used
      where rounding decides the outcome.

    [num_stacks] and list indices are Python [int]s, i.e. [Z].
    Exceptions are modelled by the error side of [result]. *)

From Stdlib Require Import List ZArith QArith Lia Lqa Bool Permutation.
From Stdlib Require Import Setoid Morphisms.
From Stdlib Require Import SpecFloat.
From Stdlib Require String.
Import String.StringSyntax.
Import ListNotations.
Delimit Scope string_scope with string.

Set Implicit Arguments.

(** ** Exceptions and the error monad *)

Inductive exn : Type :=
| ValueError          (* max() / min() of an empty sequence *)
| ZeroDivisionError   (* x / 0 *)
| OverflowError       (* an int too large for a float *)
| IndexError          (* list index out of range *)
| KeyError.           (* missing dictionary key *)

Definition result (A : Type) : Type := (exn + A)%type.

Definition ret {A : Type} (a : A) : result A := inr a.
Definition raise {A : Type} (e : exn) : result A := inl e.

Definition bind {A B : Type} (m : result A) (k : A -> result B) : result B :=
  match m with
  | inl e => inl e
  | inr a => k a
  end.

Declare Scope py_scope.
Delimit Scope py_scope with py.
Notation "x <- m ;; k" := (bind m (fun x => k))
  (at level 61, m at next level, right associativity) : py_scope.
Notation "' p <- m ;; k" := (bind m (fun x => match x with p => k end))
  (at level 61, p pattern, m at next level, right associativity) : py_scope.
Local Open Scope py_scope.

(** A list comprehension whose element expression may raise. *)
Fixpoint mapM {A B : Type} (f : A -> result B) (l : list A) : result (list B) :=
  match l with
  | [] => ret []
  | a :: l' => b <- f a ;; bs <- mapM f l' ;; ret (b :: bs)
  end.

(** A [for] loop whose body may raise, threading the loop state. *)
Fixpoint foldM {A S : Type} (body : S -> A -> result S) (l : list A) (s : S)
  : result S :=
  match l with
  | [] => ret s
  | a :: l' => s' <- body s a ;; foldM body l' s'
  end.

(** ** Python built-ins used by the module *)

Definition num_lt (x y : Q) : bool := negb (Qle_bool y x).
Definition num_le (x y : Q) : bool := Qle_bool x y.
Definition num_eq (x y : Q) : bool := Qeq_bool x y.

Definition len {A : Type} (l : list A) : Z := Z.of_nat (length l).

(** [range(a, b)] and [range(n)]. *)
Definition range2 (a b : Z) : list Z :=
  map (fun k => (a + Z.of_nat k)%Z) (seq 0 (Z.to_nat (b - a))).
Definition range (n : Z) : list Z := range2 0 n.

(** [l[i]], negative indices counting from the end. *)
Definition py_index {A : Type} (l : list A) (i : Z) : result A :=
  let j := if (i <? 0)%Z then (i + len l)%Z else i in
  if (j <? 0)%Z then raise IndexError
  else match nth_error l (Z.to_nat j) with
       | Some a => ret a
       | None => raise IndexError
       end.

(** [max(data)]: the first maximal element; [ValueError] when empty. *)
Definition max_from (x : Q) (xs : list Q) : Q :=
  fold_left (fun m y => if num_lt m y then y else m) xs x.
Definition py_max (data : list Q) : result Q :=
  match data with
  | [] => raise ValueError
  | x :: xs => ret (max_from x xs)
  end.

(** [min(data)]: the first minimal element; [ValueError] when empty. *)
Definition min_from (x : Q) (xs : list Q) : Q :=
  fold_left (fun m y => if num_lt y m then y else m) xs x.
Definition py_min (data : list Q) : result Q :=
  match data with
  | [] => raise ValueError
  | x :: xs => ret (min_from x xs)
  end.

(** [a / b] for an exact rational [a] and an [int] [b]: the exact
    quotient, as [Fraction.__truediv__] gives it. *)
Definition py_div (a : Q) (b : Z) : result Q :=
  if (b =? 0)%Z then raise ZeroDivisionError else ret (a / inject_Z b).

(** [enumerate(l)]. *)
Definition enumerate {A : Type} (l : list A) : list (Z * A) :=
  combine (range (len l)) l.

(** ** Dictionaries keyed by numbers

    A [dict] keeps its entries in insertion order.  Keys are compared
    with [==] on numbers, and an entry keeps the key object it was
    created with. *)

Definition dict : Type := list (Q * list Q).

Fixpoint dict_get (d : dict) (k : Q) : option (list Q) :=
  match d with
  | [] => None
  | (k', v) :: d' => if num_eq k' k then Some v else dict_get d' k
  end.

(** [d[k] = v] *)
Fixpoint dict_set (d : dict) (k : Q) (v : list Q) : dict :=
  match d with
  | [] => [(k, v)]
  | (k', v') :: d' =>
      if num_eq k' k then (k', v) :: d' else (k', v') :: dict_set d' k v
  end.

(** [{key: [] for key in keys}] *)
Definition dict_init (keys : list Q) : dict :=
  fold_left (fun d key => dict_set d key []) keys [].

(** [d[k].append(x)]: the list stored under [k] is extended in place. *)
Definition dict_append (d : dict) (k x : Q) : result dict :=
  match dict_get d k with
  | None => raise KeyError
  | Some v => ret (dict_set d k (v ++ [x]))
  end.

(** ** get_stack_keys

    In exact arithmetic; [Binary64.get_stack_keys] is the same function
    on [int] and [float] data. *)

Definition get_stack_keys (data : list Q) (num_stacks : Z) : result (list Q) :=
  upper_bound <- py_max data ;;
  lower_bound <- py_min data ;;
  mapM (fun i =>
          q <- py_div (inject_Z i * (upper_bound - lower_bound))
                      (num_stacks - 1) ;;
          ret (lower_bound + q))
       (range num_stacks).

(** ** get_stack_dict *)

(** [keys[i-1] <= observation < keys[i]], evaluated left to right. *)
Definition between (keys : list Q) (observation : Q) (i : Z) : result bool :=
  lo <- py_index keys (i - 1) ;;
  if num_le lo observation
  then hi <- py_index keys i ;; ret (num_lt observation hi)
  else ret false.

(** The inner loop [for i in range(1, len(keys))] with its [break];
    the result carries the flag [add_to_end]. *)
Fixpoint scan (keys : list Q) (observation : Q) (indices : list Z)
         (stack_dict : dict) : result (bool * dict) :=
  match indices with
  | [] => ret (true, stack_dict)
  | i :: rest =>
      b <- between keys observation i ;;
      if b
      then key <- py_index keys (i - 1) ;;
           stack_dict' <- dict_append stack_dict key observation ;;
           ret (false, stack_dict')
      else scan keys observation rest stack_dict
  end.

(** The body of the loop [for observation in data]. *)
Definition place (keys : list Q) (stack_dict : dict) (observation : Q)
  : result dict :=
  '(add_to_end, stack_dict') <-
     scan keys observation (range2 1 (len keys)) stack_dict ;;
  if add_to_end
  then key <- py_index keys (-1) ;;
       dict_append stack_dict' key observation
  else ret stack_dict'.

Definition get_stack_dict (data : list Q) (num_stacks : Z)
           (keys : option (list Q)) : result dict :=
  keys <- match keys with
          | None => get_stack_keys data num_stacks
          | Some ks => ret ks
          end ;;
  foldM (place keys) data (dict_init keys).

(** ** get_points *)

Definition get_points (stack_dict : dict) : list (Q * Z) :=
  fold_left
    (fun ordered_pairs '(key, observations) =>
       fold_left (fun ordered_pairs '(i, obs) =>
                    ordered_pairs ++ [(key, (i + 1)%Z)])
                 (enumerate observations) ordered_pairs)
    stack_dict [].

(** The dataset of the module's docstring. *)
Definition observations : list Q :=
  [1; 2; 3; 3; 3; 3; 5; 6; 6; 2; 3; 4; 2; 1; 2].

(** * Specification-level notions

    What the claims speak about, stated independently of the loops of the
    source, to be compared with the embedded functions. *)

(** [list(d.keys())] *)
Definition dict_keys (d : dict) : list Q := map fst d.

(** [k in ks], with Python's [==] on numbers. *)
Definition key_in (k : Q) (ks : list Q) : bool :=
  existsb (fun k' => num_eq k' k) ks.

(** Every boundary key is a key of the mapping. *)
Definition covered (keys : list Q) (d : dict) : Prop :=
  forall k, In k keys -> key_in k (dict_keys d) = true.

(** All observations held by the mapping, bin after bin. *)
Definition bin_contents (d : dict) : list Q := concat (map snd d).

(** The sum of the lengths of the bin lists. *)
Definition bin_total (d : dict) : nat := list_sum (map (fun kv => length (snd kv)) d).

(** The boundary keys with later duplicates dropped. *)
Definition first_occurrences (keys : list Q) : list Q :=
  fold_left (fun acc k => if key_in k acc then acc else acc ++ [k]) keys [].

(** Pairwise distinct numbers. *)
Fixpoint distinct (keys : list Q) : Prop :=
  match keys with
  | [] => True
  | k :: ks => key_in k ks = false /\ distinct ks
  end.

(** The [i]-th key, [0 <= i < len keys]. *)
Definition key (keys : list Q) (i : Z) : Q := nth (Z.to_nat i) keys 0.

(** The adjacent pair [(key[i-1], key[i])] encloses the observation. *)
Definition encloses (keys : list Q) (observation : Q) (i : Z) : Prop :=
  key keys (i - 1) <= observation /\ observation < key keys i.

Definition enclosesb (keys : list Q) (observation : Q) (i : Z) : bool :=
  num_le (key keys (i - 1)) observation && num_lt observation (key keys i).

(** The key whose list receives the observation: the lower key of the
    first enclosing pair, the last key when there is none. *)
Definition target (keys : list Q) (observation : Q) : Q :=
  match find (enclosesb keys observation) (range2 1 (len keys)) with
  | Some i => key keys (i - 1)
  | None => last keys 0
  end.

(** Every observation held by the mapping sits under its target key. *)
Definition placed (keys : list Q) (d : dict) : Prop :=
  forall k v x, In (k, v) d -> In x v -> target keys x == k.

(** The points of one stack: heights [1 .. len v] over [k]. *)
Definition stack_points (kv : Q * list Q) : list (Q * Z) :=
  map (fun h => (fst kv, Z.of_nat h)) (seq 1 (length (snd kv))).

(** The [i]-th of [n] evenly spaced values from [lo] to [hi]. *)
Definition spaced (lo hi : Q) (n i : Z) : Q :=
  lo + inject_Z i * (hi - lo) / inject_Z (n - 1).

(** The boundary keys the Binner works with: the caller's, or else the
    Key Generator's. *)
Definition boundary_keys (data : list Q) (num_stacks : Z)
           (keys : option (list Q)) : result (list Q) :=
  match keys with
  | None => get_stack_keys data num_stacks
  | Some ks => ret ks
  end.

(** [d'] is [d] after one observation [x] was appended to the list of
    key [k], every other list and the key order untouched. *)
Definition appended (d : dict) (k x : Q) (d' : dict) : Prop :=
  exists v, dict_get d k = Some v /\
            dict_get d' k = Some (v ++ [x]) /\
            (forall k2, ~ k2 == k -> dict_get d' k2 = dict_get d k2) /\
            dict_keys d' = dict_keys d /\
            bin_total d' = S (bin_total d).

(** The mapping the Binner is to return for the boundary keys [keys]:
    one bin per distinct key, in the order of first occurrence, holding
    in dataset order the observations whose target is that key. *)
Definition binned (keys data : list Q) : dict :=
  map (fun k => (k, filter (fun x => num_eq (target keys x) k) data))
      (first_occurrences keys).

(** * dotplot

    [dotplot] drives matplotlib.  The calls it issues are recorded, in
    order and with the argument values the module computes, in a trace;
    a call into the library is taken to return.  The exceptions modelled
    are those of the module's own expressions. *)

Inductive spine : Type := SpineTop | SpineLeft | SpineRight.

Inductive plt_call : Type :=
| PltFigure (figsize : Z * Z)
| PltScatter (xs : list Q) (ys : list Z) (s : Q)
| PltYticks (ticks : list Q)
| PltYaxisSetVisible (b : bool)
| PltXticks (ticks : list Q) (fontsize : Q) (rotation : option Z)
| PltYlim (bottom top : Q)
| PltSpineSetVisible (sp : spine) (b : bool)
| PltTitle (label : String.string) (fontsize : Q)
| PltXlabel (label : String.string) (fontsize : Q)
| PltYlabel (label : String.string) (fontsize : Q)
| PltSavefig (fname : String.string)
| PltShow.

(** A computation that issues calls and may raise: from the calls issued
    so far to the calls issued at its end and its outcome. *)
Definition plot (A : Type) : Type := list plt_call -> list plt_call * result A.

Definition plot_ret {A : Type} (a : A) : plot A := fun t => (t, ret a).

Definition plot_bind {A B : Type} (m : plot A) (k : A -> plot B) : plot B :=
  fun t => match m t with
           | (t', inl e) => (t', inl e)
           | (t', inr a) => k a t'
           end.

(** An expression of the module, which may raise. *)
Definition eval {A : Type} (r : result A) : plot A := fun t => (t, r).

(** A call into matplotlib. *)
Definition call (c : plt_call) : plot unit := fun t => (t ++ [c], ret tt).

Notation "x <~ m ;; k" := (plot_bind m (fun x => k))
  (at level 61, m at next level, right associativity) : py_scope.
Notation "m ;;; k" := (plot_bind m (fun _ => k))
  (at level 61, right associativity) : py_scope.

(** Truth value of an optional text argument: [None] and the empty
    string are false. *)
Definition truthy (s : option String.string) : bool :=
  match s with
  | None => false
  | Some s => negb (String.eqb s ""%string)
  end.

(** [max(ys)] on integers. *)
Definition py_max_int (ys : list Z) : result Z :=
  match ys with
  | [] => raise ValueError
  | y :: ys' => ret (fold_left (fun m z => if (m <? z)%Z then z else m) ys' y)
  end.

(** The value of the literal [1.1]. *)
Definition float_1_1 : Q := 2476979795053773 # 2251799813685248.

(** [plt.<label>(text, fontsize=size/num_stacks)] under [if text:]. *)
Definition labelled (text : option String.string) (size : Q) (num_stacks : Z)
           (mk : String.string -> Q -> plt_call) : plot unit :=
  match text with
  | Some t =>
      if truthy text
      then fontsize <~ eval (py_div size num_stacks) ;; call (mk t fontsize)
      else plot_ret tt
  | None => plot_ret tt
  end.

Definition dotplot (data : list Q) (num_stacks : Z) (keys : option (list Q))
           (rotation : option Z) (title xlabel ylabel : option String.string)
           (filename : String.string) (show : bool) : plot unit :=
  stack_dict <~ eval (get_stack_dict data num_stacks keys) ;;
  let keys := dict_keys stack_dict in
  let points := get_points stack_dict in
  let xs := map fst points in
  let ys := map snd points in
  call (PltFigure (15, 7)%Z) ;;;
  s <~ eval (py_div 4000 (len keys)) ;;
  call (PltScatter xs ys s) ;;;
  (if truthy ylabel
   then call (PltYticks [])
   else call (PltYaxisSetVisible false)) ;;;
  fontsize <~ eval (py_div 200 num_stacks) ;;
  call (PltXticks (dict_keys stack_dict) fontsize rotation) ;;;
  top <~ eval (py_max_int ys) ;;
  call (PltYlim 0 (float_1_1 * inject_Z top)) ;;;
  call (PltSpineSetVisible SpineTop false) ;;;
  call (PltSpineSetVisible SpineLeft false) ;;;
  call (PltSpineSetVisible SpineRight false) ;;;
  labelled title 220 num_stacks PltTitle ;;;
  labelled xlabel 180 num_stacks PltXlabel ;;;
  labelled ylabel 180 num_stacks PltYlabel ;;;
  call (PltSavefig filename) ;;;
  (if show then call PltShow else plot_ret tt).

(** The calls issued by a run from scratch, and its outcome. *)
Definition trace_of {A : Type} (m : plot A) : list plt_call := fst (m []).
Definition outcome_of {A : Type} (m : plot A) : result A := snd (m []).

(** The call issued for an optional label, for a non-zero stack count. *)
Definition label_calls (text : option String.string) (size : Q)
           (num_stacks : Z) (mk : String.string -> Q -> plt_call)
  : list plt_call :=
  match text with
  | Some t => if truthy text then [mk t (size / inject_Z num_stacks)] else []
  | None => []
  end.

(** The calls of [dotplot] up to the tick marks, for a mapping [d]. *)
Definition rendering_head (d : dict) (num_stacks : Z) (rotation : option Z)
           (ylabel : option String.string) : list plt_call :=
  [PltFigure (15, 7)%Z;
   PltScatter (map fst (get_points d)) (map snd (get_points d))
              (4000 / inject_Z (len (dict_keys d)));
   (if truthy ylabel then PltYticks [] else PltYaxisSetVisible false);
   PltXticks (dict_keys d) (200 / inject_Z num_stacks) rotation].

(** The calls of [dotplot] from the vertical limits to the labels, the
    tallest stack having [top] points. *)
Definition rendering_body (top num_stacks : Z)
           (title xlabel ylabel : option String.string) : list plt_call :=
  [PltYlim 0 (float_1_1 * inject_Z top);
   PltSpineSetVisible SpineTop false;
   PltSpineSetVisible SpineLeft false;
   PltSpineSetVisible SpineRight false]
  ++ label_calls title 220 num_stacks PltTitle
  ++ label_calls xlabel 180 num_stacks PltXlabel
  ++ label_calls ylabel 180 num_stacks PltYlabel.

(** The calls that write the file and show the figure. *)
Definition rendering_tail (filename : String.string) (show : bool)
  : list plt_call :=
  PltSavefig filename :: (if show then [PltShow] else []).

(** A call that neither writes the file nor shows the figure. *)
Definition draws_only (c : plt_call) : Prop :=
  match c with
  | PltSavefig _ | PltShow => False
  | _ => True
  end.

(** * The module on [int] and [float] data

    The same three functions with Python's own numbers.  The floats are
    those of [SpecFloat] at precision 53 and maximal exponent 1024, whose
    operations round to nearest, ties to even, as the hardware does. *)

Module Binary64.

Local Open Scope Z_scope.

Definition prec : Z := 53.
Definition emax : Z := 1024.

(** A Python number: an [int] of any size, or a [float]. *)
Inductive num : Type :=
| PyInt (z : Z)
| PyFloat (f : spec_float).

(** [float(z)]: the nearest float; [OverflowError] when [z] is beyond
    the float range. *)
Definition float_of_int (z : Z) : result spec_float :=
  match binary_normalize prec emax z 0 false with
  | S754_infinity _ => raise OverflowError
  | f => ret f
  end.

(** The operand of a [float] operation: an [int] is converted first. *)
Definition as_float (x : num) : result spec_float :=
  match x with
  | PyInt z => float_of_int z
  | PyFloat f => ret f
  end.

(** [a + b], [a - b], [a * b]: exact on two [int]s; otherwise both
    operands are taken as floats, left one first, and the result is the
    rounded float (an infinity on overflow, no exception). *)
Definition arith (int_op : Z -> Z -> Z)
           (float_op : spec_float -> spec_float -> spec_float)
           (a b : num) : result num :=
  match a, b with
  | PyInt x, PyInt y => ret (PyInt (int_op x y))
  | _, _ => x <- as_float a ;; y <- as_float b ;; ret (PyFloat (float_op x y))
  end.

Definition py_add : num -> num -> result num := arith Z.add (SFadd prec emax).
Definition py_sub : num -> num -> result num := arith Z.sub (SFsub prec emax).
Definition py_mul : num -> num -> result num := arith Z.mul (SFmul prec emax).

(** An [int] as the operand of the correctly rounded quotient of two
    [int]s: the mantissa is the integer itself, whatever its size. *)
Definition int_operand (z : Z) : spec_float :=
  match z with
  | Z0 => S754_zero false
  | Zpos p => S754_finite false p 0
  | Zneg p => S754_finite true p 0
  end.

Definition is_zero (f : spec_float) : bool :=
  match f with
  | S754_zero _ => true
  | _ => false
  end.

(** [a / b], true division.  On two [int]s: [ZeroDivisionError] for a
    zero divisor, else the float nearest to the exact quotient,
    [OverflowError] when that is beyond the float range.  Otherwise both
    operands are taken as floats, and a zero divisor raises
    [ZeroDivisionError]. *)
Definition py_truediv (a b : num) : result num :=
  match a, b with
  | PyInt x, PyInt y =>
      if y =? 0 then raise ZeroDivisionError
      else match SFdiv prec emax (int_operand x) (int_operand y) with
           | S754_infinity _ => raise OverflowError
           | q => ret (PyFloat q)
           end
  | _, _ =>
      x <- as_float a ;; y <- as_float b ;;
      if is_zero y then raise ZeroDivisionError
      else ret (PyFloat (SFdiv prec emax x y))
  end.

(** The float a decimal literal denotes: the one nearest to [n / d];
    [decimal 3 10] is [0.3], [decimal 5 1] is [5.0]. *)
Definition decimal (n d : Z) : num :=
  PyFloat (SFdiv prec emax (int_operand n) (int_operand d)).

(** The mathematical value of a number: [m * 2^e], an infinity, or none. *)
Inductive value : Type :=
| NotANumber
| MinusInfinity
| PlusInfinity
| Dyadic (m e : Z).

Definition value_of (x : num) : value :=
  match x with
  | PyInt z => Dyadic z 0
  | PyFloat (S754_zero _) => Dyadic 0 0
  | PyFloat (S754_finite s m e) => Dyadic (cond_Zopp s (Zpos m)) e
  | PyFloat (S754_infinity s) => if s then MinusInfinity else PlusInfinity
  | PyFloat S754_nan => NotANumber
  end.

(** Python compares two numbers, [int] or [float], by their values;
    nothing compares with a NaN. *)
Definition num_compare (x y : num) : option comparison :=
  match value_of x, value_of y with
  | NotANumber, _ | _, NotANumber => None
  | MinusInfinity, MinusInfinity | PlusInfinity, PlusInfinity => Some Eq
  | MinusInfinity, _ | _, PlusInfinity => Some Lt
  | PlusInfinity, _ | _, MinusInfinity => Some Gt
  | Dyadic m1 e1, Dyadic m2 e2 =>
      let e := Z.min e1 e2 in
      Some (Z.shiftl m1 (e1 - e) ?= Z.shiftl m2 (e2 - e))
  end.

Definition num_lt (x y : num) : bool :=
  match num_compare x y with
  | Some Lt => true
  | _ => false
  end.

Definition num_le (x y : num) : bool :=
  match num_compare x y with
  | Some (Lt | Eq) => true
  | _ => false
  end.

Definition num_eq (x y : num) : bool :=
  match num_compare x y with
  | Some Eq => true
  | _ => false
  end.

(** [max(data)] and [min(data)]. *)
Definition max_from (x : num) (xs : list num) : num :=
  fold_left (fun m y => if num_lt m y then y else m) xs x.
Definition py_max (data : list num) : result num :=
  match data with
  | [] => raise ValueError
  | x :: xs => ret (max_from x xs)
  end.

Definition min_from (x : num) (xs : list num) : num :=
  fold_left (fun m y => if num_lt y m then y else m) xs x.
Definition py_min (data : list num) : result num :=
  match data with
  | [] => raise ValueError
  | x :: xs => ret (min_from x xs)
  end.

(** Dictionaries.  A key is found when it is the stored object or
    compares equal to it; a NaN, equal to nothing, is found as the object
    it is.  The key generator yields at most one NaN for finite data, and
    the model takes a NaN key to be that one object. *)
Definition is_nan (x : num) : bool :=
  match x with
  | PyFloat S754_nan => true
  | _ => false
  end.

Definition same_key (k' k : num) : bool :=
  num_eq k' k || (is_nan k' && is_nan k).

Definition dict : Type := list (num * list num).

Fixpoint dict_get (d : dict) (k : num) : option (list num) :=
  match d with
  | [] => None
  | (k', v) :: d' => if same_key k' k then Some v else dict_get d' k
  end.

Fixpoint dict_set (d : dict) (k : num) (v : list num) : dict :=
  match d with
  | [] => [(k, v)]
  | (k', v') :: d' =>
      if same_key k' k then (k', v) :: d' else (k', v') :: dict_set d' k v
  end.

Definition dict_init (keys : list num) : dict :=
  fold_left (fun d key => dict_set d key []) keys [].

Definition dict_append (d : dict) (k x : num) : result dict :=
  match dict_get d k with
  | None => raise KeyError
  | Some v => ret (dict_set d k (v ++ [x]))
  end.

(** [lower_bound + i * (upper_bound - lower_bound) / (num_stacks-1)],
    operation after operation in Python's order. *)
Definition get_stack_keys (data : list num) (num_stacks : Z)
  : result (list num) :=
  upper_bound <- py_max data ;;
  lower_bound <- py_min data ;;
  mapM (fun i =>
          width <- py_sub upper_bound lower_bound ;;
          p <- py_mul (PyInt i) width ;;
          q <- py_truediv p (PyInt (num_stacks - 1)) ;;
          py_add lower_bound q)
       (range num_stacks).

Definition between (keys : list num) (observation : num) (i : Z)
  : result bool :=
  lo <- py_index keys (i - 1) ;;
  if num_le lo observation
  then hi <- py_index keys i ;; ret (num_lt observation hi)
  else ret false.

Fixpoint scan (keys : list num) (observation : num) (indices : list Z)
         (stack_dict : dict) : result (bool * dict) :=
  match indices with
  | [] => ret (true, stack_dict)
  | i :: rest =>
      b <- between keys observation i ;;
      if b
      then key <- py_index keys (i - 1) ;;
           stack_dict' <- dict_append stack_dict key observation ;;
           ret (false, stack_dict')
      else scan keys observation rest stack_dict
  end.

Definition place (keys : list num) (stack_dict : dict) (observation : num)
  : result dict :=
  '(add_to_end, stack_dict') <-
     scan keys observation (range2 1 (len keys)) stack_dict ;;
  if add_to_end
  then key <- py_index keys (-1) ;;
       dict_append stack_dict' key observation
  else ret stack_dict'.

Definition get_stack_dict (data : list num) (num_stacks : Z)
           (keys : option (list num)) : result dict :=
  keys <- match keys with
          | None => get_stack_keys data num_stacks
          | Some ks => ret ks
          end ;;
  foldM (place keys) data (dict_init keys).

Definition get_points (stack_dict : dict) : list (num * Z) :=
  fold_left
    (fun ordered_pairs '(key, observations) =>
       fold_left (fun ordered_pairs '(i, obs) =>
                    ordered_pairs ++ [(key, i + 1)])
                 (enumerate observations) ordered_pairs)
    stack_dict [].

(** The dataset of the module's docstring, as the [int]s it is written
    with. *)
Definition observations : list num :=
  map PyInt [1; 2; 3; 3; 3; 3; 5; 6; 6; 2; 3; 4; 2; 1; 2].

(** Specification-level notions, as at the top level. *)

Definition dict_keys (d : dict) : list num := map fst d.

Definition key_in (k : num) (ks : list num) : bool :=
  existsb (fun k' => same_key k' k) ks.

Definition covered (keys : list num) (d : dict) : Prop :=
  forall k, In k keys -> key_in k (dict_keys d) = true.

Definition boundary_keys (data : list num) (num_stacks : Z)
           (keys : option (list num)) : result (list num) :=
  match keys with
  | None => get_stack_keys data num_stacks
  | Some ks => ret ks
  end.

(** A number that a float holds exactly: a finite float, or an [int]
    [z] with [float(z) == z]; every [int] up to [2**53] in magnitude is
    one. *)
Definition is_finite (f : spec_float) : bool :=
  match f with
  | S754_zero _ | S754_finite _ _ _ => true
  | _ => false
  end.

Definition float_exact (x : num) : bool :=
  match as_float x with
  | inr f => is_finite f && num_eq (PyFloat f) x
  | inl _ => false
  end.

Definition is_int (x : num) : bool :=
  match x with
  | PyInt _ => true
  | PyFloat _ => false
  end.

Definition is_float (x : num) : bool := negb (is_int x).

(** All observations held by the mapping, bin after bin. *)
Definition bin_contents (d : dict) : list num := concat (map snd d).

End Binary64.

(** * Auxiliary facts *)

(** ** Lists, ranges and indexing *)

Lemma len_nonneg (A : Type) (l : list A) : (0 <= len l)%Z.
Proof. unfold len; lia. Qed.

Lemma range2_length (a b : Z) : length (range2 a b) = Z.to_nat (b - a).
Proof. unfold range2. now rewrite length_map, length_seq. Qed.

Lemma range2_In (a b i : Z) : In i (range2 a b) <-> (a <= i < b)%Z.
Proof.
  unfold range2. rewrite in_map_iff. split.
  - intros (k & <- & Hk). apply in_seq in Hk. lia.
  - intros Hi. exists (Z.to_nat (i - a)). split; [lia|].
    apply in_seq. lia.
Qed.

Lemma py_index_nonneg (A : Type) (l : list A) (i : Z) (d : A) :
  (0 <= i < len l)%Z -> py_index l i = ret (nth (Z.to_nat i) l d).
Proof.
  intros Hi. unfold py_index, len in *.
  replace (i <? 0)%Z with false by lia. cbv zeta.
  replace (i <? 0)%Z with false by lia.
  destruct (nth_error l (Z.to_nat i)) as [a|] eqn:E.
  - now rewrite (nth_error_nth _ _ d E).
  - apply nth_error_None in E. lia.
Qed.

Lemma nth_length_last (A : Type) (l : list A) (a d : A) :
  nth (length l) (a :: l) d = last (a :: l) d.
Proof.
  revert a. induction l as [|b l IH]; intros a; [reflexivity|].
  change (nth (length l) (b :: l) d = last (b :: l) d). apply IH.
Qed.

Lemma py_index_last (A : Type) (l : list A) (d : A) :
  l <> [] -> py_index l (-1) = ret (last l d).
Proof.
  intros Hl. destruct l as [|a l]; [congruence|].
  rewrite <- nth_length_last.
  unfold py_index, len. change (-1 <? 0)%Z with true. cbv iota zeta.
  assert (Hlen : (-1 + Z.of_nat (length (a :: l)) = Z.of_nat (length l))%Z)
    by (change (length (a :: l)) with (S (length l)); lia).
  rewrite Hlen, Nat2Z.id.
  destruct (Z.ltb_spec (Z.of_nat (length l)) 0) as [Hneg|_]; [lia|].
  destruct (nth_error (a :: l) (length l)) as [x|] eqn:E.
  - now rewrite (nth_error_nth _ _ d E).
  - apply nth_error_None in E. simpl in E. lia.
Qed.

Lemma py_index_empty (A : Type) (i : Z) : py_index (@nil A) i = raise IndexError.
Proof.
  unfold py_index, len. simpl. destruct (i <? 0)%Z eqn:E.
  - rewrite Z.add_0_r, E. reflexivity.
  - rewrite E. now destruct (Z.to_nat i).
Qed.

Lemma last_In (A : Type) (l : list A) (d : A) : l <> [] -> In (last l d) l.
Proof.
  intros Hl. destruct (exists_last Hl) as (l' & a & ->).
  rewrite last_last. apply in_or_app. right. now left.
Qed.

(** ** Comparisons *)

Lemma num_le_iff (x y : Q) : num_le x y = true <-> x <= y.
Proof. apply Qle_bool_iff. Qed.

Lemma num_lt_iff (x y : Q) : num_lt x y = true <-> x < y.
Proof.
  unfold num_lt. rewrite negb_true_iff, <- not_true_iff_false, Qle_bool_iff.
  split; [apply Qnot_le_lt | apply Qlt_not_le].
Qed.

Lemma num_lt_false_iff (x y : Q) : num_lt x y = false <-> y <= x.
Proof.
  unfold num_lt. rewrite negb_false_iff. apply Qle_bool_iff.
Qed.

Lemma num_eq_iff (x y : Q) : num_eq x y = true <-> x == y.
Proof. apply Qeq_bool_iff. Qed.

Lemma num_eq_refl (x : Q) : num_eq x x = true.
Proof. apply Qeq_bool_refl. Qed.

#[local] Instance num_eq_proper : Proper (Qeq ==> Qeq ==> eq) num_eq.
Proof. exact Qeqb_comp. Qed.

(** ** max and min *)

Lemma max_from_spec (xs : list Q) (x : Q) :
  In (max_from x xs) (x :: xs) /\
  forall y, In y (x :: xs) -> y <= max_from x xs.
Proof.
  unfold max_from. revert x. induction xs as [|z xs IH]; intros x; simpl.
  - split; [now left|]. intros y [<-|[]]. apply Qle_refl.
  - destruct (num_lt x z) eqn:E.
    + destruct (IH z) as [Hin Hle]. split.
      * right. exact Hin.
      * intros y [<-|Hy]; [|now apply Hle].
        apply num_lt_iff in E. apply Qle_trans with z.
        -- now apply Qlt_le_weak.
        -- apply Hle. now left.
    + destruct (IH x) as [Hin Hle]. split.
      * destruct Hin as [Hin|Hin]; [now left | right; now right].
      * intros y [<-|[<-|Hy]].
        -- apply Hle. now left.
        -- apply num_lt_false_iff in E. apply Qle_trans with x; [exact E|].
           apply Hle. now left.
        -- apply Hle. now right.
Qed.

Lemma min_from_spec (xs : list Q) (x : Q) :
  In (min_from x xs) (x :: xs) /\
  forall y, In y (x :: xs) -> min_from x xs <= y.
Proof.
  unfold min_from. revert x. induction xs as [|z xs IH]; intros x; simpl.
  - split; [now left|]. intros y [<-|[]]. apply Qle_refl.
  - destruct (num_lt z x) eqn:E.
    + destruct (IH z) as [Hin Hle]. split.
      * right. exact Hin.
      * intros y [<-|Hy]; [|now apply Hle].
        apply num_lt_iff in E. apply Qle_trans with z.
        -- apply Hle. now left.
        -- now apply Qlt_le_weak.
    + destruct (IH x) as [Hin Hle]. split.
      * destruct Hin as [Hin|Hin]; [now left | right; now right].
      * intros y [<-|[<-|Hy]].
        -- apply Hle. now left.
        -- apply num_lt_false_iff in E. apply Qle_trans with x; [|exact E].
           apply Hle. now left.
        -- apply Hle. now right.
Qed.

Lemma py_max_spec (data : list Q) (m : Q) :
  py_max data = ret m -> In m data /\ forall y, In y data -> y <= m.
Proof.
  destruct data as [|x xs]; [discriminate|].
  intros [= <-]. apply max_from_spec.
Qed.

Lemma py_min_spec (data : list Q) (m : Q) :
  py_min data = ret m -> In m data /\ forall y, In y data -> m <= y.
Proof.
  destruct data as [|x xs]; [discriminate|].
  intros [= <-]. apply min_from_spec.
Qed.

Lemma py_max_total (data : list Q) : data <> [] -> exists m, py_max data = ret m.
Proof. destruct data; [congruence|]. intros _. eexists. reflexivity. Qed.

Lemma py_min_total (data : list Q) : data <> [] -> exists m, py_min data = ret m.
Proof. destruct data; [congruence|]. intros _. eexists. reflexivity. Qed.

(** ** Dictionaries *)

Lemma dict_get_key_in (d : dict) (k : Q) :
  dict_get d k <> None <-> key_in k (dict_keys d) = true.
Proof.
  induction d as [|[k' v] d IH]; simpl.
  - split; [congruence | discriminate].
  - destruct (num_eq k' k); simpl; [|exact IH].
    split; [reflexivity | congruence].
Qed.

Lemma dict_keys_set_present (d : dict) (k : Q) (v : list Q) :
  key_in k (dict_keys d) = true -> dict_keys (dict_set d k v) = dict_keys d.
Proof.
  induction d as [|[k' v'] d IH]; simpl; [discriminate|].
  destruct (num_eq k' k); simpl; [reflexivity|].
  intros H. now rewrite IH.
Qed.

Lemma dict_keys_set_absent (d : dict) (k : Q) (v : list Q) :
  key_in k (dict_keys d) = false -> dict_keys (dict_set d k v) = dict_keys d ++ [k].
Proof.
  induction d as [|[k' v'] d IH]; simpl; [reflexivity|].
  destruct (num_eq k' k); simpl; [discriminate|].
  intros H. now rewrite IH.
Qed.

Lemma dict_set_empty_values (d : dict) (k : Q) :
  Forall (fun kv => snd kv = []) d ->
  Forall (fun kv => snd kv = []) (dict_set d k []).
Proof.
  induction 1 as [|[k' v'] d Hv Hd IH]; simpl.
  - now repeat constructor.
  - destruct (num_eq k' k); constructor; auto.
Qed.

Lemma dict_init_acc (keys : list Q) (d : dict) :
  let d' := fold_left (fun d key => dict_set d key []) keys d in
  dict_keys d' =
    fold_left (fun acc k => if key_in k acc then acc else acc ++ [k])
              keys (dict_keys d) /\
  (Forall (fun kv => snd kv = []) d -> Forall (fun kv => snd kv = []) d').
Proof.
  revert d. induction keys as [|k keys IH]; intros d; simpl.
  - split; auto.
  - destruct (IH (dict_set d k [])) as [Hk Hv]. split.
    + rewrite Hk. destruct (key_in k (dict_keys d)) eqn:E.
      * now rewrite dict_keys_set_present.
      * now rewrite dict_keys_set_absent.
    + intros Hd. apply Hv. now apply dict_set_empty_values.
Qed.

Lemma dict_init_keys (keys : list Q) :
  dict_keys (dict_init keys) = first_occurrences keys.
Proof. apply (dict_init_acc keys []). Qed.

Lemma dict_init_values (keys : list Q) :
  Forall (fun kv => snd kv = []) (dict_init keys).
Proof. apply (dict_init_acc keys []). constructor. Qed.

Lemma key_in_app (k : Q) (l1 l2 : list Q) :
  key_in k (l1 ++ l2) = key_in k l1 || key_in k l2.
Proof. apply existsb_app. Qed.

Lemma key_in_In (k : Q) (ks : list Q) : In k ks -> key_in k ks = true.
Proof.
  intros H. apply existsb_exists. exists k. split; [exact H|apply num_eq_refl].
Qed.

Lemma key_in_iff (k : Q) (ks : list Q) :
  key_in k ks = true <-> exists k', In k' ks /\ k' == k.
Proof.
  unfold key_in. rewrite existsb_exists.
  split; intros (k' & Hin & Hk); exists k'; split; auto;
    now apply num_eq_iff.
Qed.

Lemma first_occurrences_acc (keys acc : list Q) (k : Q) :
  let r := fold_left (fun acc k => if key_in k acc then acc else acc ++ [k])
                     keys acc in
  key_in k r = key_in k acc || key_in k keys.
Proof.
  revert acc. induction keys as [|k' keys IH]; intros acc; simpl.
  - now rewrite orb_false_r.
  - rewrite IH. destruct (key_in k' acc) eqn:E.
    + destruct (num_eq k' k) eqn:Ek; simpl; [|reflexivity].
      apply num_eq_iff in Ek.
      assert (key_in k acc = true) as ->; [|reflexivity].
      apply key_in_iff in E. destruct E as (k2 & Hin & Hk2).
      apply key_in_iff. exists k2. split; [exact Hin|].
      now rewrite Hk2.
    + rewrite key_in_app. simpl. rewrite orb_false_r.
      now rewrite orb_assoc.
Qed.

Lemma first_occurrences_key_in (keys : list Q) (k : Q) :
  key_in k (first_occurrences keys) = key_in k keys.
Proof. apply (first_occurrences_acc keys [] k). Qed.

Lemma dict_init_covered (keys : list Q) : covered keys (dict_init keys).
Proof.
  intros k Hk. rewrite dict_init_keys, first_occurrences_key_in.
  now apply key_in_In.
Qed.

Lemma first_occurrences_distinct_acc (keys acc : list Q) :
  distinct keys ->
  (forall k, In k keys -> key_in k acc = false) ->
  fold_left (fun acc k => if key_in k acc then acc else acc ++ [k]) keys acc
  = acc ++ keys.
Proof.
  revert acc. induction keys as [|k keys IH]; intros acc Hd Hacc; simpl.
  - now rewrite app_nil_r.
  - destruct Hd as [Hk Hd]. rewrite (Hacc k) by now left.
    rewrite IH; [now rewrite <- app_assoc | exact Hd |].
    intros k2 Hk2. rewrite key_in_app, (Hacc k2) by now right.
    simpl. rewrite orb_false_r.
    destruct (num_eq k k2) eqn:E; [|reflexivity].
    apply num_eq_iff in E.
    assert (key_in k keys = true); [|congruence].
    apply key_in_iff. exists k2. split; [exact Hk2|]. now symmetry.
Qed.

Lemma first_occurrences_distinct (keys : list Q) :
  distinct keys -> first_occurrences keys = keys.
Proof.
  intros Hd. unfold first_occurrences.
  now rewrite first_occurrences_distinct_acc.
Qed.

Lemma dict_get_set (d : dict) (k k2 : Q) (w : list Q) :
  dict_get (dict_set d k w) k2 = if num_eq k k2 then Some w else dict_get d k2.
Proof.
  induction d as [|[k' v'] d IH]; simpl; [reflexivity|].
  destruct (num_eq k' k) eqn:E; simpl.
  - apply num_eq_iff in E. rewrite E. now destruct (num_eq k k2).
  - rewrite IH. destruct (num_eq k' k2) eqn:E1, (num_eq k k2) eqn:E2;
      try reflexivity.
    apply num_eq_iff in E1, E2. rewrite <- E2 in E1.
    apply num_eq_iff in E1. congruence.
Qed.

Lemma dict_set_contents (d : dict) (k x : Q) (v : list Q) :
  dict_get d k = Some v ->
  Permutation (bin_contents (dict_set d k (v ++ [x]))) (bin_contents d ++ [x]).
Proof.
  unfold bin_contents. induction d as [|[k' v'] d IH]; simpl; [discriminate|].
  destruct (num_eq k' k); simpl.
  - intros [= ->]. rewrite <- !app_assoc. apply Permutation_app_head.
    apply Permutation_app_comm.
  - intros H. rewrite <- app_assoc. apply Permutation_app_head. now apply IH.
Qed.

Lemma bin_total_contents (d : dict) : bin_total d = length (bin_contents d).
Proof.
  unfold bin_total, bin_contents. induction d as [|[k v] d IH]; simpl.
  - reflexivity.
  - now rewrite length_app, IH.
Qed.

Lemma dict_set_entries (d : dict) (k : Q) (v w : list Q) (k' : Q) (v' : list Q) :
  dict_get d k = Some v ->
  In (k', v') (dict_set d k w) ->
  In (k', v') d \/ (k' == k /\ v' = w /\ In (k', v) d).
Proof.
  induction d as [|[k0 v0] d IH]; simpl; [discriminate|].
  destruct (num_eq k0 k) eqn:E; simpl.
  - intros [= ->] [[= <- <-]|Hin]; [right | left; now right].
    apply num_eq_iff in E. auto.
  - intros Hg [Heq|Hin]; [left; now left|].
    destruct (IH Hg Hin) as [H|(H1 & H2 & H3)]; [left; now right|].
    right. auto.
Qed.

(** [d[k].append(x)] on a key of the mapping. *)
Lemma dict_append_ok (d : dict) (k x : Q) :
  key_in k (dict_keys d) = true ->
  exists v, dict_get d k = Some v /\
            dict_append d k x = ret (dict_set d k (v ++ [x])).
Proof.
  intros H. apply dict_get_key_in in H. unfold dict_append.
  destruct (dict_get d k) as [v|]; [|congruence].
  exists v. auto.
Qed.

Lemma dict_append_missing (d : dict) (k x : Q) :
  key_in k (dict_keys d) = false -> dict_append d k x = raise KeyError.
Proof.
  intros H. unfold dict_append.
  destruct (dict_get d k) as [v|] eqn:E; [|reflexivity].
  assert (key_in k (dict_keys d) = true); [|congruence].
  apply dict_get_key_in. congruence.
Qed.

(** ** The scan *)

Lemma between_enclosesb (keys : list Q) (observation : Q) (i : Z) :
  (1 <= i < len keys)%Z ->
  between keys observation i = ret (enclosesb keys observation i).
Proof.
  intros Hi. unfold between, enclosesb, key.
  rewrite (py_index_nonneg keys 0) by lia. simpl.
  destruct (num_le _ observation); [|reflexivity].
  rewrite (py_index_nonneg keys 0) by lia. reflexivity.
Qed.

Lemma enclosesb_iff (keys : list Q) (observation : Q) (i : Z) :
  enclosesb keys observation i = true <-> encloses keys observation i.
Proof.
  unfold enclosesb, encloses.
  now rewrite andb_true_iff, num_le_iff, num_lt_iff.
Qed.

Lemma scan_find (keys : list Q) (observation : Q) (indices : list Z) (d : dict) :
  (forall i, In i indices -> (1 <= i < len keys)%Z) ->
  scan keys observation indices d =
  match find (enclosesb keys observation) indices with
  | Some i => d' <- dict_append d (key keys (i - 1)) observation ;;
              ret (false, d')
  | None => ret (true, d)
  end.
Proof.
  induction indices as [|i rest IH]; intros Hin; simpl; [reflexivity|].
  rewrite between_enclosesb by (apply Hin; now left). simpl.
  destruct (enclosesb keys observation i).
  - unfold key. rewrite (py_index_nonneg keys 0); [reflexivity|].
    specialize (Hin i (or_introl eq_refl)). lia.
  - apply IH. intros j Hj. apply Hin. now right.
Qed.

(** The loop body appends the observation to its target key's list. *)
Lemma place_target (keys : list Q) (d : dict) (observation : Q) :
  keys <> [] ->
  place keys d observation = dict_append d (target keys observation) observation.
Proof.
  intros Hk. unfold place, target.
  rewrite scan_find by (intros i Hi; now apply range2_In in Hi).
  destruct (find _ _) as [i|]; simpl.
  - now destruct (dict_append d (key keys (i - 1)) observation).
  - now rewrite (py_index_last 0 Hk).
Qed.

Lemma target_In (keys : list Q) (observation : Q) :
  keys <> [] -> In (target keys observation) keys.
Proof.
  intros Hk. unfold target.
  destruct (find _ _) as [i|] eqn:E.
  - apply find_some in E. destruct E as [Hi _]. apply range2_In in Hi.
    unfold key. apply nth_In. unfold len in Hi. lia.
  - now apply last_In.
Qed.

(** [find] over a range returns the first index that qualifies. *)
Lemma find_range2_first (f : Z -> bool) (a b i : Z) :
  (a <= i < b)%Z -> f i = true ->
  (forall j, (a <= j < i)%Z -> f j = false) ->
  find f (range2 a b) = Some i.
Proof.
  intros Hi Hf Hfirst. unfold range2.
  remember (Z.to_nat (b - a)) as n eqn:Hn.
  assert (Hb : (b = a + Z.of_nat n)%Z) by lia. clear Hn. subst b.
  assert (H0 : forall s, (s <= Z.to_nat (i - a))%nat ->
             find f (map (fun k => (a + Z.of_nat k)%Z)
                         (seq s (n - s))) = Some i).
  { intros s Hs. remember (Z.to_nat (i - a) - s)%nat as m eqn:Hm.
    revert s Hs Hm. induction m as [|m IH]; intros s Hs Hm.
    - assert (s = Z.to_nat (i - a)) by lia. subst s.
      destruct (n - Z.to_nat (i - a))%nat as [|r] eqn:Er; [lia|].
      simpl. replace (a + Z.of_nat (Z.to_nat (i - a)))%Z with i by lia.
      now rewrite Hf.
    - destruct (n - s)%nat as [|r] eqn:Er; [lia|].
      simpl. rewrite Hfirst by lia.
      replace r with (n - S s)%nat by lia. apply IH; lia. }
  specialize (H0 0%nat). rewrite Nat.sub_0_r in H0. apply H0. lia.
Qed.

Lemma find_range2_none (f : Z -> bool) (a b : Z) :
  (forall j, (a <= j < b)%Z -> f j = false) ->
  find f (range2 a b) = None.
Proof.
  intros H. destruct (find f (range2 a b)) as [i|] eqn:E; [|reflexivity].
  apply find_some in E. destruct E as [Hi Hf]. apply range2_In in Hi.
  rewrite H in Hf by exact Hi. discriminate.
Qed.

(** ** The binning loop *)

Lemma place_ok (keys : list Q) (d : dict) (x : Q) :
  keys <> [] -> covered keys d ->
  exists v, dict_get d (target keys x) = Some v /\
            place keys d x = ret (dict_set d (target keys x) (v ++ [x])).
Proof.
  intros Hk Hc. rewrite place_target by exact Hk.
  apply dict_append_ok, Hc, target_In, Hk.
Qed.

Lemma placed_empty (keys : list Q) (d : dict) :
  Forall (fun kv => snd kv = []) d -> placed keys d.
Proof.
  intros H k v x Hin Hx. rewrite Forall_forall in H.
  specialize (H _ Hin). simpl in H. subst v. destruct Hx.
Qed.

Lemma binning_loop (keys data : list Q) (d0 : dict) :
  keys <> [] -> covered keys d0 ->
  exists d, foldM (place keys) data d0 = ret d /\
            dict_keys d = dict_keys d0 /\
            Permutation (bin_contents d) (bin_contents d0 ++ data) /\
            (placed keys d0 -> placed keys d).
Proof.
  intros Hk. revert d0. induction data as [|x data IH]; intros d0 Hc; simpl.
  - exists d0. rewrite app_nil_r. auto.
  - destruct (place_ok x Hk Hc) as (v & Hget & ->). simpl.
    set (d1 := dict_set d0 (target keys x) (v ++ [x])).
    assert (Hkeys : dict_keys d1 = dict_keys d0).
    { apply dict_keys_set_present, Hc, target_In, Hk. }
    destruct (IH d1) as (d & Hd & Hdk & Hperm & Hpl).
    { intros k Hin. rewrite Hkeys. now apply Hc. }
    exists d. repeat split.
    + exact Hd.
    + congruence.
    + rewrite Hperm. change (x :: data) with ([x] ++ data).
      rewrite app_assoc. apply Permutation_app_tail.
      now apply dict_set_contents.
    + intros Hp0. apply Hpl. intros k' v' y Hin Hy.
      destruct (@dict_set_entries d0 (target keys x) v (v ++ [x]) k' v' Hget Hin) as [Hold|(Hk' & -> & Hold)].
      * now apply (Hp0 k' v').
      * apply in_app_or in Hy. destruct Hy as [Hy|[<-|[]]].
        -- now apply (Hp0 k' v).
        -- now symmetry.
Qed.

(** ** The key generator *)

Lemma mapM_map (A B : Type) (f : A -> result B) (g : A -> B) (l : list A) :
  (forall a, In a l -> f a = ret (g a)) -> mapM f l = ret (map g l).
Proof.
  induction l as [|a l IH]; intros H; simpl; [reflexivity|].
  rewrite (H a) by now left. simpl.
  rewrite IH by (intros b Hb; apply H; now right). reflexivity.
Qed.

Lemma nth_map_seq (A : Type) (f : nat -> A) (s n k : nat) (d : A) :
  (k < n)%nat -> nth k (map f (seq s n)) d = f (s + k)%nat.
Proof.
  intros Hk. rewrite (nth_indep _ d (f 0%nat))
    by now rewrite length_map, length_seq.
  now rewrite map_nth, seq_nth.
Qed.

Lemma range_nth (n i : Z) (d : Z) :
  (0 <= i < n)%Z -> nth (Z.to_nat i) (range n) d = i.
Proof.
  intros Hi. unfold range, range2.
  rewrite nth_map_seq by lia. lia.
Qed.

Lemma range_length (n : Z) : length (range n) = Z.to_nat n.
Proof. unfold range. rewrite range2_length. f_equal. lia. Qed.

Lemma get_stack_keys_eq (data : list Q) (n : Z) (hi lo : Q) :
  py_max data = ret hi -> py_min data = ret lo -> (n <> 1)%Z ->
  get_stack_keys data n = ret (map (spaced lo hi n) (range n)).
Proof.
  intros Hhi Hlo Hn. unfold get_stack_keys. rewrite Hhi, Hlo. simpl.
  apply mapM_map. intros i _. unfold py_div.
  destruct (Z.eqb_spec (n - 1) 0) as [E|_]; [lia|]. reflexivity.
Qed.

Lemma key_spaced (lo hi : Q) (n i : Z) :
  (0 <= i < n)%Z -> key (map (spaced lo hi n) (range n)) i = spaced lo hi n i.
Proof.
  intros Hi. unfold key.
  rewrite (nth_indep _ 0 (spaced lo hi n 0))
    by (rewrite length_map, range_length; lia).
  now rewrite map_nth, range_nth.
Qed.

Lemma last_key (keys : list Q) :
  keys <> [] -> last keys 0 = key keys (len keys - 1).
Proof.
  intros Hk. destruct keys as [|k keys]; [congruence|].
  rewrite <- nth_length_last. unfold key, len. f_equal.
  change (length (k :: keys)) with (S (length keys)). lia.
Qed.

Lemma inject_Z_pos (z : Z) : (0 < z)%Z -> 0 < inject_Z z.
Proof. intros H. change 0 with (inject_Z 0). now rewrite <- Zlt_Qlt. Qed.

Lemma spaced_first (lo hi : Q) (n : Z) : (2 <= n)%Z -> spaced lo hi n 0 == lo.
Proof.
  intros Hn. unfold spaced.
  assert (0 < inject_Z (n - 1)) by (apply inject_Z_pos; lia).
  change (inject_Z 0) with 0. field. intros E. rewrite E in H.
  now apply Qlt_irrefl in H.
Qed.

Lemma spaced_last (lo hi : Q) (n : Z) :
  (2 <= n)%Z -> spaced lo hi n (n - 1) == hi.
Proof.
  intros Hn. unfold spaced.
  assert (0 < inject_Z (n - 1)) by (apply inject_Z_pos; lia).
  field. intros E. rewrite E in H. now apply Qlt_irrefl in H.
Qed.

Lemma spaced_le_hi (lo hi : Q) (n i : Z) :
  (2 <= n)%Z -> (0 <= i < n)%Z -> lo <= hi -> spaced lo hi n i <= hi.
Proof.
  intros Hn Hi Hle. unfold spaced.
  assert (Hc : 0 < inject_Z (n - 1)) by (apply inject_Z_pos; lia).
  assert (Ht : inject_Z i <= inject_Z (n - 1)) by (rewrite <- Zle_Qle; lia).
  assert (Hd : inject_Z i * (hi - lo) / inject_Z (n - 1) <= hi - lo).
  { apply Qle_shift_div_r; [exact Hc|].
    rewrite (Qmult_comm (hi - lo)).
    apply Qmult_le_compat_r; [exact Ht | lra]. }
  lra.
Qed.

Lemma dict_set_appended (d : dict) (k x : Q) (v : list Q) :
  dict_get d k = Some v -> appended d k x (dict_set d k (v ++ [x])).
Proof.
  intros Hget. exists v. split; [|split; [|split; [|split]]].
  - exact Hget.
  - now rewrite dict_get_set, num_eq_refl.
  - intros k2 Hk2. rewrite dict_get_set.
    destruct (num_eq k k2) eqn:E; [|reflexivity].
    apply num_eq_iff in E. exfalso. apply Hk2. now symmetry.
  - apply dict_keys_set_present, dict_get_key_in. congruence.
  - rewrite !bin_total_contents.
    rewrite (Permutation_length (@dict_set_contents d k x v Hget)).
    rewrite length_app. simpl. lia.
Qed.

Lemma dict_get_empty_values (d : dict) (k : Q) (v : list Q) :
  Forall (fun kv => snd kv = []) d -> dict_get d k = Some v -> v = [].
Proof.
  induction 1 as [|[k' v'] d Hv Hd IH]; simpl; [discriminate|].
  destruct (num_eq k' k); [|exact IH]. simpl in Hv. congruence.
Qed.

Lemma bin_contents_empty (d : dict) :
  Forall (fun kv => snd kv = []) d -> bin_contents d = [].
Proof.
  unfold bin_contents. induction 1 as [|[k v] d Hv Hd IH]; simpl.
  - reflexivity.
  - simpl in Hv. now rewrite Hv, IH.
Qed.

Lemma place_no_keys (d : dict) (x : Q) : place [] d x = raise IndexError.
Proof. reflexivity. Qed.

(** The loop over the dataset, from the initial mapping. *)
Lemma binning_from_init (keys data : list Q) (d : dict) :
  foldM (place keys) data (dict_init keys) = ret d ->
  dict_keys d = first_occurrences keys /\
  Permutation (bin_contents d) data /\
  placed keys d.
Proof.
  intros Hrun. destruct keys as [|k keys].
  - destruct data as [|x data]; [|discriminate].
    injection Hrun as <-. split; [reflexivity|]. split; [constructor|].
    intros k v x [].
  - destruct (@binning_loop (k :: keys) data (dict_init (k :: keys)))
      as (d' & Hd' & Hkeys & Hperm & Hpl);
      [discriminate | apply dict_init_covered |].
    rewrite Hd' in Hrun. injection Hrun as <-.
    split; [|split].
    + now rewrite Hkeys, dict_init_keys.
    + rewrite Hperm.
      now rewrite (bin_contents_empty (dict_init_values (k :: keys))).
    + apply Hpl, placed_empty, dict_init_values.
Qed.

Lemma binning_returns (keys data : list Q) :
  keys <> [] -> exists d, foldM (place keys) data (dict_init keys) = ret d.
Proof.
  intros Hk.
  destruct (@binning_loop keys data (dict_init keys) Hk (dict_init_covered keys))
    as (d & Hd & _). now exists d.
Qed.

(** ** The point projector *)

Lemma stack_fold (k : Q) (v : list Q) (s : nat) (acc : list (Q * Z)) :
  fold_left (fun ordered_pairs '(i, obs) => ordered_pairs ++ [(k, (i + 1)%Z)])
            (combine (map (fun j => (0 + Z.of_nat j)%Z) (seq s (length v))) v)
            acc
  = acc ++ map (fun h => (k, Z.of_nat h)) (seq (S s) (length v)).
Proof.
  revert s acc. induction v as [|x v IH]; intros s acc; simpl.
  - now rewrite app_nil_r.
  - rewrite IH, <- app_assoc. simpl. do 3 f_equal. lia.
Qed.

Lemma enumerate_fold (k : Q) (v : list Q) (acc : list (Q * Z)) :
  fold_left (fun ordered_pairs '(i, obs) => ordered_pairs ++ [(k, (i + 1)%Z)])
            (enumerate v) acc
  = acc ++ stack_points (k, v).
Proof.
  unfold enumerate, range, range2, len, stack_points.
  replace (Z.to_nat (Z.of_nat (length v) - 0)) with (length v) by lia.
  apply stack_fold.
Qed.

Lemma get_points_acc (d : dict) (acc : list (Q * Z)) :
  fold_left
    (fun ordered_pairs '(key, observations) =>
       fold_left (fun ordered_pairs '(i, obs) =>
                    ordered_pairs ++ [(key, (i + 1)%Z)])
                 (enumerate observations) ordered_pairs)
    d acc
  = acc ++ flat_map stack_points d.
Proof.
  revert acc. induction d as [|[k v] d IH]; intros acc; simpl.
  - now rewrite app_nil_r.
  - rewrite enumerate_fold, IH. now rewrite <- app_assoc.
Qed.

(** * Properties of the binning pipeline *)

(** C1 -- total coverage.  Whenever the Binner returns a mapping, its bin
    lists together hold exactly the observations of the dataset, each one
    once: the sum of the lengths of the bin lists is the length of the
    dataset.  It does return one for every caller-supplied non-empty key
    sequence, and for auto-generated keys of a non-empty dataset with
    [num_stacks >= 2]. *)
Theorem binner_total_coverage (data : list Q) (num_stacks : Z)
        (keys : option (list Q)) :
  (forall d, get_stack_dict data num_stacks keys = ret d ->
             bin_total d = length data /\ Permutation (bin_contents d) data) /\
  (match keys with
   | Some ks => ks <> []
   | None => data <> [] /\ (2 <= num_stacks)%Z
   end ->
   exists d, get_stack_dict data num_stacks keys = ret d).
Proof.
  split.
  - intros d Hrun. unfold get_stack_dict in Hrun.
    destruct (match keys with
              | None => get_stack_keys data num_stacks
              | Some ks => ret ks
              end) as [e|ks]; [discriminate|].
    simpl in Hrun. apply binning_from_init in Hrun.
    destruct Hrun as (_ & Hperm & _). split; [|exact Hperm].
    rewrite bin_total_contents. now apply Permutation_length.
  - unfold get_stack_dict. destruct keys as [ks|].
    + intros Hks. simpl. now apply binning_returns.
    + intros [Hdata Hn].
      destruct (py_max_total Hdata) as (hi & Hhi).
      destruct (py_min_total Hdata) as (lo & Hlo).
      rewrite (@get_stack_keys_eq data num_stacks hi lo Hhi Hlo) by lia. simpl.
      apply binning_returns. intros E.
      apply (f_equal (@length Q)) in E.
      rewrite length_map, range_length in E. simpl in E. lia.
Qed.

Lemma binner_total_coverage_witness :
  exists d, get_stack_dict observations 5 None = ret d /\
            bin_total d = 15%nat.
Proof.
  destruct (binner_total_coverage observations 5 None) as [Hsum Hret].
  destruct Hret as [d Hd].
  - split; [discriminate | lia].
  - exists d. split; [exact Hd|]. now destruct (Hsum d Hd).
Defined.

(** C2 -- the scan.  With a non-empty key sequence whose keys are all in
    the mapping, the loop body appends the observation to the list of
    [key[i-1]] for the first [i >= 1] with [key[i-1] <= observation < key[i]],
    and to the list of the last key when no pair encloses it; nothing
    else changes.  For data [1, 10] with keys [1, 10], 1 lands under 1 and
    10 under 10. *)
Theorem binner_first_enclosing_pair (keys : list Q) (d : dict) (observation : Q) :
  keys <> [] -> covered keys d ->
  (forall i, (1 <= i < len keys)%Z ->
             encloses keys observation i ->
             (forall j, (1 <= j < i)%Z -> ~ encloses keys observation j) ->
             exists d', place keys d observation = ret d' /\
                        appended d (key keys (i - 1)) observation d') /\
  ((forall j, (1 <= j < len keys)%Z -> ~ encloses keys observation j) ->
   exists d', place keys d observation = ret d' /\
              appended d (last keys 0) observation d') /\
  get_stack_dict [1; 10] 2 (Some [1; 10]) = ret [(1, [1]); (10, [10])].
Proof.
  intros Hk Hc.
  destruct (place_ok observation Hk Hc) as (v & Hget & Hplace).
  split; [|split; [|reflexivity]].
  - intros i Hi Henc Hfirst.
    assert (Ht : target keys observation = key keys (i - 1)).
    { unfold target. rewrite (@find_range2_first _ 1 (len keys) i Hi).
      - reflexivity.
      - now apply enclosesb_iff.
      - intros j Hj. apply not_true_iff_false. rewrite enclosesb_iff.
        now apply Hfirst. }
    rewrite Ht in *. eexists. split; [exact Hplace|].
    now apply dict_set_appended.
  - intros Hnone.
    assert (Ht : target keys observation = last keys 0).
    { unfold target. rewrite find_range2_none; [reflexivity|].
      intros j Hj. apply not_true_iff_false. rewrite enclosesb_iff.
      now apply Hnone. }
    rewrite Ht in *. eexists. split; [exact Hplace|].
    now apply dict_set_appended.
Qed.

Lemma binner_first_enclosing_pair_witness :
  exists d', place [1; 10] (dict_init [1; 10]) 1 = ret d' /\
             appended (dict_init [1; 10]) 1 1 d'.
Proof.
  assert (Hk : [1; 10] <> []) by discriminate.
  destruct (binner_first_enclosing_pair 1 Hk (dict_init_covered [1; 10]))
    as (Hfirst & _ & _).
  apply (Hfirst 1%Z).
  - unfold len. simpl. lia.
  - split; [apply Qle_refl | reflexivity].
  - intros j Hj. lia.
Defined.

(** C3 -- the Key Generator, on [float] data.  The documentation of
    [get_stack_keys] wants the keys to run from the minimum to the
    maximum of the data, the maximum included.  For data [0.3, 0.9] and
    two stacks the keys it returns are 0.3 and 0.9000000000000001: the
    last key is not the maximum 0.9 but the next float above it, since
    [0.9 - 0.3] rounds up to 0.6000000000000001.  For data
    [-1e308, 1e308] the width overflows and the keys are NaN and
    infinity, so the first key is not the minimum either.  For the
    docstring's dataset and five stacks no operation rounds and the keys
    are 1.0, 2.25, 3.5, 4.75, 6.0. *)
Theorem key_generator_last_key_overshoots :
  let data := [Binary64.decimal 3 10; Binary64.decimal 9 10] in
  let above := Binary64.decimal 9000000000000001 (10 ^ 16) in
  let huge := Binary64.decimal (10 ^ 308) 1 in
  let minus_huge := Binary64.decimal (- 10 ^ 308) 1 in
  (Binary64.py_min data = ret (Binary64.decimal 3 10) /\
   Binary64.py_max data = ret (Binary64.decimal 9 10) /\
   Binary64.py_sub (Binary64.decimal 9 10) (Binary64.decimal 3 10)
   = ret (Binary64.decimal 6000000000000001 (10 ^ 16)) /\
   Binary64.get_stack_keys data 2 = ret [Binary64.decimal 3 10; above] /\
   Binary64.num_eq above (Binary64.decimal 9 10) = false /\
   Binary64.num_lt (Binary64.decimal 9 10) above = true) /\
  (Binary64.get_stack_keys [minus_huge; huge] 2
   = ret [Binary64.PyFloat S754_nan; Binary64.PyFloat (S754_infinity false)] /\
   Binary64.num_eq (Binary64.PyFloat S754_nan) minus_huge = false) /\
  Binary64.get_stack_keys Binary64.observations 5
  = ret [Binary64.decimal 1 1; Binary64.decimal 225 100;
         Binary64.decimal 35 10; Binary64.decimal 475 100;
         Binary64.decimal 6 1].
Proof. vm_compute. repeat split. Qed.

Lemma target_of_max (lo hi x : Q) (n : Z) :
  (2 <= n)%Z -> lo <= hi -> x == hi ->
  let ks := map (spaced lo hi n) (range n) in
  target ks x = last ks 0.
Proof.
  intros Hn Hle Hx ks. unfold target.
  rewrite find_range2_none; [reflexivity|].
  intros j Hj. unfold enclosesb.
  assert (Hlen : len ks = n).
  { unfold ks, len. rewrite length_map, range_length. lia. }
  rewrite Hlen in Hj.
  assert (E : num_lt x (key ks j) = false).
  { apply num_lt_false_iff. unfold ks. rewrite key_spaced by lia.
    rewrite Hx. apply spaced_le_hi; auto; lia. }
  rewrite E. apply andb_false_r.
Qed.

(** C4 -- the maximum and the last bin, on [float] data.  The Binner
    sends to the last bin what no adjacent pair of keys encloses, which
    is meant to catch the maximum.  For data [0.3, 0.5, 0.9] and five
    stacks the generated keys are 0.3, 0.45, 0.6000000000000001, 0.75
    and 0.9000000000000001; the last one lies above the maximum 0.9, so
    the pair (0.75, 0.9000000000000001) encloses 0.9: the maximum is
    stored under 0.75 and the last bin stays empty. *)
Theorem binner_max_misses_last_bin :
  let data := [Binary64.decimal 3 10; Binary64.decimal 5 10;
               Binary64.decimal 9 10] in
  let keys := [Binary64.decimal 3 10; Binary64.decimal 45 100;
               Binary64.decimal 6000000000000001 (10 ^ 16);
               Binary64.decimal 75 100;
               Binary64.decimal 9000000000000001 (10 ^ 16)] in
  Binary64.py_max data = ret (Binary64.decimal 9 10) /\
  Binary64.get_stack_keys data 5 = ret keys /\
  Binary64.between keys (Binary64.decimal 9 10) 4 = ret true /\
  Binary64.get_stack_dict data 5 None
  = ret [(Binary64.decimal 3 10, [Binary64.decimal 3 10]);
         (Binary64.decimal 45 100, [Binary64.decimal 5 10]);
         (Binary64.decimal 6000000000000001 (10 ^ 16), []);
         (Binary64.decimal 75 100, [Binary64.decimal 9 10]);
         (Binary64.decimal 9000000000000001 (10 ^ 16), [])].
Proof. vm_compute. repeat split. Qed.

(** C5, as the code has it -- the keys of the mapping.  The mapping
    returned by the Binner has, as its keys, the boundary keys in the
    order of their first occurrence, boundary keys that compare equal
    sharing one entry; every boundary key is a key of it, whatever its
    list holds.  When the boundary keys are pairwise distinct the keys of
    the mapping are exactly the boundary-key sequence, so there are as
    many of them. *)
Theorem binner_keys_first_occurrences (data : list Q) (num_stacks : Z)
        (keys : option (list Q)) (ks : list Q) (d : dict) :
  boundary_keys data num_stacks keys = ret ks ->
  get_stack_dict data num_stacks keys = ret d ->
  dict_keys d = first_occurrences ks /\
  covered ks d /\
  (distinct ks -> dict_keys d = ks /\ length d = length ks).
Proof.
  intros Hks Hrun. unfold get_stack_dict in Hrun.
  unfold boundary_keys in Hks. rewrite Hks in Hrun. simpl in Hrun.
  destruct (binning_from_init _ _ Hrun) as (Hkeys & _ & _).
  split; [exact Hkeys|]. split.
  - intros k Hk. rewrite Hkeys, first_occurrences_key_in.
    now apply key_in_In.
  - intros Hdist. rewrite first_occurrences_distinct in Hkeys by exact Hdist.
    split; [exact Hkeys|].
    rewrite <- Hkeys. unfold dict_keys. now rewrite length_map.
Qed.

Lemma binner_keys_first_occurrences_witness :
  dict_keys [(1, [1]); (10, [10])] = [1; 10] /\
  length [(1, [1]); (10, [10])] = 2%nat.
Proof.
  refine (proj2 (proj2 (@binner_keys_first_occurrences
                          [1; 10] 2 (Some [1; 10]) [1; 10]
                          [(1, [1]); (10, [10])] eq_refl eq_refl)) _).
  simpl. auto.
Defined.

(** C5, as stated, fails: with the boundary keys 5, 5, 5 the mapping has
    one key, not three. *)
Lemma binner_keys_collapse :
  exists ks d,
    boundary_keys [5; 5; 5] 3 None = ret ks /\
    get_stack_dict [5; 5; 5] 3 None = ret d /\
    length ks = 3%nat /\
    length (dict_keys d) = 1%nat /\
    length (dict_keys d) <> length ks.
Proof.
  eexists. eexists. split; [reflexivity|]. split; [reflexivity|].
  simpl. repeat split; discriminate.
Qed.




(** C7 -- the empty dataset.  Without explicit keys, the empty dataset
    makes the Key Generator, and with it the Binner, fail at [max(data)]
    whatever [num_stacks] is; no key is generated. *)
Theorem empty_dataset_fails_first (num_stacks : Z) :
  py_max [] = raise ValueError /\
  get_stack_keys [] num_stacks = raise ValueError /\
  get_stack_dict [] num_stacks None = raise ValueError.
Proof. repeat split. Qed.

(** C8, as stated, fails on [int] data.  The keys of a constant dataset
    are [v + 0.0], the float nearest to [v].  For three times
    [2**53 + 1] and three stacks the keys are 9007199254740992.0, a
    float that does not equal the single value of the data; for three
    times [10**400] the sum raises [OverflowError] and no key is
    produced. *)
Lemma constant_dataset_keys_rounded :
  let v := Binary64.PyInt (2 ^ 53 + 1) in
  let k := Binary64.decimal (2 ^ 53) 1 in
  let w := Binary64.PyInt (10 ^ 400) in
  (Binary64.get_stack_keys [v; v; v] 3 = ret [k; k; k] /\
   Binary64.num_eq k v = false /\
   Binary64.num_lt k v = true /\
   ~ Forall (fun k' => Binary64.num_eq k' v = true) [k; k; k]) /\
  (Binary64.get_stack_keys [w; w; w] 3 = raise OverflowError /\
   Binary64.get_stack_dict [w; w; w] 3 None = raise OverflowError).
Proof.
  vm_compute. repeat split. intros H. inversion H. discriminate.
Qed.

(** C9 -- the Point Projector.  The points are, bin after bin in the
    order of the mapping, one point per observation in the order of the
    bin's list: the point of the observation at position [i] is
    [(key, i + 1)].  So the heights over one key are 1, 2, ..., [k] for
    a bin of size [k], and there are as many points as observations. *)
Theorem point_projector_stacks (d : dict) :
  get_points d = flat_map stack_points d /\
  length (get_points d) = bin_total d /\
  (forall k v,
      map snd (stack_points (k, v)) = map Z.of_nat (seq 1 (length v)) /\
      map fst (stack_points (k, v)) = repeat k (length v) /\
      forall i, (0 <= i < len v)%Z ->
                nth (Z.to_nat i) (stack_points (k, v)) (k, 0%Z)
                = (k, (i + 1)%Z)).
Proof.
  assert (Hpts : get_points d = flat_map stack_points d)
    by apply (get_points_acc d []).
  split; [exact Hpts|]. split.
  - rewrite Hpts. unfold bin_total.
    induction d as [|[k v] d IH]; simpl; [reflexivity|].
    rewrite length_app. unfold stack_points at 1.
    rewrite length_map, length_seq. simpl. f_equal. apply IH.
    apply (get_points_acc d []).
  - intros k v. unfold stack_points. simpl. split; [|split].
    + rewrite map_map. reflexivity.
    + rewrite map_map. simpl. generalize 1%nat.
      induction (length v) as [|n IH]; intros s; simpl;
        [reflexivity | now rewrite IH].
    + intros i Hi. unfold len in Hi.
      rewrite nth_map_seq by lia. f_equal. lia.
Qed.

(** C10 -- explicit keys.  With a caller-supplied non-empty key sequence
    the Binner returns a mapping whatever [num_stacks] and the dataset
    are, the same for every [num_stacks]; for the empty dataset it is the
    initial mapping, in which every supplied key is bound to the empty
    list. *)
Theorem explicit_keys_ignore_stack_count (data ks : list Q) (n n' : Z) :
  ks <> [] ->
  get_stack_dict data n (Some ks) = get_stack_dict data n' (Some ks) /\
  (exists d, get_stack_dict data n (Some ks) = ret d) /\
  get_stack_dict [] n (Some ks) = ret (dict_init ks) /\
  (forall k, In k ks -> dict_get (dict_init ks) k = Some []) /\
  Forall (fun kv => snd kv = []) (dict_init ks).
Proof.
  intros Hks. split; [reflexivity|]. split.
  - unfold get_stack_dict. simpl. now apply binning_returns.
  - split; [reflexivity|]. split; [|apply dict_init_values].
    intros k Hk.
    destruct (dict_get (dict_init ks) k) as [v|] eqn:E.
    + now rewrite (dict_get_empty_values _ (dict_init_values ks) E).
    + exfalso. revert E. apply dict_get_key_in.
      now apply dict_init_covered.
Qed.

Lemma explicit_keys_ignore_stack_count_witness :
  get_stack_dict [2; 11] 5 (Some [1; 10]) = get_stack_dict [2; 11] 0 (Some [1; 10]) /\
  (exists d, get_stack_dict [2; 11] 5 (Some [1; 10]) = ret d) /\
  get_stack_dict [] 5 (Some [1; 10]) = ret (dict_init [1; 10]) /\
  (forall k, In k [1; 10] -> dict_get (dict_init [1; 10]) k = Some []) /\
  Forall (fun kv => snd kv = []) (dict_init [1; 10]).
Proof.
  apply explicit_keys_ignore_stack_count. discriminate.
Defined.

Lemma point_projector_stacks_witness :
  nth 2 (stack_points (5, [5; 5; 5])) (5, 0%Z) = (5, 3%Z).
Proof.
  destruct (point_projector_stacks [(5, [5; 5; 5])]) as (_ & _ & Hstack).
  destruct (Hstack 5 [5; 5; 5]) as (_ & _ & Hnth).
  apply (Hnth 2%Z). unfold len. simpl. lia.
Defined.

(** * Further properties of the module *)

(** ** The mapping returned by the Binner, in closed form *)

Lemma num_eq_sym (x y : Q) : num_eq x y = num_eq y x.
Proof. apply Qeq_bool_comm. Qed.

Lemma key_in_proper (k k' : Q) (ks : list Q) :
  k == k' -> key_in k ks = key_in k' ks.
Proof.
  intros Hk. unfold key_in. induction ks as [|a ks IH]; simpl; [reflexivity|].
  now rewrite IH, Hk.
Qed.

Lemma distinct_snoc (acc : list Q) (k : Q) :
  distinct acc -> key_in k acc = false -> distinct (acc ++ [k]).
Proof.
  induction acc as [|a acc IH]; simpl; intros Hd Hk.
  - auto.
  - destruct Hd as [Ha Hd]. apply orb_false_iff in Hk.
    destruct Hk as [Hak Hk]. split; [|now apply IH].
    rewrite key_in_app, Ha. simpl. rewrite orb_false_r.
    now rewrite num_eq_sym.
Qed.

Lemma first_occurrences_acc_distinct (keys acc : list Q) :
  distinct acc ->
  distinct (fold_left (fun acc k => if key_in k acc then acc else acc ++ [k])
                      keys acc).
Proof.
  revert acc. induction keys as [|k keys IH]; intros acc Hd; simpl.
  - exact Hd.
  - apply IH. destruct (key_in k acc) eqn:E; [exact Hd|].
    now apply distinct_snoc.
Qed.

Lemma first_occurrences_are_distinct (keys : list Q) :
  distinct (first_occurrences keys).
Proof. apply first_occurrences_acc_distinct. exact I. Qed.

Lemma dict_init_closed_form (keys : list Q) :
  dict_init keys = map (fun k => (k, [])) (first_occurrences keys).
Proof.
  rewrite <- dict_init_keys. generalize (dict_init_values keys).
  generalize (dict_init keys) as d.
  induction 1 as [|[k v] d Hv Hd IH]; simpl; [reflexivity|].
  simpl in Hv. subst v. now rewrite IH at 1.
Qed.

(** Appending under a key of a mapping given bin by bin. *)
Lemma append_closed_form (fk : list Q) (f : Q -> list Q) (t x : Q) :
  distinct fk -> key_in t fk = true ->
  dict_append (map (fun k => (k, f k)) fk) t x =
  ret (map (fun k => (k, if num_eq k t then f k ++ [x] else f k)) fk).
Proof.
  unfold dict_append. induction fk as [|k fk IH]; simpl; [discriminate|].
  intros [Hk Hd] Ht. destruct (num_eq k t) eqn:E; simpl.
  - do 2 f_equal. apply map_ext_in. intros k' Hk'.
    destruct (num_eq k' t) eqn:E'; [|reflexivity].
    exfalso. apply num_eq_iff in E, E'.
    assert (key_in k fk = true); [|congruence].
    apply key_in_iff. exists k'. split; [exact Hk'|]. now rewrite E', E.
  - specialize (IH Hd Ht).
    destruct (dict_get (map (fun k0 => (k0, f k0)) fk) t) as [v|];
      [|discriminate].
    injection IH as IH. now rewrite IH.
Qed.

Lemma binning_closed_form (keys data pre : list Q) :
  keys <> [] ->
  foldM (place keys) data
        (map (fun k => (k, filter (fun x => num_eq (target keys x) k) pre))
             (first_occurrences keys))
  = ret (map (fun k => (k, filter (fun x => num_eq (target keys x) k)
                                  (pre ++ data)))
             (first_occurrences keys)).
Proof.
  intros Hk. revert pre. induction data as [|x data IH]; intros pre; simpl.
  - now rewrite app_nil_r.
  - rewrite place_target by exact Hk.
    rewrite (@append_closed_form (first_occurrences keys)
               (fun k => filter (fun x => num_eq (target keys x) k) pre)).
    + simpl. replace (pre ++ x :: data) with ((pre ++ [x]) ++ data)
        by now rewrite <- app_assoc.
      rewrite <- IH. f_equal. apply map_ext. intros k.
      rewrite filter_app. simpl. rewrite (num_eq_sym k).
      destruct (num_eq (target keys x) k); [reflexivity|].
      now rewrite app_nil_r.
    + apply first_occurrences_are_distinct.
    + rewrite first_occurrences_key_in. apply key_in_In, target_In, Hk.
Qed.

(** X1 -- what the Binner returns.  Whenever the boundary keys [ks] in
    use are non-empty, or the dataset is empty, the Binner returns the
    mapping with one bin per distinct boundary key, in the order of first
    occurrence, each bin listing, in the order of the dataset, exactly
    the observations whose target (lower key of the first enclosing
    pair, else the last key) equals its key. *)
Theorem binner_returns_binned (data : list Q) (num_stacks : Z)
        (keys : option (list Q)) (ks : list Q) :
  boundary_keys data num_stacks keys = ret ks ->
  ks <> [] \/ data = [] ->
  get_stack_dict data num_stacks keys = ret (binned ks data).
Proof.
  intros Hks Hne. unfold get_stack_dict. unfold boundary_keys in Hks.
  rewrite Hks. simpl. rewrite dict_init_closed_form. unfold binned.
  destruct Hne as [Hne| ->].
  - apply (@binning_closed_form ks data [] Hne).
  - simpl. reflexivity.
Qed.

Lemma binner_returns_binned_witness :
  get_stack_dict [3; 1; 12; 2; 0] 5 (Some [1; 10]) =
  ret (binned [1; 10] [3; 1; 12; 2; 0]).
Proof.
  apply binner_returns_binned; [reflexivity | left; discriminate].
Defined.

(** ** Failures of the Binner *)



Lemma get_stack_dict_with (data : list Q) (n : Z) (keys : option (list Q))
      (ks : list Q) :
  boundary_keys data n keys = ret ks ->
  get_stack_dict data n keys = foldM (place ks) data (dict_init ks).
Proof.
  unfold boundary_keys, get_stack_dict. now intros ->.
Qed.

Lemma binning_without_keys (data : list Q) :
  data <> [] -> foldM (place []) data (dict_init []) = raise IndexError.
Proof. destruct data; [congruence | reflexivity]. Qed.

(** X2 -- an explicit empty key sequence.  With [keys=[]] the Binner
    returns the empty mapping for the empty dataset and fails with an
    [IndexError] (at [keys[-1]]) as soon as there is an observation. *)
Theorem binner_empty_explicit_keys (data : list Q) (num_stacks : Z) :
  get_stack_dict [] num_stacks (Some []) = ret [] /\
  (data <> [] -> get_stack_dict data num_stacks (Some []) = raise IndexError).
Proof.
  split; [reflexivity|]. intros Hdata. unfold get_stack_dict. simpl.
  now apply binning_without_keys.
Qed.

Lemma binner_empty_explicit_keys_witness :
  get_stack_dict [4] 5 (Some []) = raise IndexError.
Proof.
  apply (proj2 (binner_empty_explicit_keys [4] 5)). discriminate.
Defined.



(** ** Shape of the generated keys *)

Lemma inject_Z_nonzero (z : Z) : (0 < z)%Z -> ~ inject_Z z == 0.
Proof.
  intros Hz E. apply inject_Z_pos in Hz. rewrite E in Hz.
  now apply Qlt_irrefl in Hz.
Qed.

(** The width of a stack. *)
Lemma spaced_width (lo hi : Q) (n i : Z) :
  (2 <= n)%Z ->
  spaced lo hi n i == lo + inject_Z i * ((hi - lo) / inject_Z (n - 1)).
Proof.
  intros Hn. unfold spaced. field. apply inject_Z_nonzero. lia.
Qed.

Lemma width_nonneg (lo hi : Q) (n : Z) :
  (2 <= n)%Z -> lo <= hi -> 0 <= (hi - lo) / inject_Z (n - 1).
Proof.
  intros Hn Hle. apply Qle_shift_div_l; [apply inject_Z_pos; lia | lra].
Qed.

Lemma width_pos (lo hi : Q) (n : Z) :
  (2 <= n)%Z -> lo < hi -> 0 < (hi - lo) / inject_Z (n - 1).
Proof.
  intros Hn Hlt. apply Qlt_shift_div_l; [apply inject_Z_pos; lia | lra].
Qed.

Lemma spaced_step (lo hi : Q) (n i : Z) :
  (2 <= n)%Z ->
  spaced lo hi n (i + 1) - spaced lo hi n i == (hi - lo) / inject_Z (n - 1).
Proof.
  intros Hn. rewrite !spaced_width by exact Hn.
  rewrite inject_Z_plus. change (inject_Z 1) with 1. ring.
Qed.

Lemma spaced_mono (lo hi : Q) (n i j : Z) :
  (2 <= n)%Z -> lo <= hi -> (i <= j)%Z ->
  spaced lo hi n i <= spaced lo hi n j.
Proof.
  intros Hn Hle Hij. rewrite !spaced_width by exact Hn.
  assert (Ht : inject_Z i <= inject_Z j) by now rewrite <- Zle_Qle.
  pose proof (width_nonneg Hn Hle) as Hw.
  pose proof (Qmult_le_compat_r _ _ _ Ht Hw). lra.
Qed.

Lemma spaced_strict (lo hi : Q) (n i j : Z) :
  (2 <= n)%Z -> lo < hi -> (i < j)%Z ->
  spaced lo hi n i < spaced lo hi n j.
Proof.
  intros Hn Hlt Hij. rewrite !spaced_width by exact Hn.
  assert (Ht : inject_Z i < inject_Z j) by now rewrite <- Zlt_Qlt.
  pose proof (width_pos Hn Hlt) as Hw.
  pose proof (Qmult_lt_compat_r _ _ _ Hw Ht). lra.
Qed.

(** X5 -- evenly spaced keys, in exact arithmetic.  For a non-empty
    dataset of exact rationals ([fractions.Fraction] values) and
    [num_stacks >= 2], consecutive generated keys differ by
    [(max - min) / (num_stacks - 1)]; the keys are in non-decreasing
    order and all lie between the minimum and the maximum.  (On [float]
    data the keys are the rounded values of these, and the last one can
    exceed the maximum.) *)
Theorem key_generator_even_sorted (data : list Q) (num_stacks : Z) :
  data <> [] -> (2 <= num_stacks)%Z ->
  exists hi lo ks,
    py_max data = ret hi /\ py_min data = ret lo /\
    get_stack_keys data num_stacks = ret ks /\
    (forall i, (0 <= i)%Z -> (i + 1 < num_stacks)%Z ->
               key ks (i + 1) - key ks i
               == (hi - lo) / inject_Z (num_stacks - 1)) /\
    (forall i j, (0 <= i <= j)%Z -> (j < num_stacks)%Z ->
                 key ks i <= key ks j) /\
    (forall i, (0 <= i < num_stacks)%Z -> lo <= key ks i <= hi).
Proof.
  intros Hdata Hn.
  destruct (py_max_total Hdata) as (hi & Hhi).
  destruct (py_min_total Hdata) as (lo & Hlo).
  destruct (py_max_spec _ Hhi) as [_ Hhi_le].
  destruct (py_min_spec _ Hlo) as [Hlo_in _].
  assert (Hle : lo <= hi) by now apply Hhi_le.
  exists hi, lo, (map (spaced lo hi num_stacks) (range num_stacks)).
  split; [exact Hhi|]. split; [exact Hlo|].
  split; [apply get_stack_keys_eq; auto; lia|].
  split; [|split].
  - intros i Hi Hi'. rewrite !key_spaced by lia. now apply spaced_step.
  - intros i j Hij Hj. rewrite !key_spaced by lia. apply spaced_mono; auto; lia.
  - intros i Hi. rewrite key_spaced by exact Hi. split.
    + rewrite <- (spaced_first lo hi Hn) at 1. apply spaced_mono; auto; lia.
    + now apply spaced_le_hi.
Qed.

Lemma key_generator_even_sorted_witness :
  exists hi lo ks,
    py_max observations = ret hi /\ py_min observations = ret lo /\
    get_stack_keys observations 5 = ret ks /\
    (forall i, (0 <= i)%Z -> (i + 1 < 5)%Z ->
               key ks (i + 1) - key ks i == (hi - lo) / inject_Z (5 - 1)) /\
    (forall i j, (0 <= i <= j)%Z -> (j < 5)%Z -> key ks i <= key ks j) /\
    (forall i, (0 <= i < 5)%Z -> lo <= key ks i <= hi).
Proof.
  apply key_generator_even_sorted; [discriminate | lia].
Defined.

Lemma range_NoDup (n : Z) : NoDup (range n).
Proof.
  unfold range, range2. apply NoDup_map_NoDup_ForallPairs; [|apply seq_NoDup].
  intros a b _ _ E. lia.
Qed.

Lemma distinct_map (g : Z -> Q) (l : list Z) :
  NoDup l ->
  (forall a b, In a l -> In b l -> g a == g b -> a = b) ->
  distinct (map g l).
Proof.
  induction 1 as [|a l Ha Hl IH]; intros Hinj; simpl; [exact I|]. split.
  - destruct (key_in (g a) (map g l)) eqn:E; [|reflexivity].
    apply key_in_iff in E. destruct E as (k & Hk & Heq).
    apply in_map_iff in Hk. destruct Hk as (b & <- & Hb).
    assert (b = a) by (apply Hinj; [now right | now left | exact Heq]).
    subst b. contradiction.
  - apply IH. intros x y Hx Hy. apply Hinj; now right.
Qed.

Lemma spaced_keys_distinct (lo hi : Q) (n : Z) :
  (2 <= n)%Z -> lo < hi -> distinct (map (spaced lo hi n) (range n)).
Proof.
  intros Hn Hlt. apply distinct_map; [apply range_NoDup|].
  intros a b _ _ E.
  destruct (Z.lt_total a b) as [Hab|[Hab|Hab]]; [|exact Hab|].
  - pose proof (@spaced_strict lo hi n a b Hn Hlt Hab) as H.
    rewrite E in H. now apply Qlt_irrefl in H.
  - pose proof (@spaced_strict lo hi n b a Hn Hlt Hab) as H.
    rewrite E in H. now apply Qlt_irrefl in H.
Qed.

(** X6 -- as many bins as stacks, in exact arithmetic.  When a dataset
    of exact rationals ([fractions.Fraction] values) holds two different
    values and [num_stacks >= 2], the generated keys are strictly
    increasing, and the Binner returns a mapping whose keys are exactly
    these keys, in order: it has [num_stacks] bins.  (Rounded [float]
    keys may coincide, and then share a bin.) *)
Theorem binner_one_bin_per_stack (data : list Q) (num_stacks : Z) (x y : Q) :
  In x data -> In y data -> x < y -> (2 <= num_stacks)%Z ->
  exists ks d,
    get_stack_keys data num_stacks = ret ks /\
    (forall i j, (0 <= i < j)%Z -> (j < num_stacks)%Z ->
                 key ks i < key ks j) /\
    get_stack_dict data num_stacks None = ret d /\
    dict_keys d = ks /\
    len d = num_stacks.
Proof.
  intros Hx Hy Hxy Hn.
  assert (Hdata : data <> []) by (intros ->; destruct Hx).
  destruct (py_max_total Hdata) as (hi & Hhi).
  destruct (py_min_total Hdata) as (lo & Hlo).
  destruct (py_max_spec _ Hhi) as [_ Hhi_le].
  destruct (py_min_spec _ Hlo) as [_ Hlo_le].
  assert (Hlt : lo < hi).
  { apply Qle_lt_trans with x; [now apply Hlo_le|].
    apply Qlt_le_trans with y; [exact Hxy | now apply Hhi_le]. }
  set (ks := map (spaced lo hi num_stacks) (range num_stacks)).
  assert (Hks : get_stack_keys data num_stacks = ret ks)
    by (apply get_stack_keys_eq; auto; lia).
  assert (Hlen : length ks = Z.to_nat num_stacks)
    by (unfold ks; now rewrite length_map, range_length).
  assert (Hne : ks <> []).
  { intros E. rewrite E in Hlen. simpl in Hlen. lia. }
  destruct (binning_returns data Hne) as (d & Hd).
  exists ks, d. split; [exact Hks|]. split.
  - intros i j Hij Hj. unfold ks. rewrite !key_spaced by lia.
    apply spaced_strict; auto; lia.
  - split; [now rewrite (@get_stack_dict_with _ _ None ks Hks)|].
    destruct (binning_from_init _ _ Hd) as (Hkeys & _ & _).
    rewrite first_occurrences_distinct in Hkeys
      by (apply spaced_keys_distinct; auto).
    split; [exact Hkeys|].
    unfold len. rewrite <- (length_map fst d).
    fold (dict_keys d). rewrite Hkeys, Hlen. lia.
Qed.

Lemma binner_one_bin_per_stack_witness :
  exists ks d,
    get_stack_keys observations 5 = ret ks /\
    (forall i j, (0 <= i < j)%Z -> (j < 5)%Z -> key ks i < key ks j) /\
    get_stack_dict observations 5 None = ret d /\
    dict_keys d = ks /\
    len d = 5%Z.
Proof.
  apply (@binner_one_bin_per_stack observations 5 1 2).
  - now left.
  - right. now left.
  - reflexivity.
  - lia.
Defined.

(** ** Where an observation goes *)

Lemma first_true (f : Z -> bool) (k : nat) (a : Z) :
  (exists i, (a <= i < a + Z.of_nat k)%Z /\ f i = true) ->
  exists i, (a <= i < a + Z.of_nat k)%Z /\ f i = true /\
            forall j, (a <= j < i)%Z -> f j = false.
Proof.
  revert a. induction k as [|k IH]; intros a (i & Hi & Hf); [lia|].
  destruct (f a) eqn:Ea.
  - exists a. split; [lia|]. split; [exact Ea|]. intros j Hj. lia.
  - assert (Hia : i <> a) by (intros ->; congruence).
    destruct (IH (a + 1)%Z) as (m & Hm & Hfm & Hmin).
    { exists i. split; [lia | exact Hf]. }
    exists m. split; [lia|]. split; [exact Hfm|].
    intros j Hj. destruct (Z.eq_dec j a) as [->|Hja]; [exact Ea|].
    apply Hmin. lia.
Qed.

(** Between a key at or below the observation and a later key above it,
    some adjacent pair encloses the observation. *)
Lemma flip_between (keys : list Q) (obs : Q) (m : nat) :
  num_le (nth 0 keys 0) obs = true ->
  num_le (nth m keys 0) obs = false ->
  exists i, (i < m)%nat /\
            num_le (nth i keys 0) obs = true /\
            num_le (nth (S i) keys 0) obs = false.
Proof.
  intros H0. induction m as [|m IH]; intros Hm; [congruence|].
  destruct (num_le (nth m keys 0) obs) eqn:E.
  - exists m. auto.
  - destruct (IH eq_refl) as (i & Hi & Hp). exists i. split; [lia | exact Hp].
Qed.

Lemma target_first_enclosing (keys : list Q) (obs : Q) (i : Z) :
  (1 <= i < len keys)%Z -> encloses keys obs i ->
  (forall j, (1 <= j < i)%Z -> ~ encloses keys obs j) ->
  target keys obs = key keys (i - 1).
Proof.
  intros Hi Henc Hfirst. unfold target.
  rewrite (@find_range2_first _ 1 (len keys) i Hi); [reflexivity | |].
  - now apply enclosesb_iff.
  - intros j Hj. apply not_true_iff_false. rewrite enclosesb_iff.
    now apply Hfirst.
Qed.

Lemma target_no_enclosing (keys : list Q) (obs : Q) :
  (forall j, (1 <= j < len keys)%Z -> ~ encloses keys obs j) ->
  target keys obs = last keys 0.
Proof.
  intros Hnone. unfold target. rewrite find_range2_none; [reflexivity|].
  intros j Hj. apply not_true_iff_false. rewrite enclosesb_iff.
  now apply Hnone.
Qed.

Lemma interior_has_first_enclosing (keys : list Q) (obs : Q) :
  key keys 0 <= obs -> obs < last keys 0 ->
  exists i, (1 <= i < len keys)%Z /\ encloses keys obs i /\
            (forall j, (1 <= j < i)%Z -> ~ encloses keys obs j).
Proof.
  intros Hlo Hhi.
  assert (Hne : keys <> []).
  { intros ->. simpl in Hhi. unfold key in Hlo. simpl in Hlo. lra. }
  rewrite (last_key Hne) in Hhi. unfold key in Hlo, Hhi.
  destruct (@flip_between keys obs (Z.to_nat (len keys - 1)))
    as (i & Hi & Hp & Hq).
  { now apply num_le_iff. }
  { apply not_true_iff_false. rewrite num_le_iff. now apply Qlt_not_le. }
  destruct (@first_true (enclosesb keys obs) (Z.to_nat (len keys - 1)) 1)
    as (m & Hm & Hfm & Hmin).
  { exists (Z.of_nat (S i)). split; [lia|].
    unfold enclosesb, key.
    replace (Z.to_nat (Z.of_nat (S i) - 1)) with i by lia.
    rewrite Nat2Z.id, Hp. unfold num_lt. fold (num_le (nth (S i) keys 0) obs).
    now rewrite Hq. }
  assert (Hlen : (0 <= len keys)%Z) by apply len_nonneg.
  exists m. split; [lia|]. split; [now apply enclosesb_iff|].
  intros j Hj. rewrite <- enclosesb_iff. rewrite Hmin by lia. discriminate.
Qed.

(** X7 -- inside the key range.  Whatever the keys (sorted or not), an
    observation that is at least the first key and below the last key is
    never sent to the fallback: an adjacent pair encloses it, and the
    loop body appends it under the lower key of the first such pair (no
    pair before it encloses the observation), a key not above the
    observation. *)
Theorem binner_interior_observation (keys : list Q) (d : dict) (obs : Q) :
  key keys 0 <= obs -> obs < last keys 0 ->
  exists i, (1 <= i < len keys)%Z /\
            encloses keys obs i /\
            (forall j, (1 <= j < i)%Z -> ~ encloses keys obs j) /\
            key keys (i - 1) <= obs /\
            place keys d obs = dict_append d (key keys (i - 1)) obs.
Proof.
  intros Hlo Hhi.
  destruct (interior_has_first_enclosing keys Hlo Hhi) as (i & Hi & Henc & Hmin).
  exists i. split; [exact Hi|]. split; [exact Henc|].
  split; [exact Hmin|].
  split; [apply Henc|].
  assert (Hne : keys <> []).
  { intros ->. unfold len in Hi. simpl in Hi. lia. }
  rewrite place_target by exact Hne.
  now rewrite (target_first_enclosing Hi Henc Hmin).
Qed.

Lemma binner_interior_observation_witness :
  exists i, (1 <= i < len ([1; 10; 2; 20]%Q : list Q))%Z /\
            encloses [1; 10; 2; 20] 5 i /\
            (forall j, (1 <= j < i)%Z -> ~ encloses [1; 10; 2; 20] 5 j) /\
            key [1; 10; 2; 20] (i - 1) <= 5 /\
            place [1; 10; 2; 20] [] 5
            = dict_append [] (key [1; 10; 2; 20] (i - 1)) 5.
Proof.
  apply binner_interior_observation.
  - unfold key. simpl. unfold Qle. simpl. lia.
  - simpl. reflexivity.
Defined.

(** X8 -- outside the key range.  With a non-empty key sequence, an
    observation below every key, or at or above every key, is appended
    under the LAST key: values under the range are not put into the
    first bin. *)
Theorem binner_out_of_range_goes_last (keys : list Q) (d : dict) (obs : Q) :
  keys <> [] ->
  (forall k, In k keys -> obs < k) \/ (forall k, In k keys -> k <= obs) ->
  place keys d obs = dict_append d (last keys 0) obs.
Proof.
  intros Hne Hout. rewrite place_target by exact Hne.
  rewrite target_no_enclosing; [reflexivity|].
  intros j Hj [Hle Hlt]. unfold len in Hj.
  destruct Hout as [Hbelow|Habove].
  - assert (Hin : In (key keys (j - 1)) keys)
      by (unfold key; apply nth_In; lia).
    apply Hbelow in Hin. lra.
  - assert (Hin : In (key keys j) keys)
      by (unfold key; apply nth_In; lia).
    apply Habove in Hin. lra.
Qed.

Lemma binner_out_of_range_goes_last_witness :
  place [1; 10] (dict_init [1; 10]) 0 =
  dict_append (dict_init [1; 10]) (last [1; 10] 0) 0.
Proof.
  apply binner_out_of_range_goes_last; [discriminate|].
  left. intros k [<-|[<-|[]]]; reflexivity.
Defined.

(** ** Bins of the generated keys *)

Lemma in_bin_contents (d : dict) (k : Q) (v : list Q) (x : Q) :
  In (k, v) d -> In x v -> In x (bin_contents d).
Proof.
  intros Hkv Hx. unfold bin_contents. apply in_concat.
  exists v. split; [|exact Hx]. apply in_map_iff. now exists (k, v).
Qed.

Lemma spaced_keys_length (lo hi : Q) (n : Z) :
  (0 <= n)%Z -> len (map (spaced lo hi n) (range n)) = n.
Proof. intros Hn. unfold len. rewrite length_map, range_length. lia. Qed.

Lemma spaced_keys_last (lo hi : Q) (n : Z) :
  (2 <= n)%Z -> last (map (spaced lo hi n) (range n)) 0 == hi.
Proof.
  intros Hn. rewrite last_key.
  - rewrite spaced_keys_length, key_spaced by lia. now apply spaced_last.
  - intros E. apply (f_equal (@length Q)) in E.
    rewrite length_map, range_length in E. simpl in E. lia.
Qed.

(** X9 -- an observation lies in its stack, in exact arithmetic.  With
    keys generated from a non-empty dataset of exact rationals
    ([fractions.Fraction] values) and [num_stacks >= 2], every
    observation held by the returned mapping is at or above the key of
    its bin, and below that key plus the stack width
    [(max - min) / (num_stacks - 1)], unless it is the maximum.  (With
    rounded [float] keys an observation can sit one stack too low.) *)
Theorem binner_observation_in_its_stack (data : list Q) (num_stacks : Z) :
  data <> [] -> (2 <= num_stacks)%Z ->
  exists hi lo d,
    py_max data = ret hi /\ py_min data = ret lo /\
    get_stack_dict data num_stacks None = ret d /\
    forall k v x, In (k, v) d -> In x v ->
                  k <= x /\
                  (x < k + (hi - lo) / inject_Z (num_stacks - 1) \/ x == hi).
Proof.
  intros Hdata Hn.
  destruct (py_max_total Hdata) as (hi & Hhi).
  destruct (py_min_total Hdata) as (lo & Hlo).
  destruct (py_max_spec _ Hhi) as [_ Hhi_le].
  destruct (py_min_spec _ Hlo) as [Hlo_in Hlo_le].
  assert (Hle : lo <= hi) by now apply Hhi_le.
  set (ks := map (spaced lo hi num_stacks) (range num_stacks)).
  assert (Hks : get_stack_keys data num_stacks = ret ks)
    by (apply get_stack_keys_eq; auto; lia).
  assert (Hlen : len ks = num_stacks) by (apply spaced_keys_length; lia).
  assert (Hne : ks <> []).
  { intros E. rewrite E in Hlen. unfold len in Hlen. simpl in Hlen. lia. }
  destruct (binning_returns data Hne) as (d & Hd).
  exists hi, lo, d. split; [exact Hhi|]. split; [exact Hlo|].
  split; [now rewrite (@get_stack_dict_with _ _ None ks Hks)|].
  destruct (binning_from_init _ _ Hd) as (_ & Hperm & Hpl).
  intros k v x Hkv Hx.
  assert (Hdata_x : In x data).
  { apply (Permutation_in _ Hperm). now apply (in_bin_contents d k v). }
  pose proof (Hpl k v x Hkv Hx) as Hk.
  destruct (Qlt_le_dec x hi) as [Hlt|Hge].
  - assert (H0 : key ks 0 <= x).
    { unfold ks. rewrite key_spaced by lia.
      rewrite (spaced_first lo hi Hn). now apply Hlo_le. }
    assert (Hl : x < last ks 0).
    { unfold ks. now rewrite spaced_keys_last. }
    destruct (interior_has_first_enclosing ks H0 Hl) as (i & Hi & Henc & Hmin).
    rewrite (target_first_enclosing Hi Henc Hmin) in Hk.
    destruct Henc as [He1 He2]. rewrite Hk in He1. split; [exact He1|].
    left. rewrite <- Hk. unfold ks in He2 |- *.
    rewrite key_spaced in He2 |- * by lia.
    pose proof (@spaced_step lo hi num_stacks (i - 1) Hn) as Hstep.
    replace (i - 1 + 1)%Z with i in Hstep by lia. lra.
  - assert (Hxhi : x == hi) by (apply Qle_antisym; auto).
    unfold ks in Hk. rewrite (target_of_max Hn Hle Hxhi) in Hk.
    rewrite spaced_keys_last in Hk by exact Hn.
    split; [|now right]. rewrite <- Hk. lra.
Qed.

Lemma binner_observation_in_its_stack_witness :
  exists hi lo d,
    py_max observations = ret hi /\ py_min observations = ret lo /\
    get_stack_dict observations 5 None = ret d /\
    forall k v x, In (k, v) d -> In x v ->
                  k <= x /\
                  (x < k + (hi - lo) / inject_Z (5 - 1) \/ x == hi).
Proof.
  apply binner_observation_in_its_stack; [discriminate | lia].
Defined.

(** X10 -- the minimum goes to the first bin, in exact arithmetic.
    When a dataset of exact rationals ([fractions.Fraction] values)
    holds two different values and [num_stacks >= 2], the loop body
    appends every observation equal to the minimum under the first
    generated key, and in the returned mapping such an observation sits
    under a key equal to the minimum. *)
Theorem binner_min_in_first_bin (data : list Q) (num_stacks : Z) (x y : Q) :
  In x data -> In y data -> x < y -> (2 <= num_stacks)%Z ->
  exists lo ks d,
    py_min data = ret lo /\
    get_stack_keys data num_stacks = ret ks /\
    get_stack_dict data num_stacks None = ret d /\
    key ks 0 == lo /\
    (forall obs d0, obs == lo ->
                    place ks d0 obs = dict_append d0 (key ks 0) obs) /\
    (forall k v obs, In (k, v) d -> In obs v -> obs == lo -> k == lo).
Proof.
  intros Hx Hy Hxy Hn.
  assert (Hdata : data <> []) by (intros ->; destruct Hx).
  destruct (py_max_total Hdata) as (hi & Hhi).
  destruct (py_min_total Hdata) as (lo & Hlo).
  destruct (py_max_spec _ Hhi) as [_ Hhi_le].
  destruct (py_min_spec _ Hlo) as [_ Hlo_le].
  assert (Hlt : lo < hi).
  { apply Qle_lt_trans with x; [now apply Hlo_le|].
    apply Qlt_le_trans with y; [exact Hxy | now apply Hhi_le]. }
  set (ks := map (spaced lo hi num_stacks) (range num_stacks)).
  assert (Hks : get_stack_keys data num_stacks = ret ks)
    by (apply get_stack_keys_eq; auto; lia).
  assert (Hlen : len ks = num_stacks) by (apply spaced_keys_length; lia).
  assert (Hne : ks <> []).
  { intros E. rewrite E in Hlen. unfold len in Hlen. simpl in Hlen. lia. }
  assert (H0 : key ks 0 == lo).
  { unfold ks. rewrite key_spaced by lia. now apply spaced_first. }
  assert (Htarget : forall obs, obs == lo -> target ks obs = key ks 0).
  { intros obs Hobs.
    apply (@target_first_enclosing ks obs 1); [lia | | intros j Hj; lia].
    split.
    - change (1 - 1)%Z with 0%Z. rewrite H0, Hobs. apply Qle_refl.
    - rewrite Hobs, <- H0. unfold ks. rewrite !key_spaced by lia.
      apply spaced_strict; auto; lia. }
  destruct (binning_returns data Hne) as (d & Hd).
  exists lo, ks, d. split; [exact Hlo|]. split; [exact Hks|].
  split; [now rewrite (@get_stack_dict_with _ _ None ks Hks)|].
  split; [exact H0|]. split.
  - intros obs d0 Hobs. rewrite place_target by exact Hne.
    now rewrite Htarget.
  - intros k v obs Hkv Hobs_in Hobs.
    destruct (binning_from_init _ _ Hd) as (_ & _ & Hpl).
    rewrite <- (Hpl k v obs Hkv Hobs_in), (Htarget obs Hobs). exact H0.
Qed.

Lemma binner_min_in_first_bin_witness :
  exists lo ks d,
    py_min observations = ret lo /\
    get_stack_keys observations 5 = ret ks /\
    get_stack_dict observations 5 None = ret d /\
    key ks 0 == lo /\
    (forall obs d0, obs == lo ->
                    place ks d0 obs = dict_append d0 (key ks 0) obs) /\
    (forall k v obs, In (k, v) d -> In obs v -> obs == lo -> k == lo).
Proof.
  apply (@binner_min_in_first_bin observations 5 1 2).
  - now left.
  - right. now left.
  - reflexivity.
  - lia.
Defined.

(** ** Points of the pipeline *)

Lemma get_points_flat (d : dict) : get_points d = flat_map stack_points d.
Proof. apply (get_points_acc d []). Qed.

Lemma get_points_length (d : dict) : length (get_points d) = bin_total d.
Proof.
  rewrite get_points_flat. unfold bin_total.
  induction d as [|[k v] d IH]; simpl; [reflexivity|].
  rewrite length_app, IH. unfold stack_points.
  now rewrite length_map, length_seq.
Qed.

Lemma in_stack_points (k : Q) (v : list Q) (x : Q) (y : Z) :
  In (x, y) (stack_points (k, v)) <-> x = k /\ (1 <= y <= len v)%Z.
Proof.
  unfold stack_points, len. simpl. rewrite in_map_iff. split.
  - intros (h & [= <- <-] & Hh). apply in_seq in Hh. split; [reflexivity|lia].
  - intros [-> Hy]. exists (Z.to_nat y). split.
    + f_equal. lia.
    + apply in_seq. lia.
Qed.

Lemma stack_points_NoDup (kv : Q * list Q) : NoDup (stack_points kv).
Proof.
  unfold stack_points. apply NoDup_map_NoDup_ForallPairs; [|apply seq_NoDup].
  intros a b _ _ [= E]. lia.
Qed.

Lemma points_NoDup (d : dict) :
  distinct (dict_keys d) -> NoDup (flat_map stack_points d).
Proof.
  induction d as [|[k v] d IH]; simpl; intros Hd; [constructor|].
  destruct Hd as [Hk Hd]. apply NoDup_app.
  - apply stack_points_NoDup.
  - now apply IH.
  - intros [x y] Hin Hin'. apply in_stack_points in Hin. destruct Hin as [-> _].
    apply in_flat_map in Hin'. destruct Hin' as ([k' v'] & Hkv & Hin').
    apply in_stack_points in Hin'. destruct Hin' as [-> _].
    assert (key_in k' (dict_keys d) = true); [|congruence].
    apply key_in_In. unfold dict_keys. apply in_map_iff. now exists (k', v').
Qed.

(** X12 -- one point per observation.  When the Binner returns a
    mapping for a dataset, the Point Projector applied to it yields as
    many points as the dataset has observations. *)
Theorem pipeline_point_count (data : list Q) (num_stacks : Z)
        (keys : option (list Q)) (d : dict) :
  get_stack_dict data num_stacks keys = ret d ->
  length (get_points d) = length data.
Proof.
  intros Hrun. rewrite get_points_length, bin_total_contents.
  unfold get_stack_dict in Hrun.
  destruct (match keys with
            | None => get_stack_keys data num_stacks
            | Some ks => ret ks
            end) as [e|ks]; [discriminate|].
  simpl in Hrun. apply binning_from_init in Hrun.
  destruct Hrun as (_ & Hperm & _). now apply Permutation_length.
Qed.

Lemma pipeline_point_count_witness :
  length (get_points [(1, [1]); (10, [10])]) = length [1; 10].
Proof.
  apply (@pipeline_point_count [1; 10] 2 (Some [1; 10])). reflexivity.
Defined.

(** X13 -- which points are emitted.  [(x, y)] is a point of the
    projection exactly when the mapping has an entry with the key [x]
    whose list has at least [y] elements, with [y >= 1]: every height
    from 1 to the size of a bin occurs, and no other. *)
Theorem point_projector_membership (d : dict) (x : Q) (y : Z) :
  In (x, y) (get_points d) <->
  exists v, In (x, v) d /\ (1 <= y <= len v)%Z.
Proof.
  rewrite get_points_flat, in_flat_map. split.
  - intros ([k v] & Hkv & Hin). apply in_stack_points in Hin.
    destruct Hin as [-> Hy]. now exists v.
  - intros (v & Hkv & Hy). exists (x, v). split; [exact Hkv|].
    now apply in_stack_points.
Qed.

(** X14 -- no two points coincide.  The points projected from a mapping
    returned by the Binner are pairwise different: no two observations
    are drawn on the same spot. *)
Theorem pipeline_points_distinct (data : list Q) (num_stacks : Z)
        (keys : option (list Q)) (d : dict) :
  get_stack_dict data num_stacks keys = ret d ->
  distinct (dict_keys d) /\ NoDup (get_points d).
Proof.
  intros Hrun. unfold get_stack_dict in Hrun.
  destruct (match keys with
            | None => get_stack_keys data num_stacks
            | Some ks => ret ks
            end) as [e|ks]; [discriminate|].
  simpl in Hrun. apply binning_from_init in Hrun.
  destruct Hrun as (Hkeys & _ & _).
  assert (Hd : distinct (dict_keys d)).
  { rewrite Hkeys. apply first_occurrences_are_distinct. }
  split; [exact Hd|]. rewrite get_points_flat. now apply points_NoDup.
Qed.

Lemma pipeline_points_distinct_witness :
  distinct (dict_keys [(10 # 2, [5; 5; 5])]) /\
  NoDup (get_points [(10 # 2, [5; 5; 5])]).
Proof.
  apply (@pipeline_points_distinct [5; 5; 5] 3 None). reflexivity.
Defined.

(** ** dotplot *)

Lemma labelled_run (text : option String.string) (size : Q) (n : Z)
      (mk : String.string -> Q -> plt_call) (t : list plt_call) :
  n <> 0%Z ->
  labelled text size n mk t = (t ++ label_calls text size n mk, ret tt).
Proof.
  intros Hn. unfold labelled, label_calls.
  destruct text as [s|]; [|unfold plot_ret; now rewrite app_nil_r].
  destruct (truthy (Some s)); [|unfold plot_ret; now rewrite app_nil_r].
  unfold plot_bind, eval, call, py_div.
  destruct (Z.eqb_spec n 0) as [E|_]; [contradiction|]. reflexivity.
Qed.

Lemma py_max_int_total (ys : list Z) :
  ys <> [] -> exists top, py_max_int ys = ret top.
Proof. destruct ys; [congruence|]. intros _. eexists. reflexivity. Qed.

(** A run of [dotplot], stage by stage. *)
Lemma dotplot_run (data : list Q) (n : Z) (keys : option (list Q))
      (rotation : option Z) (title xlabel ylabel : option String.string)
      (filename : String.string) (show : bool) :
  let run := dotplot data n keys rotation title xlabel ylabel filename show []
  in
  match get_stack_dict data n keys with
  | inl e => run = ([], raise e)
  | inr d =>
      if (len (dict_keys d) =? 0)%Z
      then run = ([PltFigure (15, 7)%Z], raise ZeroDivisionError)
      else if (n =? 0)%Z
      then run = (firstn 3 (rendering_head d n rotation ylabel),
                  raise ZeroDivisionError)
      else match py_max_int (map snd (get_points d)) with
           | inl e => run = (rendering_head d n rotation ylabel, raise e)
           | inr top =>
               run = (rendering_head d n rotation ylabel
                      ++ rendering_body top n title xlabel ylabel
                      ++ rendering_tail filename show, ret tt)
           end
  end.
Proof.
  intros run. unfold run, dotplot, rendering_head, rendering_body,
    rendering_tail.
  unfold plot_bind, eval, call, py_div, plot_ret.
  destruct (get_stack_dict data n keys) as [e|d]; [reflexivity|].
  destruct (Z.eqb_spec (len (dict_keys d)) 0) as [E0|E0]; [reflexivity|].
  destruct (truthy ylabel) eqn:Ey;
    (destruct (Z.eqb_spec n 0) as [En|En]; [reflexivity|]);
    (destruct (py_max_int (map snd (get_points d))) as [e|top];
       [reflexivity|]);
    cbv beta iota delta [ret raise]; cbn [app];
    rewrite (labelled_run title 220 PltTitle _ En);
    rewrite (labelled_run xlabel 180 PltXlabel _ En);
    rewrite (labelled_run ylabel 180 PltYlabel _ En);
    destruct show; cbv beta iota delta [ret];
    repeat rewrite <- app_assoc; cbn [app]; reflexivity.
Qed.

Section DotplotStages.
Variables (data : list Q) (n : Z) (keys : option (list Q))
          (rotation : option Z) (title xlabel ylabel : option String.string)
          (filename : String.string) (show : bool).

Let run := dotplot data n keys rotation title xlabel ylabel filename show [].

Lemma dotplot_binner_fails (e : exn) :
  get_stack_dict data n keys = raise e -> run = ([], raise e).
Proof.
  intros Hd.
  pose proof (dotplot_run data n keys rotation title xlabel ylabel
                          filename show) as H.
  cbv zeta in H. rewrite Hd in H. exact H.
Qed.

Lemma dotplot_no_bins (d : dict) :
  get_stack_dict data n keys = ret d -> len (dict_keys d) = 0%Z ->
  run = ([PltFigure (15, 7)%Z], raise ZeroDivisionError).
Proof.
  intros Hd E0.
  pose proof (dotplot_run data n keys rotation title xlabel ylabel
                          filename show) as H.
  cbv zeta in H. rewrite Hd in H. cbv beta iota delta [ret] in H.
  rewrite (proj2 (Z.eqb_eq _ _) E0) in H. exact H.
Qed.

Lemma dotplot_no_stacks (d : dict) :
  get_stack_dict data n keys = ret d -> len (dict_keys d) <> 0%Z ->
  n = 0%Z ->
  run = (firstn 3 (rendering_head d n rotation ylabel),
         raise ZeroDivisionError).
Proof.
  intros Hd E0 En.
  pose proof (dotplot_run data n keys rotation title xlabel ylabel
                          filename show) as H.
  cbv zeta in H. rewrite Hd in H. cbv beta iota delta [ret] in H.
  rewrite (proj2 (Z.eqb_neq _ _) E0) in H.
  rewrite (proj2 (Z.eqb_eq n 0) En) in H. exact H.
Qed.

Lemma dotplot_no_points (d : dict) (e : exn) :
  get_stack_dict data n keys = ret d -> len (dict_keys d) <> 0%Z ->
  n <> 0%Z -> py_max_int (map snd (get_points d)) = raise e ->
  run = (rendering_head d n rotation ylabel, raise e).
Proof.
  intros Hd E0 En Emax.
  pose proof (dotplot_run data n keys rotation title xlabel ylabel
                          filename show) as H.
  cbv zeta in H. rewrite Hd in H. cbv beta iota delta [ret] in H.
  rewrite (proj2 (Z.eqb_neq _ _) E0) in H.
  rewrite (proj2 (Z.eqb_neq n 0) En) in H.
  rewrite Emax in H. exact H.
Qed.

Lemma dotplot_completes (d : dict) (top : Z) :
  get_stack_dict data n keys = ret d -> len (dict_keys d) <> 0%Z ->
  n <> 0%Z -> py_max_int (map snd (get_points d)) = ret top ->
  run = (rendering_head d n rotation ylabel
         ++ rendering_body top n title xlabel ylabel
         ++ rendering_tail filename show, ret tt).
Proof.
  intros Hd E0 En Emax.
  pose proof (dotplot_run data n keys rotation title xlabel ylabel
                          filename show) as H.
  cbv zeta in H. rewrite Hd in H. cbv beta iota delta [ret] in H.
  rewrite (proj2 (Z.eqb_neq _ _) E0) in H.
  rewrite (proj2 (Z.eqb_neq n 0) En) in H.
  rewrite Emax in H. exact H.
Qed.
End DotplotStages.

Lemma binner_result_nonempty (data : list Q) (n : Z) (keys : option (list Q))
      (d : dict) :
  get_stack_dict data n keys = ret d -> data <> [] ->
  len (dict_keys d) <> 0%Z /\ map snd (get_points d) <> [].
Proof.
  intros Hrun Hdata.
  assert (Hlen : length (get_points d) = length data).
  { rewrite get_points_length, bin_total_contents.
    unfold get_stack_dict in Hrun.
    destruct (match keys with
              | None => get_stack_keys data n
              | Some ks => ret ks
              end) as [e|ks]; [discriminate|].
    simpl in Hrun. apply binning_from_init in Hrun.
    destruct Hrun as (_ & Hperm & _). now apply Permutation_length. }
  assert (Hpos : (0 < length data)%nat)
    by (destruct data; [congruence | simpl; lia]).
  split.
  - destruct d as [|kv d]; [simpl in Hlen; lia|].
    unfold len. simpl. lia.
  - intros E. apply (f_equal (@length Z)) in E.
    rewrite length_map in E. simpl in E. lia.
Qed.

Lemma binner_result_of_empty (n : Z) (keys : option (list Q)) (d : dict) :
  get_stack_dict [] n keys = ret d -> map snd (get_points d) = [].
Proof.
  intros Hrun.
  assert (Hlen : length (get_points d) = 0%nat).
  { rewrite get_points_length, bin_total_contents.
    unfold get_stack_dict in Hrun.
    destruct (match keys with
              | None => get_stack_keys [] n
              | Some ks => ret ks
              end) as [e|ks]; [discriminate|].
    simpl in Hrun. injection Hrun as <-.
    now rewrite (bin_contents_empty (dict_init_values ks)). }
  destruct (get_points d); [reflexivity | discriminate].
Qed.

(** X15 -- when [dotplot] goes through.  [dotplot] completes without
    raising exactly when the Binner returns a mapping, the dataset is
    not empty and [num_stacks] is not zero. *)
Theorem dotplot_succeeds_iff (data : list Q) (num_stacks : Z)
        (keys : option (list Q)) (rotation : option Z)
        (title xlabel ylabel : option String.string)
        (filename : String.string) (show : bool) :
  outcome_of (dotplot data num_stacks keys rotation title xlabel ylabel
                      filename show) = ret tt
  <-> (exists d, get_stack_dict data num_stacks keys = ret d) /\
      data <> [] /\ num_stacks <> 0%Z.
Proof.
  pose proof (dotplot_run data num_stacks keys rotation title xlabel ylabel
                          filename show) as Hrun.
  cbv zeta in Hrun. unfold outcome_of.
  destruct (get_stack_dict data num_stacks keys) as [e|d] eqn:Hd.
  - rewrite Hrun. simpl. split; [discriminate|].
    intros [(d & Hd') _]. discriminate.
  - destruct (Z.eqb_spec (len (dict_keys d)) 0) as [E0|E0].
    { rewrite Hrun. simpl. split; [discriminate|].
      intros (_ & Hdata & _).
      destruct (@binner_result_nonempty _ _ _ _ Hd Hdata) as [H _].
      contradiction. }
    destruct (Z.eqb_spec num_stacks 0) as [En|En].
    { rewrite Hrun. simpl. split; [discriminate|]. intros (_ & _ & H).
      contradiction. }
    destruct (py_max_int (map snd (get_points d))) as [e|top] eqn:Emax.
    + rewrite Hrun. simpl. split; [discriminate|].
      intros (_ & Hdata & _).
      destruct (@binner_result_nonempty _ _ _ _ Hd Hdata) as [_ H].
      destruct (py_max_int_total H) as (top & Htop).
      rewrite Htop in Emax. discriminate.
    + rewrite Hrun. simpl. split; [|reflexivity]. intros _.
      split; [now exists d|]. split; [|exact En].
      intros ->. rewrite (@binner_result_of_empty _ _ _ Hd) in Emax.
      discriminate.
Qed.

(** X16 -- the empty dataset cannot be plotted.  For the empty dataset
    [dotplot] always raises: a [ValueError] without explicit keys (from
    the Key Generator), a [ZeroDivisionError] with an empty key list
    (marker size [4000/len(keys)]) or with [num_stacks = 0], and
    otherwise a [ValueError] from [max(ys)] when the vertical limits are
    set. *)
Theorem dotplot_empty_dataset (num_stacks : Z) (keys : option (list Q))
        (rotation : option Z) (title xlabel ylabel : option String.string)
        (filename : String.string) (show : bool) :
  outcome_of (dotplot [] num_stacks keys rotation title xlabel ylabel
                      filename show)
  = match keys with
    | None => raise ValueError
    | Some [] => raise ZeroDivisionError
    | Some (_ :: _) =>
        if (num_stacks =? 0)%Z then raise ZeroDivisionError
        else raise ValueError
    end.
Proof.
  pose proof (dotplot_run [] num_stacks keys rotation title xlabel ylabel
                          filename show) as Hrun.
  cbv zeta in Hrun. unfold outcome_of.
  destruct keys as [[|k ks]|].
  - simpl in Hrun. now rewrite Hrun.
  - assert (Hd : get_stack_dict [] num_stacks (Some (k :: ks))
                 = ret (dict_init (k :: ks))) by reflexivity.
    rewrite Hd in Hrun. cbv beta iota delta [ret] in Hrun. revert Hrun.
    destruct (Z.eqb_spec (len (dict_keys (dict_init (k :: ks)))) 0)
      as [E0|E0]; intros Hrun.
    { exfalso. pose proof (@dict_init_covered (k :: ks) k (or_introl eq_refl))
        as Hc.
      destruct (dict_keys (dict_init (k :: ks))); [discriminate|].
      unfold len in E0. simpl in E0. lia. }
    revert Hrun.
    destruct (Z.eqb_spec num_stacks 0) as [En|En]; intros Hrun;
      [now rewrite Hrun|].
    rewrite (@binner_result_of_empty _ _ _ Hd) in Hrun. simpl in Hrun.
    now rewrite Hrun.
  - simpl in Hrun. now rewrite Hrun.
Qed.

(** X17 -- a zero stack count with explicit keys.  With explicit
    non-empty keys and a non-empty dataset the Binner does not look at
    [num_stacks], but [dotplot] divides by it for the tick font size:
    for [num_stacks = 0] it raises a [ZeroDivisionError] after the
    figure, the scatter plot and the y-axis call were issued, and
    nothing after them. *)
Theorem dotplot_zero_stack_count (data ks : list Q) (rotation : option Z)
        (title xlabel ylabel : option String.string)
        (filename : String.string) (show : bool) :
  ks <> [] -> data <> [] ->
  exists d,
    get_stack_dict data 0 (Some ks) = ret d /\
    dotplot data 0 (Some ks) rotation title xlabel ylabel filename show []
    = ([PltFigure (15, 7)%Z;
        PltScatter (map fst (get_points d)) (map snd (get_points d))
                   (4000 / inject_Z (len (dict_keys d)));
        (if truthy ylabel then PltYticks [] else PltYaxisSetVisible false)],
       raise ZeroDivisionError).
Proof.
  intros Hks Hdata.
  destruct (@binning_returns ks data Hks) as (d & Hd).
  assert (Hgsd : get_stack_dict data 0 (Some ks) = ret d) by exact Hd.
  exists d. split; [exact Hgsd|].
  destruct (@binner_result_nonempty _ _ _ _ Hgsd Hdata) as [H0 _].
  apply (@dotplot_no_stacks data 0 (Some ks) rotation title xlabel ylabel
                            filename show d Hgsd H0 eq_refl).
Qed.

Lemma dotplot_zero_stack_count_witness :
  exists d,
    get_stack_dict [2; 11] 0 (Some [1; 10]) = ret d /\
    dotplot [2; 11] 0 (Some [1; 10]) None None None None
            "image.png"%string false []
    = ([PltFigure (15, 7)%Z;
        PltScatter (map fst (get_points d)) (map snd (get_points d))
                   (4000 / inject_Z (len (dict_keys d)));
        (if truthy None then PltYticks [] else PltYaxisSetVisible false)],
       raise ZeroDivisionError).
Proof.
  apply dotplot_zero_stack_count; discriminate.
Defined.

Section DotplotOutcome.
Variables (data : list Q) (n : Z) (keys : option (list Q))
          (rotation : option Z) (title xlabel ylabel : option String.string)
          (filename : String.string) (show : bool).

Let run := dotplot data n keys rotation title xlabel ylabel filename show [].

(** The stage at which a run ends. *)
Lemma dotplot_stages :
  (exists e, run = ([], raise e)) \/
  run = ([PltFigure (15, 7)%Z], raise ZeroDivisionError) \/
  (exists d, run = (firstn 3 (rendering_head d n rotation ylabel),
                    raise ZeroDivisionError)) \/
  (exists d e, run = (rendering_head d n rotation ylabel, raise e)) \/
  (exists d top,
      get_stack_dict data n keys = ret d /\
      py_max_int (map snd (get_points d)) = ret top /\
      run = (rendering_head d n rotation ylabel
             ++ rendering_body top n title xlabel ylabel
             ++ rendering_tail filename show, ret tt)).
Proof.
  destruct (get_stack_dict data n keys) as [e|d] eqn:Hd.
  { left. exists e. now apply dotplot_binner_fails. }
  right. destruct (Z.eq_dec (len (dict_keys d)) 0) as [E0|E0].
  { left. now apply (@dotplot_no_bins data n keys rotation title xlabel
                                      ylabel filename show d). }
  right. destruct (Z.eq_dec n 0) as [En|En].
  { left. exists d. now apply dotplot_no_stacks. }
  right.
  destruct (py_max_int (map snd (get_points d))) as [e|top] eqn:Emax.
  { left. exists d, e. now apply dotplot_no_points. }
  right. exists d, top. split; [reflexivity|]. split; [exact Emax|].
  now apply dotplot_completes.
Qed.

Lemma dotplot_success_inv :
  snd run = ret tt ->
  exists d top,
    get_stack_dict data n keys = ret d /\
    py_max_int (map snd (get_points d)) = ret top /\
    run = (rendering_head d n rotation ylabel
           ++ rendering_body top n title xlabel ylabel
           ++ rendering_tail filename show, ret tt).
Proof.
  intros Hok.
  destruct dotplot_stages
    as [(e & H)|[H|[(d & H)|[(d & e & H)|H]]]];
    try (rewrite H in Hok; discriminate).
  exact H.
Qed.
End DotplotOutcome.

Lemma label_calls_draw_only (text : option String.string) (size : Q) (n : Z) :
  Forall draws_only (label_calls text size n PltTitle) /\
  Forall draws_only (label_calls text size n PltXlabel) /\
  Forall draws_only (label_calls text size n PltYlabel).
Proof.
  unfold label_calls. destruct text as [t|]; [|repeat constructor].
  destruct (truthy (Some t)); repeat constructor.
Qed.

Lemma rendering_head_draws_only (d : dict) (n : Z) (rotation : option Z)
      (ylabel : option String.string) :
  Forall draws_only (rendering_head d n rotation ylabel).
Proof.
  unfold rendering_head. destruct (truthy ylabel); repeat constructor.
Qed.

Lemma rendering_body_draws_only (top n : Z)
      (title xlabel ylabel : option String.string) :
  Forall draws_only (rendering_body top n title xlabel ylabel).
Proof.
  unfold rendering_body.
  repeat (apply Forall_app; split);
    try apply label_calls_draw_only; repeat constructor.
Qed.

Lemma draws_only_not_saved (l : list plt_call) :
  Forall draws_only l ->
  (forall f, ~ In (PltSavefig f) l) /\ ~ In PltShow l.
Proof.
  intros Hl. rewrite Forall_forall in Hl. split.
  - intros f Hin. apply (Hl _ Hin).
  - intros Hin. apply (Hl _ Hin).
Qed.

(** X18 -- the file is written exactly on success.  A run of [dotplot]
    issues [savefig] if and only if it completes without raising; the
    call then names the given file, comes after every drawing call and is
    followed only by [show], when asked for. *)
Theorem dotplot_saves_iff_succeeds (data : list Q) (num_stacks : Z)
        (keys : option (list Q)) (rotation : option Z)
        (title xlabel ylabel : option String.string)
        (filename : String.string) (show : bool) :
  let plot := dotplot data num_stacks keys rotation title xlabel ylabel
                      filename show in
  ((exists f, In (PltSavefig f) (trace_of plot)) <-> outcome_of plot = ret tt)
  /\
  (outcome_of plot = ret tt ->
   exists drawing,
     trace_of plot = drawing ++ rendering_tail filename show /\
     Forall draws_only drawing).
Proof.
  intros plot. unfold trace_of, outcome_of, plot.
  assert (Hsucc :
    snd (dotplot data num_stacks keys rotation title xlabel ylabel
                 filename show []) = ret tt ->
    exists drawing,
      fst (dotplot data num_stacks keys rotation title xlabel ylabel
                   filename show [])
      = drawing ++ rendering_tail filename show /\
      Forall draws_only drawing).
  { intros Hok.
    destruct (@dotplot_success_inv data num_stacks keys rotation title
                                   xlabel ylabel filename show Hok)
      as (d & top & _ & _ & Hrun).
    rewrite Hrun. cbn [fst].
    exists (rendering_head d num_stacks rotation ylabel
            ++ rendering_body top num_stacks title xlabel ylabel).
    split; [apply app_assoc|].
    apply Forall_app. split;
      [apply rendering_head_draws_only | apply rendering_body_draws_only]. }
  split; [|exact Hsucc]. split.
  - intros (f & Hin).
    destruct (dotplot_stages data num_stacks keys rotation title xlabel
                             ylabel filename show)
      as [(e & H)|[H|[(d & H)|[(d & e & H)|(d & top & _ & _ & H)]]]];
      rewrite H in Hin |- *; cbn [fst] in Hin; cbn [snd];
      try reflexivity; exfalso.
    + destruct Hin.
    + destruct Hin as [Hin|[]]. discriminate.
    + apply (proj1 (draws_only_not_saved
                      (rendering_head_draws_only d num_stacks rotation
                                                 ylabel)) f).
      unfold rendering_head in *. cbn [firstn] in Hin. simpl in Hin |- *.
      tauto.
    + now apply (proj1 (draws_only_not_saved
                          (rendering_head_draws_only d num_stacks rotation
                                                     ylabel)) f).
  - intros Hok. destruct (Hsucc Hok) as (drawing & Ht & _).
    exists filename. rewrite Ht. apply in_or_app. right. now left.
Qed.

Lemma dotplot_saves_iff_succeeds_witness :
  exists drawing,
    trace_of (dotplot [1; 2; 2] 2 None None None None None
                      "image.png"%string true)
    = drawing ++ rendering_tail "image.png"%string true /\
    Forall draws_only drawing.
Proof.
  apply (proj2 (dotplot_saves_iff_succeeds [1; 2; 2] 2 None None None None
                                           None "image.png"%string true)).
  reflexivity.
Defined.

Lemma max_int_from_spec (ys : list Z) (y : Z) :
  let top := fold_left (fun m z => if (m <? z)%Z then z else m) ys y in
  In top (y :: ys) /\ forall z, In z (y :: ys) -> (z <= top)%Z.
Proof.
  revert y. induction ys as [|a ys IH]; intros y; simpl.
  - split; [now left|]. intros z [<-|[]]. lia.
  - destruct (Z.ltb_spec y a) as [Hlt|Hge].
    + destruct (IH a) as [Hin Hle]. split; [now right|].
      intros z [<-|Hz]; [|now apply Hle].
      specialize (Hle a (or_introl eq_refl)). lia.
    + destruct (IH y) as [Hin Hle]. split.
      * destruct Hin as [Hin|Hin]; [now left | right; now right].
      * intros z [<-|[<-|Hz]].
        -- apply Hle. now left.
        -- specialize (Hle y (or_introl eq_refl)). lia.
        -- apply Hle. now right.
Qed.

Lemma py_max_int_spec (ys : list Z) (top : Z) :
  py_max_int ys = ret top ->
  In top ys /\ forall z, In z ys -> (z <= top)%Z.
Proof.
  destruct ys as [|y ys]; [discriminate|].
  intros [= <-]. apply max_int_from_spec.
Qed.

(** The tallest stack: the maximum of the heights is the size of a
    largest bin. *)
Lemma tallest_stack (d : dict) (top : Z) :
  py_max_int (map snd (get_points d)) = ret top ->
  (exists k v, In (k, v) d /\ len v = top) /\
  (forall k v, In (k, v) d -> (len v <= top)%Z).
Proof.
  intros Hmax. apply py_max_int_spec in Hmax. destruct Hmax as [Hin Hle].
  assert (Hheights : forall x y, In (x, y) (get_points d) -> (y <= top)%Z).
  { intros x y Hxy. apply Hle. apply in_map_iff. now exists (x, y). }
  assert (Hmem : forall x y, In (x, y) (get_points d) <->
                             exists v, In (x, v) d /\ (1 <= y <= len v)%Z).
  { intros x y. rewrite get_points_flat, in_flat_map. split.
    - intros ([k v] & Hkv & Hp). apply in_stack_points in Hp.
      destruct Hp as [-> Hy]. now exists v.
    - intros (v & Hkv & Hy). exists (x, v). split; [exact Hkv|].
      now apply in_stack_points. }
  apply in_map_iff in Hin. destruct Hin as ([x y] & Hy & Hxy).
  simpl in Hy. subst y. apply Hmem in Hxy. destruct Hxy as (v & Hkv & Htop).
  split.
  - exists x, v. split; [exact Hkv|].
    assert (len v <= top)%Z; [|lia].
    apply (Hheights x). apply Hmem. exists v. split; [exact Hkv|]. lia.
  - intros k w Hkw. destruct (Z_le_gt_dec (len w) 0) as [H0|H0]; [lia|].
    apply (Hheights k). apply Hmem. exists w. split; [exact Hkw|]. lia.
Qed.

(** X19 -- what a successful run draws.  When [dotplot] completes, the
    mapping [d] of the Binner was drawn: the first calls are the figure
    and the scatter plot of the projected points, one per observation,
    with marker size [4000 / number of bins]; the x ticks are the keys
    of the mapping with font size [200 / num_stacks]; and the upper
    limit of the y axis is the value of [1.1] times the size of the
    largest bin. *)
Theorem dotplot_draws_the_mapping (data : list Q) (num_stacks : Z)
        (keys : option (list Q)) (rotation : option Z)
        (title xlabel ylabel : option String.string)
        (filename : String.string) (show : bool) :
  let plot := dotplot data num_stacks keys rotation title xlabel ylabel
                      filename show in
  outcome_of plot = ret tt ->
  exists d top rest,
    get_stack_dict data num_stacks keys = ret d /\
    trace_of plot
    = PltFigure (15, 7)%Z
      :: PltScatter (map fst (get_points d)) (map snd (get_points d))
                    (4000 / inject_Z (len (dict_keys d)))
      :: rest /\
    length (get_points d) = length data /\
    In (PltXticks (dict_keys d) (200 / inject_Z num_stacks) rotation) rest /\
    In (PltYlim 0 (float_1_1 * inject_Z top)) rest /\
    (exists k v, In (k, v) d /\ len v = top) /\
    (forall k v, In (k, v) d -> (len v <= top)%Z).
Proof.
  intros plot Hok. unfold outcome_of, trace_of, plot in *.
  destruct (@dotplot_success_inv data num_stacks keys rotation title
                                 xlabel ylabel filename show Hok)
    as (d & top & Hd & Hmax & Hrun).
  rewrite Hrun. cbn [fst]. unfold rendering_head, rendering_body.
  cbn [app].
  eexists d, top, _. split; [exact Hd|]. split; [reflexivity|].
  split.
  { rewrite get_points_length, bin_total_contents.
    unfold get_stack_dict in Hd.
    destruct (match keys with
              | None => get_stack_keys data num_stacks
              | Some ks => ret ks
              end) as [e|ks]; [discriminate|].
    simpl in Hd. apply binning_from_init in Hd.
    destruct Hd as (_ & Hperm & _). now apply Permutation_length. }
  split; [right; now left|].
  split; [right; right; now left|].
  now apply tallest_stack.
Qed.

Lemma dotplot_draws_the_mapping_witness :
  exists d top rest,
    get_stack_dict [1; 2; 2] 2 None = ret d /\
    trace_of (dotplot [1; 2; 2] 2 None None None None None
                      "image.png"%string false)
    = PltFigure (15, 7)%Z
      :: PltScatter (map fst (get_points d)) (map snd (get_points d))
                    (4000 / inject_Z (len (dict_keys d)))
      :: rest /\
    length (get_points d) = length [1; 2; 2] /\
    In (PltXticks (dict_keys d) (200 / inject_Z 2) None) rest /\
    In (PltYlim 0 (float_1_1 * inject_Z top)) rest /\
    (exists k v, In (k, v) d /\ len v = top) /\
    (forall k v, In (k, v) d -> (len v <= top)%Z).
Proof.
  apply (dotplot_draws_the_mapping [1; 2; 2] 2 None None None None None
                                   "image.png"%string false).
  reflexivity.
Defined.

(** X20 -- sorted keys: the rightmost key not above the observation.
    When the keys are in non-decreasing order and the observation is at
    least the first key and below the last, the loop body appends it
    under a key that is not above it while every later key is above it:
    the scan agrees with a search for the rightmost boundary at or below
    the observation. *)
Theorem binner_sorted_keys_rightmost (keys : list Q) (d : dict) (obs : Q) :
  (forall i j, (0 <= i <= j)%Z -> (j < len keys)%Z ->
               key keys i <= key keys j) ->
  key keys 0 <= obs -> obs < last keys 0 ->
  exists i, (1 <= i < len keys)%Z /\
            place keys d obs = dict_append d (key keys (i - 1)) obs /\
            (forall j, (0 <= j < i)%Z -> key keys j <= obs) /\
            (forall j, (i <= j < len keys)%Z -> obs < key keys j).
Proof.
  intros Hsorted Hlo Hhi.
  destruct (interior_has_first_enclosing keys Hlo Hhi)
    as (i & Hi & [He1 He2] & Hmin).
  assert (Hne : keys <> []).
  { intros ->. unfold len in Hi. simpl in Hi. lia. }
  exists i. split; [exact Hi|]. split; [|split].
  - rewrite place_target by exact Hne.
    now rewrite (target_first_enclosing Hi (conj He1 He2) Hmin).
  - intros j Hj. apply Qle_trans with (key keys (i - 1)); [|exact He1].
    apply Hsorted; lia.
  - intros j Hj. apply Qlt_le_trans with (key keys i); [exact He2|].
    apply Hsorted; lia.
Qed.

Lemma binner_sorted_keys_rightmost_witness :
  exists i, (1 <= i < len ([1; 4; 10]%Q : list Q))%Z /\
            place [1; 4; 10] (dict_init [1; 4; 10]) 5
            = dict_append (dict_init [1; 4; 10]) (key [1; 4; 10] (i - 1)) 5 /\
            (forall j, (0 <= j < i)%Z -> key [1; 4; 10] j <= 5) /\
            (forall j, (i <= j < len ([1; 4; 10]%Q : list Q))%Z ->
                       5 < key [1; 4; 10] j).
Proof.
  apply binner_sorted_keys_rightmost.
  - intros i j Hij Hj. unfold len in Hj. simpl in Hj.
    assert (Hc : (i = 0 \/ i = 1 \/ i = 2)%Z) by lia.
    assert (Hc' : (j = 0 \/ j = 1 \/ j = 2)%Z) by lia.
    destruct Hc as [ -> | [ -> | -> ] ]; destruct Hc' as [ -> | [ -> | -> ] ];
      try lia; unfold key; simpl; unfold Qle; simpl; lia.
  - unfold key. simpl. unfold Qle. simpl. lia.
  - simpl. reflexivity.
Defined.

(** * The pipeline on [int] and [float] data *)

(** ** Rounding an integer to a float *)

Lemma digits2_pos_lower (p : positive) :
  (2 ^ (Z.pos (digits2_pos p) - 1) <= Z.pos p)%Z.
Proof.
  induction p as [p IH|p IH|]; simpl digits2_pos.
  - rewrite Pos2Z.inj_succ.
    replace (Z.succ (Z.pos (digits2_pos p)) - 1)%Z
      with (Z.succ (Z.pos (digits2_pos p) - 1)) by lia.
    rewrite Z.pow_succ_r by lia. lia.
  - rewrite Pos2Z.inj_succ.
    replace (Z.succ (Z.pos (digits2_pos p)) - 1)%Z
      with (Z.succ (Z.pos (digits2_pos p) - 1)) by lia.
    rewrite Z.pow_succ_r by lia. lia.
  - simpl. lia.
Qed.

Lemma shiftr_pos (m n : Z) :
  (0 < m)%Z -> (0 <= n)%Z -> (n < Zdigits2 m)%Z -> (0 < Z.shiftr m n)%Z.
Proof.
  intros Hm Hn Hd. destruct m as [|p|p]; try lia. simpl in Hd.
  rewrite Z.shiftr_div_pow2 by exact Hn.
  apply Z.div_str_pos. split; [apply Z.pow_pos_nonneg; lia|].
  apply Z.le_trans with (2 ^ (Z.pos (digits2_pos p) - 1))%Z;
    [|apply digits2_pos_lower].
  apply Z.pow_le_mono_r; lia.
Qed.

Lemma shr_1_m (mrs : shr_record) :
  (0 <= shr_m mrs)%Z -> shr_m (shr_1 mrs) = Z.div2 (shr_m mrs).
Proof.
  destruct mrs as [m r s]. simpl. intros Hm.
  destruct m as [|[p|p|]|p]; try reflexivity. lia.
Qed.

Lemma iter_shr_1_m (p : positive) (mrs : shr_record) :
  (0 <= shr_m mrs)%Z ->
  shr_m (iter_pos shr_1 p mrs) = Z.shiftr (shr_m mrs) (Z.pos p).
Proof.
  revert mrs. induction p as [p IH|p IH|]; intros mrs Hm; simpl iter_pos.
  - assert (H1 : (0 <= shr_m (shr_1 mrs))%Z)
      by (rewrite shr_1_m by exact Hm; now apply Z.div2_nonneg).
    assert (H2 : (0 <= shr_m (iter_pos shr_1 p (shr_1 mrs)))%Z)
      by (rewrite IH by exact H1; now apply Z.shiftr_nonneg).
    rewrite IH by exact H2. rewrite IH by exact H1.
    rewrite shr_1_m by exact Hm. rewrite Z.div2_spec.
    rewrite !Z.shiftr_shiftr by lia. f_equal. lia.
  - assert (H2 : (0 <= shr_m (iter_pos shr_1 p mrs))%Z)
      by (rewrite IH by exact Hm; now apply Z.shiftr_nonneg).
    rewrite IH by exact H2. rewrite IH by exact Hm.
    rewrite !Z.shiftr_shiftr by lia. f_equal. lia.
  - rewrite shr_1_m by exact Hm. now rewrite Z.div2_spec.
Qed.

Lemma shr_record_of_loc_m (m : Z) (l : location) :
  shr_m (shr_record_of_loc m l) = m.
Proof. destruct l as [|[| |]]; reflexivity. Qed.

Lemma shr_fexp_pos (m e : Z) (l : location) :
  (0 < m)%Z -> (-1074 <= e)%Z ->
  (0 < shr_m (fst (shr_fexp Binary64.prec Binary64.emax m e l)))%Z /\
  (-1074 <= snd (shr_fexp Binary64.prec Binary64.emax m e l))%Z.
Proof.
  intros Hm He. unfold shr_fexp, shr.
  assert (Hd : (0 < Zdigits2 m)%Z) by (destruct m; simpl; lia).
  remember (fexp Binary64.prec Binary64.emax (Zdigits2 m + e) - e)%Z as n eqn:En.
  assert (Hn : (n < Zdigits2 m)%Z).
  { subst n. unfold fexp, emin, Binary64.prec, Binary64.emax. lia. }
  destruct n as [|p|p]; simpl fst; simpl snd;
    rewrite ?shr_record_of_loc_m; try (split; lia).
  split; [|lia].
  rewrite iter_shr_1_m by (rewrite shr_record_of_loc_m; lia).
  rewrite shr_record_of_loc_m. apply shiftr_pos; lia.
Qed.

Lemma round_nearest_even_pos (m : Z) (l : location) :
  (0 < m)%Z -> (0 < round_nearest_even m l)%Z.
Proof.
  intros Hm. destruct l as [|[| |]]; simpl; try lia.
  destruct (Z.even m); lia.
Qed.

Lemma binary_round_aux_nonzero (sx : bool) (m e : Z) (l : location) :
  (0 < m)%Z -> (-1074 <= e)%Z ->
  Binary64.is_zero (binary_round_aux Binary64.prec Binary64.emax sx m e l)
  = false.
Proof.
  intros Hm He. unfold binary_round_aux.
  destruct (shr_fexp_pos l Hm He) as [H1 H1'].
  destruct (shr_fexp Binary64.prec Binary64.emax m e l) as [mrs' e'].
  simpl in H1, H1'.
  pose proof (round_nearest_even_pos (loc_of_shr_record mrs') H1) as H2.
  destruct (shr_fexp_pos loc_Exact H2 H1') as [H3 _].
  destruct (shr_fexp Binary64.prec Binary64.emax
              (round_nearest_even (shr_m mrs') (loc_of_shr_record mrs'))
              e' loc_Exact) as [mrs'' e''].
  simpl in H3. destruct (shr_m mrs'') as [|q|q]; try lia.
  now destruct (e'' <=? Binary64.emax - Binary64.prec)%Z.
Qed.

Lemma binary_round_nonzero (sx : bool) (m : positive) :
  Binary64.is_zero (binary_round Binary64.prec Binary64.emax sx m 0) = false.
Proof.
  unfold binary_round, shl_align.
  remember (fexp Binary64.prec Binary64.emax (Z.pos (digits2_pos m) + 0)) as f.
  assert (Hf : (-1074 <= f)%Z)
    by (subst f; unfold fexp, emin, Binary64.prec, Binary64.emax; lia).
  destruct (f - 0)%Z as [|d|d] eqn:E;
    apply binary_round_aux_nonzero; lia.
Qed.

Lemma float_of_int_nonzero (z : Z) (f : spec_float) :
  Binary64.float_of_int z = ret f -> Binary64.is_zero f = true -> z = 0%Z.
Proof.
  unfold Binary64.float_of_int, binary_normalize.
  destruct z as [|p|p]; [reflexivity| |]; intros Hf Hz; exfalso.
  - pose proof (binary_round_nonzero false p) as Hnz.
    destruct (binary_round Binary64.prec Binary64.emax false p 0);
      try discriminate; injection Hf as <-; simpl in *; congruence.
  - pose proof (binary_round_nonzero true p) as Hnz.
    destruct (binary_round Binary64.prec Binary64.emax true p 0);
      try discriminate; injection Hf as <-; simpl in *; congruence.
Qed.

(** ** The Binner on [int] and [float] data never misses a key *)

Lemma b64_num_compare_refl (x : Binary64.num) :
  Binary64.is_nan x = false -> Binary64.num_compare x x = Some Eq.
Proof.
  destruct x as [z|[s|s| |s m e]]; simpl; intros Hx;
    try discriminate; unfold Binary64.num_compare; simpl;
    try (now rewrite Z.compare_refl); now destruct s.
Qed.

Lemma b64_same_key_refl (k : Binary64.num) : Binary64.same_key k k = true.
Proof.
  unfold Binary64.same_key, Binary64.num_eq.
  destruct (Binary64.is_nan k) eqn:E.
  - apply orb_true_r.
  - now rewrite (b64_num_compare_refl _ E).
Qed.

Lemma b64_key_in_In (k : Binary64.num) (ks : list Binary64.num) :
  In k ks -> Binary64.key_in k ks = true.
Proof.
  intros Hk. apply existsb_exists. exists k. split; [exact Hk|].
  apply b64_same_key_refl.
Qed.

Lemma b64_dict_get_present (d : Binary64.dict) (k : Binary64.num) :
  Binary64.key_in k (Binary64.dict_keys d) = true ->
  exists v, Binary64.dict_get d k = Some v.
Proof.
  induction d as [|[k' v'] d IH]; simpl; [discriminate|].
  destruct (Binary64.same_key k' k); simpl; eauto.
Qed.

Lemma b64_dict_set_keys (d : Binary64.dict) (k : Binary64.num)
      (v : list Binary64.num) :
  Binary64.dict_keys (Binary64.dict_set d k v)
  = if Binary64.key_in k (Binary64.dict_keys d)
    then Binary64.dict_keys d
    else Binary64.dict_keys d ++ [k].
Proof.
  unfold Binary64.dict_keys, Binary64.key_in.
  induction d as [|[k' v'] d IH]; simpl; [reflexivity|].
  destruct (Binary64.same_key k' k); simpl; [reflexivity|].
  rewrite IH. now destruct (existsb _ (map fst d)).
Qed.

Lemma b64_key_in_set (d : Binary64.dict) (k k2 : Binary64.num)
      (v : list Binary64.num) :
  Binary64.key_in k2 (Binary64.dict_keys d) = true \/ k2 = k ->
  Binary64.key_in k2 (Binary64.dict_keys (Binary64.dict_set d k v)) = true.
Proof.
  rewrite b64_dict_set_keys.
  destruct (Binary64.key_in k (Binary64.dict_keys d)) eqn:E.
  - intros [H| ->]; assumption.
  - intros H. unfold Binary64.key_in. rewrite existsb_app. simpl.
    destruct H as [H| ->].
    + unfold Binary64.key_in in H. now rewrite H.
    + rewrite b64_same_key_refl. apply orb_true_iff. right. reflexivity.
Qed.

Lemma b64_dict_init_acc (keys : list Binary64.num) (d : Binary64.dict) :
  forall k,
    Binary64.key_in k (Binary64.dict_keys d) = true \/ In k keys ->
    Binary64.key_in k
      (Binary64.dict_keys
         (fold_left (fun d key => Binary64.dict_set d key []) keys d)) = true.
Proof.
  revert d. induction keys as [|k0 keys IH]; intros d k Hk; simpl.
  - destruct Hk as [H|[]]. exact H.
  - apply IH. destruct Hk as [H|[->|H]].
    + left. apply b64_key_in_set. now left.
    + left. apply b64_key_in_set. now right.
    + now right.
Qed.

Lemma b64_dict_init_covered (keys : list Binary64.num) :
  Binary64.covered keys (Binary64.dict_init keys).
Proof. intros k Hk. apply b64_dict_init_acc. now right. Qed.

Lemma b64_dict_set_contents (d : Binary64.dict) (k x : Binary64.num)
      (v : list Binary64.num) :
  Binary64.dict_get d k = Some v ->
  Permutation (Binary64.bin_contents (Binary64.dict_set d k (v ++ [x])))
              (x :: Binary64.bin_contents d).
Proof.
  unfold Binary64.bin_contents.
  induction d as [|[k' v'] d IH]; simpl; [discriminate|].
  destruct (Binary64.same_key k' k); intros H; simpl.
  - injection H as ->. rewrite <- app_assoc. simpl.
    symmetry. apply Permutation_middle.
  - apply Permutation_trans
      with (v' ++ x :: concat (map snd d)).
    + apply Permutation_app_head. now apply IH.
    + symmetry. apply Permutation_middle.
Qed.

Lemma b64_dict_append_ok (d : Binary64.dict) (k x : Binary64.num) :
  Binary64.key_in k (Binary64.dict_keys d) = true ->
  exists d', Binary64.dict_append d k x = ret d' /\
             Binary64.dict_keys d' = Binary64.dict_keys d /\
             Permutation (Binary64.bin_contents d')
                         (x :: Binary64.bin_contents d).
Proof.
  intros Hk. unfold Binary64.dict_append.
  destruct (b64_dict_get_present d k Hk) as (v & Hv). rewrite Hv.
  eexists. split; [reflexivity|]. split.
  - now rewrite b64_dict_set_keys, Hk.
  - now apply b64_dict_set_contents.
Qed.

Lemma b64_scan_ok (keys : list Binary64.num) (obs : Binary64.num)
      (indices : list Z) (d : Binary64.dict) :
  Binary64.covered keys d ->
  (forall i, In i indices -> (1 <= i < len keys)%Z) ->
  exists b d', Binary64.scan keys obs indices d = ret (b, d') /\
               Binary64.dict_keys d' = Binary64.dict_keys d /\
               if b then d' = d
               else Permutation (Binary64.bin_contents d')
                                (obs :: Binary64.bin_contents d).
Proof.
  intros Hc. induction indices as [|i rest IH]; intros Hi; simpl.
  - exists true, d. auto.
  - assert (Hi0 : (1 <= i < len keys)%Z) by (apply Hi; now left).
    unfold Binary64.between.
    rewrite (@py_index_nonneg _ keys (i - 1) (Binary64.PyInt 0)) by lia.
    rewrite (@py_index_nonneg _ keys i (Binary64.PyInt 0)) by lia.
    cbn [bind ret].
    set (lo := nth (Z.to_nat (i - 1)) keys (Binary64.PyInt 0)).
    assert (Hlo : In lo keys) by (apply nth_In; unfold len in Hi0; lia).
    destruct (Binary64.num_le lo obs); cbn [bind ret].
    + destruct (Binary64.num_lt obs _); cbn [bind ret].
      * destruct (@b64_dict_append_ok d lo obs (Hc lo Hlo))
          as (d' & -> & Hk & Hp).
        cbn [bind ret]. exists false, d'. auto.
      * apply IH. intros j Hj. apply Hi. now right.
    + apply IH. intros j Hj. apply Hi. now right.
Qed.

Lemma b64_place_ok (keys : list Binary64.num) (d : Binary64.dict)
      (obs : Binary64.num) :
  keys <> [] -> Binary64.covered keys d ->
  exists d', Binary64.place keys d obs = ret d' /\
             Binary64.dict_keys d' = Binary64.dict_keys d /\
             Permutation (Binary64.bin_contents d')
                         (obs :: Binary64.bin_contents d).
Proof.
  intros Hne Hc. unfold Binary64.place.
  destruct (@b64_scan_ok keys obs (range2 1 (len keys)) d Hc)
    as (b & d1 & -> & Hk1 & Hb).
  { intros i Hi. now apply range2_In in Hi. }
  cbn [bind ret]. destruct b; [subst d1|eauto].
  rewrite (@py_index_last _ keys (Binary64.PyInt 0) Hne). cbn [bind ret].
  apply b64_dict_append_ok. apply Hc. now apply last_In.
Qed.

Lemma b64_binning_returns (keys data : list Binary64.num) (d : Binary64.dict) :
  keys <> [] -> Binary64.covered keys d ->
  exists d', foldM (Binary64.place keys) data d = ret d' /\
             Binary64.dict_keys d' = Binary64.dict_keys d /\
             Permutation (Binary64.bin_contents d')
                         (data ++ Binary64.bin_contents d).
Proof.
  intros Hne. revert d. induction data as [|x data IH]; intros d Hc; simpl.
  - exists d. auto.
  - destruct (@b64_place_ok keys d x Hne Hc) as (d1 & -> & Hk & Hp).
    cbn [bind ret].
    destruct (IH d1) as (d' & Hd' & Hk' & Hp').
    { intros k Hin. unfold Binary64.covered in Hc. rewrite Hk. now apply Hc. }
    exists d'. split; [exact Hd'|]. split; [congruence|].
    apply Permutation_trans with (data ++ x :: Binary64.bin_contents d).
    + apply Permutation_trans with (data ++ Binary64.bin_contents d1);
        [exact Hp' | now apply Permutation_app_head].
    + symmetry. apply Permutation_middle.
Qed.

Lemma b64_dict_set_empty_values (d : Binary64.dict) (k : Binary64.num) :
  Forall (fun kv => snd kv = []) d ->
  Forall (fun kv => snd kv = []) (Binary64.dict_set d k []).
Proof.
  induction 1 as [|[k' v'] d Hkv Hd IH]; simpl.
  - repeat constructor.
  - destruct (Binary64.same_key k' k); constructor; auto.
Qed.

Lemma b64_dict_init_empty (keys : list Binary64.num) :
  Binary64.bin_contents (Binary64.dict_init keys) = [].
Proof.
  assert (H : forall d, Forall (fun kv => snd kv = []) d ->
                        Forall (fun kv : Binary64.num * list Binary64.num =>
                                  snd kv = [])
                               (fold_left
                                  (fun d key => Binary64.dict_set d key [])
                                  keys d)).
  { induction keys as [|k keys IH]; intros d Hd; simpl; [exact Hd|].
    apply IH. now apply b64_dict_set_empty_values. }
  specialize (H [] (Forall_nil _)). unfold Binary64.dict_init.
  induction H as [|[k v] d Hkv Hd IH]; [reflexivity|].
  unfold Binary64.bin_contents in *. simpl in *. now subst v.
Qed.

Lemma b64_binning_without_keys (data : list Binary64.num) :
  data <> [] ->
  foldM (Binary64.place []) data (Binary64.dict_init []) = raise IndexError.
Proof. destruct data; [congruence | reflexivity]. Qed.

(** ** What the key generator can raise *)

Lemma mapM_raises (A B : Type) (f : A -> result B) (l : list A) (e : exn) :
  mapM f l = raise e -> exists a, In a l /\ f a = raise e.
Proof.
  induction l as [|a l IH]; simpl; [discriminate|].
  destruct (f a) as [e'|b] eqn:E; cbn [bind ret].
  - intros H. injection H as <-. exists a. auto.
  - destruct (mapM f l) as [e'|bs]; cbn [bind ret]; [|discriminate].
    intros H. injection H as <-.
    destruct (IH eq_refl) as (a' & Ha' & Hf). exists a'. auto.
Qed.

Lemma mapM_length (A B : Type) (f : A -> result B) (l : list A) (bs : list B) :
  mapM f l = ret bs -> length bs = length l.
Proof.
  revert bs. induction l as [|a l IH]; intros bs; simpl.
  - intros H. now injection H as <-.
  - destruct (f a) as [e|b]; cbn [bind ret]; [discriminate|].
    destruct (mapM f l) as [e|bs']; cbn [bind ret]; [discriminate|].
    intros H. injection H as <-. simpl. f_equal. now apply IH.
Qed.

Lemma b64_as_float_raises (x : Binary64.num) (e : exn) :
  Binary64.as_float x = raise e -> e = OverflowError.
Proof.
  destruct x as [z|f]; simpl; [|discriminate].
  unfold Binary64.float_of_int.
  destruct (binary_normalize _ _ z 0 false); try discriminate.
  intros H. now injection H as <-.
Qed.

Lemma b64_arith_raises (int_op : Z -> Z -> Z)
      (float_op : spec_float -> spec_float -> spec_float)
      (a b : Binary64.num) (e : exn) :
  Binary64.arith int_op float_op a b = raise e -> e = OverflowError.
Proof.
  unfold Binary64.arith.
  assert (H : (x <- Binary64.as_float a ;; y <- Binary64.as_float b ;;
               ret (Binary64.PyFloat (float_op x y))) = raise e ->
              e = OverflowError).
  { destruct (Binary64.as_float a) as [e1|x] eqn:Ea; cbn [bind ret].
    - intros H. injection H as <-. now apply b64_as_float_raises in Ea.
    - destruct (Binary64.as_float b) as [e2|y] eqn:Eb; cbn [bind ret];
        [|discriminate].
      intros H. injection H as <-. now apply b64_as_float_raises in Eb. }
  destruct a as [x|x], b as [y|y]; try exact H. discriminate.
Qed.

Lemma b64_truediv_raises (a : Binary64.num) (n : Z) (e : exn) :
  Binary64.py_truediv a (Binary64.PyInt n) = raise e ->
  e = OverflowError \/ (e = ZeroDivisionError /\ n = 0%Z).
Proof.
  unfold Binary64.py_truediv. destruct a as [x|x].
  - destruct (Z.eqb_spec n 0) as [->|Hn].
    + intros H. injection H as <-. now right.
    + destruct (SFdiv _ _ _ _); try discriminate.
      intros H. injection H as <-. now left.
  - cbn [Binary64.as_float bind ret].
    destruct (Binary64.float_of_int n) as [e1|y] eqn:Ey; cbn [bind ret].
    + intros H. injection H as <-. left.
      now apply (@b64_as_float_raises (Binary64.PyInt n)).
    + destruct (Binary64.is_zero y) eqn:Ez; [|discriminate].
      intros H. injection H as <-. right. split; [reflexivity|].
      now apply (@float_of_int_nonzero n y Ey).
Qed.

Lemma b64_py_max_total (data : list Binary64.num) :
  data <> [] -> exists m, Binary64.py_max data = ret m.
Proof. destruct data; [congruence|]. simpl. eauto. Qed.

Lemma b64_py_min_total (data : list Binary64.num) :
  data <> [] -> exists m, Binary64.py_min data = ret m.
Proof. destruct data; [congruence|]. simpl. eauto. Qed.

Lemma b64_get_stack_keys_outcome (data : list Binary64.num) (n : Z) :
  data <> [] ->
  (forall ks, Binary64.get_stack_keys data n = ret ks ->
              length ks = Z.to_nat n) /\
  (forall e, Binary64.get_stack_keys data n = raise e ->
             (1 <= n)%Z /\
             (e = OverflowError \/ (e = ZeroDivisionError /\ n = 1%Z))).
Proof.
  intros Hdata.
  destruct (b64_py_max_total Hdata) as (hi & Hhi).
  destruct (b64_py_min_total Hdata) as (lo & Hlo).
  unfold Binary64.get_stack_keys. rewrite Hhi, Hlo. cbn [bind ret]. split.
  - intros ks H. apply mapM_length in H. rewrite H.
    unfold range. rewrite range2_length. f_equal. lia.
  - intros e H. apply mapM_raises in H. destruct H as (i & Hi & H).
    apply range2_In in Hi. split; [lia|].
    destruct (Binary64.py_sub hi lo) as [e1|w] eqn:E1; cbn [bind ret] in H.
    { injection H as <-. left. revert E1. apply b64_arith_raises. }
    destruct (Binary64.py_mul (Binary64.PyInt i) w) as [e2|p] eqn:E2;
      cbn [bind ret] in H.
    { injection H as <-. left. revert E2. apply b64_arith_raises. }
    destruct (Binary64.py_truediv p (Binary64.PyInt (n - 1))) as [e3|q] eqn:E3;
      cbn [bind ret] in H.
    { injection H as <-. apply b64_truediv_raises in E3.
      destruct E3 as [->|[-> Hn]]; [now left | right; split; [reflexivity|lia]]. }
    left. revert H. apply b64_arith_raises.
Qed.

(** X4 -- the causes of a failure, on [int] and [float] data.  When the
    Binner raises, it is a [ValueError] for an empty dataset without
    explicit keys, a [ZeroDivisionError] for [num_stacks = 1] without
    explicit keys, an [OverflowError] from the key arithmetic (an [int]
    beyond the float range), again without explicit keys and with
    [num_stacks >= 1], or an [IndexError] for a non-empty dataset with
    no boundary key at all.  In particular a dictionary lookup never
    fails ([KeyError]), and with explicit non-empty keys the Binner
    never raises. *)
Theorem binner_failure_causes (data : list Binary64.num) (num_stacks : Z)
        (keys : option (list Binary64.num)) (e : exn) :
  Binary64.get_stack_dict data num_stacks keys = raise e ->
  e <> KeyError /\
  ((e = ValueError /\ keys = None /\ data = []) \/
   (e = ZeroDivisionError /\ keys = None /\ data <> [] /\ num_stacks = 1%Z) \/
   (e = OverflowError /\ keys = None /\ data <> [] /\ (1 <= num_stacks)%Z) \/
   (e = IndexError /\ data <> [] /\
    Binary64.boundary_keys data num_stacks keys = ret [])).
Proof.
  intros Hrun.
  assert (Hbin : forall ks,
             Binary64.boundary_keys data num_stacks keys = ret ks ->
             e = IndexError /\ data <> [] /\ ks = []).
  { intros ks Hks. unfold Binary64.get_stack_dict in Hrun.
    unfold Binary64.boundary_keys in Hks. rewrite Hks in Hrun.
    cbn [bind ret] in Hrun. destruct ks as [|k ks].
    - destruct data as [|x data]; [discriminate|].
      rewrite b64_binning_without_keys in Hrun by discriminate.
      injection Hrun as <-. repeat split. discriminate.
    - destruct (@b64_binning_returns (k :: ks) data
                  (Binary64.dict_init (k :: ks))) as (d & Hd & _);
        [discriminate | apply b64_dict_init_covered |].
      rewrite Hd in Hrun. discriminate. }
  assert (Hcases :
    (e = ValueError /\ keys = None /\ data = []) \/
    (e = ZeroDivisionError /\ keys = None /\ data <> [] /\ num_stacks = 1%Z) \/
    (e = OverflowError /\ keys = None /\ data <> [] /\ (1 <= num_stacks)%Z) \/
    (e = IndexError /\ data <> [] /\
     Binary64.boundary_keys data num_stacks keys = ret [])).
  { destruct (Binary64.boundary_keys data num_stacks keys) as [e'|ks] eqn:Eks.
    - destruct keys as [ks|]; [discriminate|]. simpl in Eks.
      unfold Binary64.get_stack_dict in Hrun. rewrite Eks in Hrun.
      cbn [bind ret] in Hrun. injection Hrun as <-.
      destruct data as [|x data].
      + left. injection Eks as <-. auto.
      + right. assert (Hdata : x :: data <> []) by discriminate.
        destruct (proj2 (@b64_get_stack_keys_outcome (x :: data) num_stacks Hdata)
                    e' Eks) as [Hn [->|[-> Hn1]]].
        * right. left. auto.
        * left. auto.
    - destruct (Hbin ks eq_refl) as (-> & Hdata & ->).
      right. right. right. auto. }
  split; [|exact Hcases].
  destruct Hcases as [(-> & _)|[(-> & _)|[(-> & _)|(-> & _)]]]; discriminate.
Qed.

Lemma binner_failure_causes_witness :
  OverflowError <> KeyError /\
  ((OverflowError = ValueError /\ @None (list Binary64.num) = None /\
    [Binary64.PyInt 0; Binary64.PyInt (10 ^ 400)] = []) \/
   (OverflowError = ZeroDivisionError /\ @None (list Binary64.num) = None /\
    [Binary64.PyInt 0; Binary64.PyInt (10 ^ 400)] <> [] /\ 2%Z = 1%Z) \/
   (OverflowError = OverflowError /\ @None (list Binary64.num) = None /\
    [Binary64.PyInt 0; Binary64.PyInt (10 ^ 400)] <> [] /\ (1 <= 2)%Z) \/
   (OverflowError = IndexError /\
    [Binary64.PyInt 0; Binary64.PyInt (10 ^ 400)] <> [] /\
    Binary64.boundary_keys [Binary64.PyInt 0; Binary64.PyInt (10 ^ 400)] 2 None
    = ret [])).
Proof.
  apply (@binner_failure_causes
           [Binary64.PyInt 0; Binary64.PyInt (10 ^ 400)] 2 None OverflowError).
  vm_compute. reflexivity.
Defined.

(** ** Small integers convert exactly *)

Lemma digits2_pos_shift (m k : positive) :
  Z.pos (digits2_pos (Pos.iter xO m k)) = (Z.pos (digits2_pos m) + Z.pos k)%Z.
Proof.
  induction k as [|k IH] using Pos.peano_ind.
  - simpl. lia.
  - rewrite Pos.iter_succ. simpl digits2_pos. lia.
Qed.

Lemma digits2_pos_small (m : positive) :
  (Z.pos m < 2 ^ 53)%Z -> (Z.pos (digits2_pos m) <= 53)%Z.
Proof.
  intros Hm. pose proof (digits2_pos_lower m) as Hl.
  destruct (Z_le_gt_dec (Z.pos (digits2_pos m)) 53) as [H|H]; [exact H|].
  exfalso.
  assert (2 ^ 53 <= 2 ^ (Z.pos (digits2_pos m) - 1))%Z
    by (apply Z.pow_le_mono_r; lia).
  lia.
Qed.

Lemma shr_fexp_exact (m : positive) (e : Z) :
  (Z.pos (digits2_pos m) <= 53)%Z -> (-1074 <= e)%Z ->
  shr_fexp Binary64.prec Binary64.emax (Z.pos m) e loc_Exact
  = ({| shr_m := Z.pos m; shr_r := false; shr_s := false |}, e).
Proof.
  intros Hd He. unfold shr_fexp, shr. simpl Zdigits2.
  remember (fexp Binary64.prec Binary64.emax (Z.pos (digits2_pos m) + e) - e)%Z
    as n eqn:En.
  assert (Hn : (n <= 0)%Z).
  { subst n. unfold fexp, emin, Binary64.prec, Binary64.emax. lia. }
  destruct n as [|p|p]; try reflexivity. lia.
Qed.

Lemma binary_round_aux_exact (s : bool) (m : positive) (e : Z) :
  (Z.pos (digits2_pos m) <= 53)%Z -> (-1074 <= e <= 971)%Z ->
  binary_round_aux Binary64.prec Binary64.emax s (Z.pos m) e loc_Exact
  = S754_finite s m e.
Proof.
  intros Hd He. unfold binary_round_aux.
  rewrite shr_fexp_exact by lia. cbn [shr_m loc_of_shr_record round_nearest_even].
  rewrite shr_fexp_exact by lia. cbn [shr_m].
  replace (e <=? Binary64.emax - Binary64.prec)%Z with true; [reflexivity|].
  symmetry. apply Z.leb_le. unfold Binary64.emax, Binary64.prec. lia.
Qed.

Lemma pos_iter_xO (m k : positive) :
  Z.pos (Pos.iter xO m k) = (Z.pos m * 2 ^ Z.pos k)%Z.
Proof.
  induction k as [|k IH] using Pos.peano_ind.
  - simpl. lia.
  - rewrite Pos.iter_succ, Pos2Z.inj_xO, IH, Pos2Z.inj_succ.
    rewrite Z.pow_succ_r by lia. lia.
Qed.

(** An integer below [2**53] in magnitude becomes the float
    [m' * 2^e'] of the same value. *)
Lemma binary_round_small (s : bool) (m : positive) :
  (Z.pos m < 2 ^ 53)%Z ->
  exists m' e', binary_round Binary64.prec Binary64.emax s m 0
                = S754_finite s m' e' /\
                (e' <= 0)%Z /\ Z.pos m' = (Z.pos m * 2 ^ (- e'))%Z.
Proof.
  intros Hm. pose proof (digits2_pos_small Hm) as Hd.
  unfold binary_round, shl_align.
  remember (fexp Binary64.prec Binary64.emax (Z.pos (digits2_pos m) + 0)) as f.
  assert (Hf : f = (Z.pos (digits2_pos m) - 53)%Z).
  { subst f. unfold fexp, emin, Binary64.prec, Binary64.emax. lia. }
  destruct (f - 0)%Z as [|d|d] eqn:E.
  - exists m, 0%Z. split; [apply binary_round_aux_exact; lia|].
    split; [lia|]. simpl. lia.
  - exists m, 0%Z. split; [apply binary_round_aux_exact; lia|].
    split; [lia|]. simpl. lia.
  - exists (Pos.iter xO m d), f. split.
    + apply binary_round_aux_exact; [rewrite digits2_pos_shift|]; lia.
    + split; [lia|]. rewrite pos_iter_xO. f_equal. f_equal. lia.
Qed.

Lemma float_of_int_small (z : Z) :
  (0 <= z < 2 ^ 53)%Z ->
  exists f, Binary64.float_of_int z = ret f /\
            (f = S754_zero false \/ exists m e, f = S754_finite false m e).
Proof.
  intros Hz. unfold Binary64.float_of_int, binary_normalize.
  destruct z as [|p|p]; try lia.
  - eexists. split; [reflexivity|]. now left.
  - destruct (@binary_round_small false p) as (m & e & -> & _); [lia|].
    eexists. split; [reflexivity|]. right. eauto.
Qed.

Lemma b64_dyadic_eq (m1 e1 m2 : Z) :
  (e1 <= 0)%Z -> m1 = (m2 * 2 ^ (- e1))%Z ->
  (Z.shiftl m1 (e1 - Z.min e1 0) ?= Z.shiftl m2 (0 - Z.min e1 0))%Z = Eq.
Proof.
  intros He ->. rewrite Z.min_l by exact He.
  rewrite Z.sub_diag, Z.shiftl_0_r, Z.shiftl_mul_pow2 by lia.
  replace (0 - e1)%Z with (- e1)%Z by lia. apply Z.compare_refl.
Qed.

(** Every [int] below [2**53] in magnitude, and every finite float, is
    held exactly by a float. *)
Lemma b64_small_int_exact (z : Z) :
  (- 2 ^ 53 < z < 2 ^ 53)%Z -> Binary64.float_exact (Binary64.PyInt z) = true.
Proof.
  intros Hz. unfold Binary64.float_exact, Binary64.as_float,
    Binary64.float_of_int, binary_normalize.
  destruct z as [|p|p].
  - reflexivity.
  - destruct (@binary_round_small false p) as (m & e & -> & He & Hm); [lia|].
    unfold Binary64.num_eq, Binary64.num_compare.
    cbn - [Z.shiftl Z.min Z.sub Z.compare].
    now rewrite (@b64_dyadic_eq (Z.pos m) e (Z.pos p) He Hm).
  - destruct (@binary_round_small true p) as (m & e & -> & He & Hm); [lia|].
    unfold Binary64.num_eq, Binary64.num_compare.
    cbn - [Z.shiftl Z.min Z.sub Z.compare].
    rewrite (@b64_dyadic_eq (Z.neg m) e (Z.neg p) He); [reflexivity|].
    rewrite <- !Pos2Z.opp_pos, Hm. lia.
Qed.

Lemma b64_finite_float_exact (f : spec_float) :
  Binary64.is_finite f = true ->
  Binary64.float_exact (Binary64.PyFloat f) = true.
Proof.
  intros Hf. unfold Binary64.float_exact. simpl. rewrite Hf. simpl.
  unfold Binary64.num_eq. rewrite b64_num_compare_refl; [reflexivity|].
  now destruct f.
Qed.

(** ** Equality of numbers by value *)

Lemma b64_compare_scaled (m1 e1 m2 e2 E : Z) :
  (E <= e1)%Z -> (E <= e2)%Z ->
  (Z.shiftl m1 (e1 - Z.min e1 e2) ?= Z.shiftl m2 (e2 - Z.min e1 e2))%Z
  = (m1 * 2 ^ (e1 - E) ?= m2 * 2 ^ (e2 - E))%Z.
Proof.
  intros H1 H2. rewrite !Z.shiftl_mul_pow2 by lia.
  set (mu := Z.min e1 e2).
  replace (e1 - E)%Z with ((e1 - mu) + (mu - E))%Z by lia.
  replace (e2 - E)%Z with ((e2 - mu) + (mu - E))%Z by lia.
  rewrite !Z.pow_add_r by (unfold mu; lia). rewrite !Z.mul_assoc.
  apply Zmult_compare_compat_r. apply Z.lt_gt.
  apply Z.pow_pos_nonneg; unfold mu; lia.
Qed.

Lemma b64_num_eq_sym (a b : Binary64.num) :
  Binary64.num_eq a b = Binary64.num_eq b a.
Proof.
  unfold Binary64.num_eq, Binary64.num_compare.
  destruct (Binary64.value_of a) as [| | |m1 e1],
           (Binary64.value_of b) as [| | |m2 e2]; try reflexivity.
  rewrite (Z.min_comm e2 e1). rewrite (Z.compare_antisym (Z.shiftl m1 _)).
  now destruct (Z.shiftl m1 _ ?= Z.shiftl m2 _)%Z.
Qed.

Lemma b64_num_eq_trans (a b c : Binary64.num) :
  Binary64.num_eq a b = true -> Binary64.num_eq b c = true ->
  Binary64.num_eq a c = true.
Proof.
  unfold Binary64.num_eq, Binary64.num_compare.
  destruct (Binary64.value_of a) as [| | |m1 e1],
           (Binary64.value_of b) as [| | |m2 e2],
           (Binary64.value_of c) as [| | |m3 e3];
    try discriminate; try reflexivity.
  set (E := Z.min e1 (Z.min e2 e3)).
  rewrite (@b64_compare_scaled m1 e1 m2 e2 E) by (unfold E; lia).
  rewrite (@b64_compare_scaled m2 e2 m3 e3 E) by (unfold E; lia).
  rewrite (@b64_compare_scaled m1 e1 m3 e3 E) by (unfold E; lia).
  destruct (Z.compare_spec (m1 * 2 ^ (e1 - E)) (m2 * 2 ^ (e2 - E))) as [H12| |];
    try discriminate.
  destruct (Z.compare_spec (m2 * 2 ^ (e2 - E)) (m3 * 2 ^ (e3 - E))) as [H23| |];
    try discriminate.
  intros _ _. rewrite H12, H23. now rewrite Z.compare_refl.
Qed.

Lemma b64_num_eq_not_lt (a b : Binary64.num) :
  Binary64.num_eq a b = true -> Binary64.num_lt a b = false.
Proof.
  unfold Binary64.num_eq, Binary64.num_lt.
  now destruct (Binary64.num_compare a b) as [[| |]|].
Qed.

Lemma b64_num_eq_le (a b : Binary64.num) :
  Binary64.num_eq a b = true -> Binary64.num_le a b = true.
Proof.
  unfold Binary64.num_eq, Binary64.num_le.
  now destruct (Binary64.num_compare a b) as [[| |]|].
Qed.

(** ** The arithmetic of a zero width *)

Lemma b64_sub_diag (f : spec_float) :
  Binary64.is_finite f = true ->
  SFsub Binary64.prec Binary64.emax f f = S754_zero false.
Proof.
  destruct f as [s|s| |s m e]; try discriminate; intros _.
  - now destruct s.
  - unfold SFsub. now rewrite Z.sub_diag.
Qed.

Lemma b64_add_zero (f : spec_float) :
  Binary64.is_finite f = true ->
  Binary64.num_eq
    (Binary64.PyFloat (SFadd Binary64.prec Binary64.emax f (S754_zero false)))
    (Binary64.PyFloat f) = true /\
  Binary64.is_finite (SFadd Binary64.prec Binary64.emax f (S754_zero false))
  = true.
Proof.
  destruct f as [s|s| |s m e]; try discriminate; intros _.
  - now destruct s.
  - split; [|reflexivity].
    unfold Binary64.num_eq, Binary64.num_compare. simpl.
    now rewrite Z.compare_refl.
Qed.

Section ConstantKeys.

Variables (x0 : Binary64.num) (f0 : spec_float) (n : Z).
Hypothesis Hx0 : Binary64.as_float x0 = ret f0.
Hypothesis Hfin : Binary64.is_finite f0 = true.
Hypothesis Hn : (2 <= n <= 2 ^ 53)%Z.

Lemma b64_divisor_float :
  exists m e, Binary64.float_of_int (n - 1) = ret (S754_finite false m e).
Proof.
  destruct (@float_of_int_small (n - 1)) as (f & Hf & [->|(m & e & ->)]);
    [lia | | eauto].
  exfalso. apply float_of_int_nonzero in Hf; [lia | reflexivity].
Qed.

Lemma b64_constant_key (i : Z) :
  (0 <= i < n)%Z ->
  (width <- Binary64.py_sub x0 x0 ;;
   p <- Binary64.py_mul (Binary64.PyInt i) width ;;
   q <- Binary64.py_truediv p (Binary64.PyInt (n - 1)) ;;
   Binary64.py_add x0 q)
  = ret (Binary64.PyFloat
           (SFadd Binary64.prec Binary64.emax f0 (S754_zero false))).
Proof.
  intros Hi. destruct x0 as [z|f].
  - unfold Binary64.py_sub, Binary64.py_mul, Binary64.arith at 1 2.
    cbn [bind ret]. rewrite Z.sub_diag, Z.mul_0_r.
    unfold Binary64.py_truediv.
    destruct (Z.eqb_spec (n - 1) 0) as [E|_]; [lia|].
    destruct (n - 1)%Z as [|p|p] eqn:En; try lia.
    cbn [Binary64.int_operand SFdiv xorb bind ret].
    unfold Binary64.py_add, Binary64.arith. rewrite Hx0. reflexivity.
  - simpl in Hx0. injection Hx0 as ->.
    unfold Binary64.py_sub, Binary64.arith at 1.
    cbn [Binary64.as_float bind ret]. rewrite (b64_sub_diag _ Hfin).
    unfold Binary64.py_mul, Binary64.arith.
    cbn [Binary64.as_float bind ret].
    destruct (@float_of_int_small i) as (fi & -> & Hfi); [lia|].
    cbn [bind ret].
    assert (Hmul : SFmul Binary64.prec Binary64.emax fi (S754_zero false)
                   = S754_zero false).
    { destruct Hfi as [->|(m & e & ->)]; reflexivity. }
    rewrite Hmul. unfold Binary64.py_truediv.
    cbn [Binary64.as_float bind ret].
    destruct b64_divisor_float as (m & e & ->). cbn [bind ret Binary64.is_zero].
    cbn [SFdiv xorb]. reflexivity.
Qed.

End ConstantKeys.

(** ** One key, repeated *)

Lemma mapM_constant (A B : Type) (f : A -> result B) (b : B) (l : list A) :
  (forall a, In a l -> f a = ret b) -> mapM f l = ret (repeat b (length l)).
Proof.
  induction l as [|a l IH]; intros Hf; simpl; [reflexivity|].
  rewrite (Hf a) by now left. cbn [bind ret].
  rewrite IH by (intros a' Ha'; apply Hf; now right). reflexivity.
Qed.

Lemma b64_extremum_of_equals (x : Binary64.num) (xs : list Binary64.num) :
  (forall y, In y xs -> Binary64.num_eq x y = true) ->
  Binary64.max_from x xs = x /\ Binary64.min_from x xs = x.
Proof.
  unfold Binary64.max_from, Binary64.min_from.
  induction xs as [|y xs IH]; intros Hall; simpl; [auto|].
  assert (Hy : Binary64.num_eq x y = true) by (apply Hall; now left).
  rewrite (b64_num_eq_not_lt _ _ Hy).
  rewrite b64_num_eq_sym in Hy. rewrite (b64_num_eq_not_lt _ _ Hy).
  apply IH. intros z Hz. apply Hall. now right.
Qed.

Lemma b64_dict_init_repeat (k : Binary64.num) (m : nat) :
  Binary64.dict_init (repeat k (S m)) = [(k, [])].
Proof.
  unfold Binary64.dict_init. simpl.
  induction m as [|m IH]; simpl; [reflexivity|].
  now rewrite b64_same_key_refl.
Qed.

Lemma b64_scan_repeat (k obs : Binary64.num) (m : nat) (indices : list Z)
      (d : Binary64.dict) :
  Binary64.num_lt obs k = false ->
  (forall i, In i indices -> (1 <= i < len (repeat k m))%Z) ->
  Binary64.scan (repeat k m) obs indices d = ret (true, d).
Proof.
  intros Hlt. induction indices as [|i rest IH]; intros Hi; simpl;
    [reflexivity|].
  assert (Hi0 : (1 <= i < len (repeat k m))%Z) by (apply Hi; now left).
  unfold Binary64.between.
  rewrite (@py_index_nonneg _ (repeat k m) (i - 1) k) by lia.
  rewrite (@py_index_nonneg _ (repeat k m) i k) by lia.
  rewrite !nth_repeat. cbn [bind ret]. rewrite Hlt.
  destruct (Binary64.num_le k obs); cbn [bind ret];
    apply IH; intros j Hj; apply Hi; now right.
Qed.

Lemma b64_place_repeat (k obs : Binary64.num) (m : nat)
      (l : list Binary64.num) :
  Binary64.num_lt obs k = false ->
  Binary64.place (repeat k (S m)) [(k, l)] obs = ret [(k, l ++ [obs])].
Proof.
  intros Hlt. unfold Binary64.place.
  rewrite b64_scan_repeat;
    [|exact Hlt | intros i Hi; now apply range2_In in Hi].
  cbn [bind ret].
  rewrite (@py_index_last _ (repeat k (S m)) k) by discriminate.
  assert (Hlast : last (repeat k (S m)) k = k).
  { apply (@repeat_spec _ (S m) k). apply last_In. discriminate. }
  rewrite Hlast. cbn [bind ret].
  unfold Binary64.dict_append. simpl. now rewrite b64_same_key_refl.
Qed.

Lemma b64_binning_repeat (k : Binary64.num) (m : nat)
      (data l : list Binary64.num) :
  (forall x, In x data -> Binary64.num_lt x k = false) ->
  foldM (Binary64.place (repeat k (S m))) data [(k, l)]
  = ret [(k, l ++ data)].
Proof.
  revert l. induction data as [|x data IH]; intros l Hall; cbn [foldM].
  - now rewrite app_nil_r.
  - rewrite b64_place_repeat by (apply Hall; now left). cbn [bind ret].
    rewrite IH by (intros y Hy; apply Hall; now right).
    now rewrite <- app_assoc.
Qed.

Lemma b64_float_exact_inv (x : Binary64.num) :
  Binary64.float_exact x = true ->
  exists f, Binary64.as_float x = ret f /\
            Binary64.is_finite f = true /\
            Binary64.num_eq (Binary64.PyFloat f) x = true.
Proof.
  unfold Binary64.float_exact.
  destruct (Binary64.as_float x) as [e|f]; [discriminate|].
  intros H. apply andb_true_iff in H. exists f. tauto.
Qed.

(** A dataset whose values are all equal, each held exactly by a float:
    the keys are all one float equal to that value, and the mapping has
    the single bin of that key, holding the dataset. *)
Lemma b64_constant_pipeline (data : list Binary64.num)
        (num_stacks : Z) (v : Binary64.num) :
  data <> [] ->
  (forall x, In x data ->
             Binary64.num_eq x v = true /\ Binary64.float_exact x = true) ->
  (2 <= num_stacks <= 2 ^ 53)%Z ->
  exists k,
    Binary64.num_eq k v = true /\
    Binary64.get_stack_keys data num_stacks
    = ret (repeat k (Z.to_nat num_stacks)) /\
    Binary64.get_stack_dict data num_stacks None = ret [(k, data)].
Proof.
  intros Hdata Hall Hn. destruct data as [|x0 xs]; [congruence|].
  destruct (Hall x0 (or_introl eq_refl)) as [Hx0v Hx0].
  destruct (b64_float_exact_inv _ Hx0) as (f0 & Hf0 & Hfin & Hf0x).
  set (k := Binary64.PyFloat
              (SFadd Binary64.prec Binary64.emax f0 (S754_zero false))).
  assert (Hk0 : Binary64.num_eq k x0 = true).
  { apply b64_num_eq_trans with (Binary64.PyFloat f0); [|exact Hf0x].
    apply (b64_add_zero _ Hfin). }
  assert (Hkv : Binary64.num_eq k v = true)
    by (now apply b64_num_eq_trans with x0).
  assert (Hext : Binary64.max_from x0 xs = x0 /\ Binary64.min_from x0 xs = x0).
  { apply b64_extremum_of_equals. intros y Hy.
    apply b64_num_eq_trans with v; [exact Hx0v|].
    rewrite b64_num_eq_sym. apply Hall. now right. }
  assert (Hkeys : Binary64.get_stack_keys (x0 :: xs) num_stacks
                  = ret (repeat k (Z.to_nat num_stacks))).
  { unfold Binary64.get_stack_keys. simpl Binary64.py_max.
    simpl Binary64.py_min. destruct Hext as [-> ->]. cbn [bind ret].
    rewrite (@mapM_constant _ _ _ k).
    - now rewrite range_length.
    - intros i Hi. apply range2_In in Hi.
      apply (@b64_constant_key x0 f0 num_stacks Hf0 Hfin Hn). lia. }
  exists k. split; [exact Hkv|]. split; [exact Hkeys|].
  unfold Binary64.get_stack_dict. rewrite Hkeys. cbn [bind ret].
  destruct (Z.to_nat num_stacks) as [|m] eqn:Em; [lia|].
  rewrite b64_dict_init_repeat.
  apply (@b64_binning_repeat k m (x0 :: xs) []).
  intros x Hx. apply b64_num_eq_not_lt.
  apply b64_num_eq_trans with v; [now apply Hall|].
  now rewrite b64_num_eq_sym.
Qed.

(** C8, as the code has it -- a constant dataset.  When all values of a
    non-empty dataset are equal and each is held exactly by a float (a
    finite float, or an [int] [z] with [float(z) == z], as every [int]
    below [2**53] in magnitude is), key generation with
    [2 <= num_stacks <= 2**53] succeeds and every key is one and the
    same float, equal to that value.  For data [5, 5, 5] and three
    stacks the keys are three times 5.0, the mapping has the single bin
    5.0 holding the three observations, and the points are (5.0, 1),
    (5.0, 2), (5.0, 3). *)
Theorem constant_dataset_collapses (data : list Binary64.num)
        (num_stacks : Z) (v : Binary64.num) :
  data <> [] ->
  (forall x, In x data ->
             Binary64.num_eq x v = true /\ Binary64.float_exact x = true) ->
  (2 <= num_stacks <= 2 ^ 53)%Z ->
  (exists ks, Binary64.get_stack_keys data num_stacks = ret ks /\
              len ks = num_stacks /\
              Forall (fun k => Binary64.num_eq k v = true) ks /\
              forall k k', In k ks -> In k' ks -> k = k') /\
  ((forall z, (- 2 ^ 53 < z < 2 ^ 53)%Z ->
              Binary64.float_exact (Binary64.PyInt z) = true) /\
   (forall f, Binary64.is_finite f = true ->
              Binary64.float_exact (Binary64.PyFloat f) = true)) /\
  (let five := Binary64.PyInt 5 in
   let k5 := Binary64.decimal 5 1 in
   Binary64.float_exact five = true /\
   Binary64.get_stack_keys [five; five; five] 3 = ret [k5; k5; k5] /\
   Binary64.num_eq k5 five = true /\
   Binary64.get_stack_dict [five; five; five] 3 None
   = ret [(k5, [five; five; five])] /\
   Binary64.get_points [(k5, [five; five; five])]
   = [(k5, 1%Z); (k5, 2%Z); (k5, 3%Z)]).
Proof.
  intros Hdata Hall Hn. split.
  - destruct (@b64_constant_pipeline data num_stacks v Hdata Hall Hn) as (k & Hk & Hks & _).
    exists (repeat k (Z.to_nat num_stacks)). split; [exact Hks|]. split.
    + unfold len. rewrite repeat_length. lia.
    + split.
      * apply Forall_forall. intros k' Hk'.
        apply repeat_spec in Hk'. now subst k'.
      * intros k1 k2 H1 H2. apply repeat_spec in H1, H2. congruence.
  - split.
    + split; [exact b64_small_int_exact | exact b64_finite_float_exact].
    + vm_compute. repeat split.
Qed.

Lemma constant_dataset_collapses_witness :
  exists ks,
    Binary64.get_stack_keys [Binary64.PyInt 7; Binary64.decimal 7 1] 2 = ret ks /\
    len ks = 2%Z /\
    Forall (fun k => Binary64.num_eq k (Binary64.PyInt 7) = true) ks /\
    forall k k', In k ks -> In k' ks -> k = k'.
Proof.
  refine (proj1 (@constant_dataset_collapses
                   [Binary64.PyInt 7; Binary64.decimal 7 1] 2
                   (Binary64.PyInt 7) _ _ _)).
  - discriminate.
  - intros x [<-|[<-|[]]]; vm_compute; auto.
  - lia.
Defined.

(** X11 -- a constant dataset gives one bin, on [int] and [float] data.
    When all values of a non-empty dataset are equal and each is held
    exactly by a float, and [2 <= num_stacks <= 2**53], the Binner
    returns a mapping with a single bin, keyed by a float equal to that
    value and holding the whole dataset in its order. *)
Theorem binner_constant_dataset_one_bin (data : list Binary64.num)
        (num_stacks : Z) (v : Binary64.num) :
  data <> [] ->
  (forall x, In x data ->
             Binary64.num_eq x v = true /\ Binary64.float_exact x = true) ->
  (2 <= num_stacks <= 2 ^ 53)%Z ->
  exists k, Binary64.num_eq k v = true /\
            Binary64.get_stack_dict data num_stacks None = ret [(k, data)].
Proof.
  intros Hdata Hall Hn.
  destruct (@b64_constant_pipeline data num_stacks v Hdata Hall Hn) as (k & Hk & _ & Hd).
  exists k. auto.
Qed.

Lemma binner_constant_dataset_one_bin_witness :
  exists k,
    Binary64.num_eq k (Binary64.PyInt 7) = true /\
    Binary64.get_stack_dict [Binary64.PyInt 7; Binary64.decimal 7 1] 2 None
    = ret [(k, [Binary64.PyInt 7; Binary64.decimal 7 1])].
Proof.
  apply binner_constant_dataset_one_bin.
  - discriminate.
  - intros x [<-|[<-|[]]]; vm_compute; auto.
  - lia.
Defined.

(** ** The stack count, on [int] and [float] data *)

Lemma b64_max_from_In (xs : list Binary64.num) (x : Binary64.num) :
  In (Binary64.max_from x xs) (x :: xs).
Proof.
  unfold Binary64.max_from. revert x.
  induction xs as [|y xs IH]; intros x; simpl; [now left|].
  destruct (Binary64.num_lt x y).
  - right. apply IH.
  - destruct (IH x) as [H|H]; [now left | right; now right].
Qed.

Lemma b64_min_from_In (xs : list Binary64.num) (x : Binary64.num) :
  In (Binary64.min_from x xs) (x :: xs).
Proof.
  unfold Binary64.min_from. revert x.
  induction xs as [|y xs IH]; intros x; simpl; [now left|].
  destruct (Binary64.num_lt y x).
  - right. apply IH.
  - destruct (IH x) as [H|H]; [now left | right; now right].
Qed.

Lemma b64_extrema (data : list Binary64.num) :
  data <> [] ->
  exists hi lo, Binary64.py_max data = ret hi /\ Binary64.py_min data = ret lo /\
                In hi data /\ In lo data.
Proof.
  destruct data as [|x xs]; [congruence|]. intros _.
  exists (Binary64.max_from x xs), (Binary64.min_from x xs).
  repeat split; [apply b64_max_from_In | apply b64_min_from_In].
Qed.

Lemma b64_single_stack_key (hi lo : Binary64.num) :
  (Binary64.is_int hi = Binary64.is_int lo ->
   (width <- Binary64.py_sub hi lo ;;
    p <- Binary64.py_mul (Binary64.PyInt 0) width ;;
    q <- Binary64.py_truediv p (Binary64.PyInt (1 - 1)) ;;
    Binary64.py_add lo q) = raise ZeroDivisionError) /\
  exists e,
    (width <- Binary64.py_sub hi lo ;;
     p <- Binary64.py_mul (Binary64.PyInt 0) width ;;
     q <- Binary64.py_truediv p (Binary64.PyInt (1 - 1)) ;;
     Binary64.py_add lo q) = raise e /\
    (e = ZeroDivisionError \/ e = OverflowError).
Proof.
  destruct hi as [a|a], lo as [b|b]; simpl Binary64.is_int.
  - split; [reflexivity|]. exists ZeroDivisionError. auto.
  - split; [discriminate|].
    unfold Binary64.py_sub, Binary64.arith. cbn [Binary64.as_float].
    destruct (Binary64.float_of_int a) as [e|fa] eqn:Ea; cbn [bind ret].
    + exists e. split; [reflexivity|]. right.
      now apply (@b64_as_float_raises (Binary64.PyInt a)).
    + exists ZeroDivisionError. auto.
  - split; [discriminate|].
    unfold Binary64.py_sub, Binary64.arith. cbn [Binary64.as_float].
    cbn [bind ret].
    destruct (Binary64.float_of_int b) as [e|fb] eqn:Eb; cbn [bind ret].
    + exists e. split; [reflexivity|]. right.
      now apply (@b64_as_float_raises (Binary64.PyInt b)).
    + exists ZeroDivisionError. auto.
  - split; [reflexivity|]. exists ZeroDivisionError. auto.
Qed.

Lemma b64_same_kind (data : list Binary64.num) (x y : Binary64.num) :
  forallb Binary64.is_int data = true \/
  forallb Binary64.is_float data = true ->
  In x data -> In y data -> Binary64.is_int x = Binary64.is_int y.
Proof.
  intros [H|H] Hx Hy; rewrite forallb_forall in H.
  - now rewrite (H x Hx), (H y Hy).
  - pose proof (H x Hx) as Hx'. pose proof (H y Hy) as Hy'.
    unfold Binary64.is_float in *.
    destruct (Binary64.is_int x), (Binary64.is_int y); auto; discriminate.
Qed.

(** X21 -- a stack count below two, on [int] and [float] data.  For a
    non-empty dataset, [num_stacks = 1] makes the Key Generator raise and
    return no key: a [ZeroDivisionError] when the data are all [int]s or
    all [float]s, and in a mixed dataset either that or the
    [OverflowError] of [max - min] when an [int] is beyond the float
    range (as for [10**400, 0.5]); [num_stacks <= 0] makes it return the
    empty key list. *)
Theorem key_generator_low_stack_count (data : list Binary64.num) :
  data <> [] ->
  (exists e, Binary64.get_stack_keys data 1 = raise e /\
             (e = ZeroDivisionError \/ e = OverflowError)) /\
  (forallb Binary64.is_int data = true \/
   forallb Binary64.is_float data = true ->
   Binary64.get_stack_keys data 1 = raise ZeroDivisionError) /\
  (forall n, (n <= 0)%Z -> Binary64.get_stack_keys data n = ret []) /\
  Binary64.get_stack_keys [Binary64.PyInt (10 ^ 400); Binary64.decimal 5 10] 1
  = raise OverflowError.
Proof.
  intros Hdata.
  destruct (b64_extrema Hdata) as (hi & lo & Hhi & Hlo & Hhi_in & Hlo_in).
  destruct (b64_single_stack_key hi lo) as [Hsame (e & He & Hcause)].
  unfold Binary64.get_stack_keys. rewrite Hhi, Hlo. cbn [bind ret].
  split; [|split; [|split]].
  - exists e. split; [|exact Hcause].
    change (range 1) with [0%Z]. cbn [mapM]. now rewrite He.
  - intros Hkind. change (range 1) with [0%Z]. cbn [mapM].
    now rewrite Hsame by (apply (@b64_same_kind data hi lo Hkind); assumption).
  - intros n Hn. unfold range, range2.
    replace (Z.to_nat (n - 0)) with 0%nat by lia. reflexivity.
  - vm_compute. reflexivity.
Qed.

Lemma key_generator_low_stack_count_witness :
  Binary64.get_stack_keys [Binary64.decimal 3 10; Binary64.decimal 9 10] 1
  = raise ZeroDivisionError.
Proof.
  refine (proj1 (proj2 (@key_generator_low_stack_count
                          [Binary64.decimal 3 10; Binary64.decimal 9 10] _)) _).
  - discriminate.
  - right. reflexivity.
Defined.

(** ** Total coverage, on [int] and [float] data *)

Lemma mapM_total (A B : Type) (f : A -> result B) (P : B -> Prop)
      (l : list A) :
  (forall a, In a l -> exists b, f a = ret b /\ P b) ->
  exists bs, mapM f l = ret bs /\ length bs = length l /\ Forall P bs.
Proof.
  induction l as [|a l IH]; intros Hf; simpl.
  - exists []. auto.
  - destruct (Hf a (or_introl eq_refl)) as (b & -> & Hb). cbn [bind ret].
    destruct IH as (bs & -> & Hlen & Hall).
    { intros a' Ha'. apply Hf. now right. }
    cbn [bind ret]. exists (b :: bs). simpl. auto.
Qed.

Lemma b64_float_key (hi lo : Binary64.num) (n i : Z) :
  Binary64.is_float hi = true -> Binary64.is_float lo = true ->
  (2 <= n <= 2 ^ 53)%Z -> (0 <= i < n)%Z ->
  exists k,
    (width <- Binary64.py_sub hi lo ;;
     p <- Binary64.py_mul (Binary64.PyInt i) width ;;
     q <- Binary64.py_truediv p (Binary64.PyInt (n - 1)) ;;
     Binary64.py_add lo q) = ret k /\
    Binary64.is_float k = true.
Proof.
  intros Hhi Hlo Hn Hi.
  destruct hi as [a|a]; [discriminate|]. destruct lo as [b|b]; [discriminate|].
  unfold Binary64.py_sub, Binary64.arith at 1.
  cbn [Binary64.as_float bind ret].
  unfold Binary64.py_mul, Binary64.arith. cbn [Binary64.as_float bind ret].
  destruct (@float_of_int_small i) as (fi & -> & _); [lia|]. cbn [bind ret].
  unfold Binary64.py_truediv. cbn [Binary64.as_float bind ret].
  destruct (b64_divisor_float Hn) as (m & e & ->).
  cbn [bind ret Binary64.is_zero].
  unfold Binary64.py_add, Binary64.arith. cbn [Binary64.as_float bind ret].
  eexists. split; reflexivity.
Qed.

Lemma b64_float_keys (data : list Binary64.num) (num_stacks : Z) :
  data <> [] -> forallb Binary64.is_float data = true ->
  (2 <= num_stacks <= 2 ^ 53)%Z ->
  exists ks, Binary64.get_stack_keys data num_stacks = ret ks /\
             len ks = num_stacks /\
             Forall (fun k => Binary64.is_float k = true) ks.
Proof.
  intros Hdata Hfl Hn.
  destruct (b64_extrema Hdata) as (hi & lo & Hhi & Hlo & Hhi_in & Hlo_in).
  rewrite forallb_forall in Hfl.
  destruct (@mapM_total _ _
              (fun i =>
                 width <- Binary64.py_sub hi lo ;;
                 p <- Binary64.py_mul (Binary64.PyInt i) width ;;
                 q <- Binary64.py_truediv p (Binary64.PyInt (num_stacks - 1)) ;;
                 Binary64.py_add lo q)
              (fun k => Binary64.is_float k = true) (range num_stacks))
    as (ks & Hks & Hlen & Hall).
  { intros i Hi. apply range2_In in Hi.
    apply b64_float_key; auto. }
  exists ks. split; [|split; [|exact Hall]].
  - unfold Binary64.get_stack_keys. rewrite Hhi, Hlo. exact Hks.
  - unfold len. rewrite Hlen, range_length. lia.
Qed.

(** X22 -- total coverage, on [int] and [float] data.  Whatever the
    boundary keys, provided there is one, the Binner returns a mapping
    whose bin lists hold exactly the observations of the dataset, each
    one once, and in which every boundary key is a key.  For a non-empty
    dataset of floats and [2 <= num_stacks <= 2**53] the Key Generator
    returns [num_stacks] float keys, so the Binner returns such a
    mapping. *)
Theorem binner_covers_float_data (data : list Binary64.num) (num_stacks : Z) :
  (forall keys ks,
      Binary64.boundary_keys data num_stacks keys = ret ks -> ks <> [] ->
      exists d, Binary64.get_stack_dict data num_stacks keys = ret d /\
                Permutation (Binary64.bin_contents d) data /\
                Binary64.covered ks d) /\
  (data <> [] -> forallb Binary64.is_float data = true ->
   (2 <= num_stacks <= 2 ^ 53)%Z ->
   exists ks d,
     Binary64.get_stack_keys data num_stacks = ret ks /\
     len ks = num_stacks /\
     Forall (fun k => Binary64.is_float k = true) ks /\
     Binary64.get_stack_dict data num_stacks None = ret d /\
     Permutation (Binary64.bin_contents d) data).
Proof.
  assert (Hbin : forall keys ks,
             Binary64.boundary_keys data num_stacks keys = ret ks -> ks <> [] ->
             exists d, Binary64.get_stack_dict data num_stacks keys = ret d /\
                       Permutation (Binary64.bin_contents d) data /\
                       Binary64.covered ks d).
  { intros keys ks Hks Hne. unfold Binary64.get_stack_dict.
    unfold Binary64.boundary_keys in Hks. rewrite Hks. cbn [bind ret].
    destruct (@b64_binning_returns ks data (Binary64.dict_init ks) Hne
                (b64_dict_init_covered ks)) as (d & Hd & Hk & Hp).
    exists d. split; [exact Hd|]. split.
    - rewrite b64_dict_init_empty, app_nil_r in Hp. exact Hp.
    - intros k Hin. rewrite Hk. now apply b64_dict_init_covered. }
  split; [exact Hbin|]. intros Hdata Hfl Hn.
  destruct (b64_float_keys Hdata Hfl Hn) as (ks & Hkeys & Hlen & Hall).
  assert (Hne : ks <> []).
  { intros E. rewrite E in Hlen. unfold len in Hlen. simpl in Hlen. lia. }
  destruct (Hbin None ks Hkeys Hne) as (d & Hd & Hp & _).
  exists ks, d. auto.
Qed.

Lemma binner_covers_float_data_witness :
  exists ks d,
    Binary64.get_stack_keys
      [Binary64.decimal 3 10; Binary64.decimal 5 10; Binary64.decimal 9 10] 5
    = ret ks /\
    len ks = 5%Z /\
    Forall (fun k => Binary64.is_float k = true) ks /\
    Binary64.get_stack_dict
      [Binary64.decimal 3 10; Binary64.decimal 5 10; Binary64.decimal 9 10]
      5 None = ret d /\
    Permutation (Binary64.bin_contents d)
      [Binary64.decimal 3 10; Binary64.decimal 5 10; Binary64.decimal 9 10].
Proof.
  apply (proj2 (binner_covers_float_data
                  [Binary64.decimal 3 10; Binary64.decimal 5 10;
                   Binary64.decimal 9 10] 5)).
  - discriminate.
  - reflexivity.
  - lia.
Defined.

(** ** The first key, on [float] data *)

Lemma mapM_nth (A B : Type) (f : A -> result B) (l : list A) (bs : list B)
      (i : nat) (a : A) (b : B) :
  mapM f l = ret bs -> (i < length l)%nat ->
  f (nth i l a) = ret (nth i bs b).
Proof.
  revert bs i. induction l as [|x l IH]; intros bs i; simpl; [lia|].
  destruct (f x) as [e|y] eqn:Ex; cbn [bind ret]; [discriminate|].
  destruct (mapM f l) as [e|ys]; cbn [bind ret]; [discriminate|].
  intros H Hi. injection H as <-. destruct i as [|i]; simpl.
  - exact Ex.
  - apply IH; [reflexivity | lia].
Qed.

Lemma b64_first_key_value (b w : spec_float) (m : positive) (e : Z) :
  Binary64.is_finite w = true ->
  Binary64.is_nan (Binary64.PyFloat b) = false ->
  Binary64.num_eq
    (Binary64.PyFloat
       (SFadd Binary64.prec Binary64.emax b
          (SFdiv Binary64.prec Binary64.emax
             (SFmul Binary64.prec Binary64.emax (S754_zero false) w)
             (S754_finite false m e))))
    (Binary64.PyFloat b) = true.
Proof.
  intros Hw Hb.
  assert (Hz : exists s,
             SFdiv Binary64.prec Binary64.emax
               (SFmul Binary64.prec Binary64.emax (S754_zero false) w)
               (S754_finite false m e) = S754_zero s).
  { destruct w as [s|s| |s mw ew]; try discriminate; simpl; eauto. }
  destruct Hz as (s & ->).
  unfold Binary64.num_eq.
  destruct b as [sb|sb| |sb mb eb]; try discriminate.
  - now destruct sb, s.
  - now destruct sb.
  - cbn [SFadd]. now rewrite b64_num_compare_refl.
Qed.

(** X23 -- the first key, on [float] data.  For a dataset of floats
    whose minimum is not a NaN and whose width [max - min] is finite (it
    did not overflow), and [2 <= num_stacks <= 2**53], the Key Generator
    returns [num_stacks] keys, the first of which equals the minimum of
    the data: [min + 0 * width / (num_stacks - 1)] adds a zero. *)
Theorem key_generator_first_key_is_min (data : list Binary64.num)
        (num_stacks : Z) (hi lo : Binary64.num) (w : spec_float) :
  forallb Binary64.is_float data = true ->
  Binary64.py_max data = ret hi -> Binary64.py_min data = ret lo ->
  Binary64.py_sub hi lo = ret (Binary64.PyFloat w) ->
  Binary64.is_finite w = true -> Binary64.is_nan lo = false ->
  (2 <= num_stacks <= 2 ^ 53)%Z ->
  exists ks, Binary64.get_stack_keys data num_stacks = ret ks /\
             len ks = num_stacks /\
             Binary64.num_eq (nth 0 ks lo) lo = true.
Proof.
  intros Hfl Hhi Hlo Hsub Hw Hnan Hn.
  assert (Hdata : data <> []) by (intros ->; discriminate).
  destruct (b64_float_keys Hdata Hfl Hn) as (ks & Hks & Hlen & _).
  exists ks. split; [exact Hks|]. split; [exact Hlen|].
  unfold Binary64.get_stack_keys in Hks. rewrite Hhi, Hlo in Hks.
  cbn [bind ret] in Hks.
  pose proof (@mapM_nth _ _ _ _ ks 0 0%Z lo Hks) as H0.
  rewrite range_length in H0. specialize (H0 ltac:(lia)).
  change (nth 0 (range num_stacks) 0%Z)
    with (nth (Z.to_nat 0) (range num_stacks) 0%Z) in H0.
  rewrite range_nth in H0 by lia.
  rewrite Hsub in H0. cbn [bind ret] in H0.
  destruct (b64_extrema Hdata) as (hi' & lo' & Hhi' & Hlo' & _ & Hlo_in).
  rewrite Hlo in Hlo'. injection Hlo' as <-.
  rewrite forallb_forall in Hfl. pose proof (Hfl lo Hlo_in) as Hlof.
  destruct lo as [z|b]; [discriminate|].
  unfold Binary64.py_mul, Binary64.arith in H0.
  cbn [Binary64.as_float bind ret] in H0.
  change (Binary64.float_of_int 0) with (@ret spec_float (S754_zero false)) in H0.
  cbn [bind ret] in H0.
  unfold Binary64.py_truediv in H0. cbn [Binary64.as_float bind ret] in H0.
  destruct (b64_divisor_float Hn) as (m & e & Hdiv). rewrite Hdiv in H0.
  cbn [bind ret Binary64.is_zero] in H0.
  unfold Binary64.py_add, Binary64.arith in H0.
  cbn [Binary64.as_float bind ret] in H0.
  injection H0 as H0. rewrite <- H0.
  now apply b64_first_key_value.
Qed.

Lemma key_generator_first_key_is_min_witness :
  exists ks,
    Binary64.get_stack_keys [Binary64.decimal 3 10; Binary64.decimal 9 10] 2
    = ret ks /\
    len ks = 2%Z /\
    Binary64.num_eq (nth 0 ks (Binary64.decimal 3 10)) (Binary64.decimal 3 10)
    = true.
Proof.
  apply (@key_generator_first_key_is_min
           [Binary64.decimal 3 10; Binary64.decimal 9 10] 2
           (Binary64.decimal 9 10) (Binary64.decimal 3 10)
           (S754_finite false 5404319552844596 (-53)));
    try reflexivity. lia.
Defined.
